(** * AMI quality-control engine (tasks/ami/ami_qc/ami_qc_alliant.py)

    A shallow embedding of [QualityAlliant]: the file-name cleaner, the
    metric registry [QC_META], the metric evaluator, the decrypt joiners,
    the four step functions and the run controller, together with the
    properties the specification states about them.

    Python integers are [Z]; a Python value that may be [None] is an
    [option]; a [str] is a [string]; a nullable dataframe column holds an
    [option].  Code with effects (the module-level list
    [COMPLETED_QC_STEP_LIST], writes to storage, temp views, the log, raised
    exceptions) runs in the monad [M] over an explicit [World]. *)

From Stdlib Require Import ZArith List String Ascii Bool Lia Permutation.
From Stdlib Require Import DecimalString.
Import ListNotations.

Open Scope string_scope.
Open Scope Z_scope.

(** ** Python string primitives used by the source *)

Module Py.

(** [s.split(sep)] for a one-character separator: never the empty list. *)
Fixpoint split (sep : ascii) (s : string) : list string :=
  match s with
  | EmptyString => [EmptyString]
  | String c s' =>
      if Ascii.eqb c sep then EmptyString :: split sep s'
      else match split sep s' with
           | [] => [String c EmptyString]
           | h :: t => String c h :: t
           end
  end.

(** [xs[-1]] on a list of strings. *)
Definition last_item (xs : list string) : string := List.last xs EmptyString.

(** [s.find(c)] for a one-character needle: the first index, or -1. *)
Fixpoint find (c : ascii) (s : string) : Z :=
  match s with
  | EmptyString => -1
  | String d s' =>
      if Ascii.eqb d c then 0
      else let i := find c s' in if i <? 0 then -1 else i + 1
  end.

(** [s[0:n]] for [0 <= n]. *)
Fixpoint prefix (n : nat) (s : string) : string :=
  match n, s with
  | O, _ => EmptyString
  | S _, EmptyString => EmptyString
  | S k, String c s' => String c (prefix k s')
  end.

Definition slice_to (n : Z) (s : string) : string := prefix (Z.to_nat n) s.

(** [len(s)] *)
Definition len (s : string) : Z := Z.of_nat (String.length s).

(** ['{}'.format(n)] for an integer. *)
Definition str_of_int (n : Z) : string := NilZero.string_of_int (Z.to_int n).

(** [''.join(xs)] *)
Definition join (xs : list string) : string :=
  fold_right String.append EmptyString xs.

(** [os.path.join(a, b)] on POSIX paths. *)
Definition starts_with (c : ascii) (s : string) : bool :=
  match s with
  | String d _ => Ascii.eqb d c
  | EmptyString => false
  end.

Fixpoint ends_with (c : ascii) (s : string) : bool :=
  match s with
  | EmptyString => false
  | String d EmptyString => Ascii.eqb d c
  | String _ s' => ends_with c s'
  end.

Definition path_join2 (a b : string) : string :=
  if starts_with "/" b then b
  else if orb (String.eqb a EmptyString) (ends_with "/" a) then a ++ b
  else a ++ "/" ++ b.

Definition path_join (a : string) (rest : list string) : string :=
  fold_left path_join2 rest a.

End Py.

(** ** clean_file_name (lines 141-157) *)

Definition UNKNOWN : string := "UNKNOWN".

(** [clean_file_name(full_name, default='UNKNOWN')]; [None] is Python's
    [None]. *)
Definition clean_file_name (full_name : option string) (default : string) : string :=
  match full_name with
  | None => default
  | Some s =>
      if Py.len s <? 1 then default
      else
        let fname := Py.last_item (Py.split "/" s) in
        let dotidx := Py.find "." fname in
        if 0 <? dotidx then Py.slice_to dotidx fname else fname
  end.

(** The one-argument call made by the UDF. *)
Definition clean (full_name : option string) : string :=
  clean_file_name full_name UNKNOWN.

(** *** The cleaning rule in the specification's words

    "take substring after last [/], truncate at first [.]; empty/missing
    input maps to a sentinel [UNKNOWN]". *)

Fixpoint mem_char (c : ascii) (s : string) : bool :=
  match s with
  | EmptyString => false
  | String d s' => orb (Ascii.eqb d c) (mem_char c s')
  end.

Fixpoint after_last (c : ascii) (s : string) : string :=
  match s with
  | EmptyString => EmptyString
  | String d s' =>
      if mem_char c s' then after_last c s'
      else if Ascii.eqb d c then s' else s
  end.

Fixpoint before_first (c : ascii) (s : string) : string :=
  match s with
  | EmptyString => EmptyString
  | String d s' => if Ascii.eqb d c then EmptyString else String d (before_first c s')
  end.

Definition clean_rule_spec (full_name : option string) : string :=
  match full_name with
  | None => UNKNOWN
  | Some EmptyString => UNKNOWN
  | Some s => before_first "." (after_last "/" s)
  end.

(** ** Exceptions and results *)

Inductive exn : Type :=
| KeyError (key : string)
| TypeError (what : string)
| ValueError (what : string)
| IndexError
| AnalysisException (what : string)
| PersistenceFailure (path : string).

Inductive result (A : Type) : Type :=
| Ok (a : A)
| Raise (e : exn).
Arguments Ok {A} a.
Arguments Raise {A} e.

Definition rbind {A B} (r : result A) (k : A -> result B) : result B :=
  match r with
  | Ok a => k a
  | Raise e => Raise e
  end.

(** ** Dataframes

    A dataframe is its schema (the column names, in order) and its rows; a
    row gives the cell of every column by name.  Cells are SQL values:
    null, an integer or a string.  Arithmetic of the engine on integer
    columns is taken as exact. *)

Inductive value : Type :=
| VNull
| VInt (z : Z)
| VStr (s : string).

Definition Row : Type := string -> value.

Record DataFrame : Type := mkDF {
  columns : list string;
  rows : list Row
}.

Definition of_opt_int (o : option Z) : value :=
  match o with Some z => VInt z | None => VNull end.

Definition of_opt_str (o : option string) : value :=
  match o with Some s => VStr s | None => VNull end.

(** A row from its cells, listed by column. *)
Fixpoint row_of (cells : list (string * value)) : Row :=
  fun c =>
    match cells with
    | [] => VNull
    | (k, v) :: rest => if String.eqb c k then v else row_of rest c
    end.

Definition value_eqb (a b : value) : bool :=
  match a, b with
  | VNull, VNull => true
  | VInt x, VInt y => x =? y
  | VStr x, VStr y => String.eqb x y
  | _, _ => false
  end.

Definition has_column (c : string) (d : DataFrame) : bool :=
  existsb (String.eqb c) (columns d).

(** [df.count()] *)
Definition count (d : DataFrame) : Z := Z.of_nat (List.length (rows d)).

(** *** SQL comparison, three-valued

    A comparison with a null operand is null.  The registered predicates
    compare integer columns with integer literals or with one another; a
    comparison across types, where the engine would insert a cast, is
    outside that use and is given null here. *)

Definition sql_eq (a b : value) : option bool :=
  match a, b with
  | VInt x, VInt y => Some (x =? y)
  | VStr x, VStr y => Some (String.eqb x y)
  | _, _ => None
  end.

Definition sql_ne (a b : value) : option bool := option_map negb (sql_eq a b).

Definition sql_and (a b : option bool) : option bool :=
  match a, b with
  | Some false, _ => Some false
  | _, Some false => Some false
  | Some true, Some true => Some true
  | _, _ => None
  end.

(** [when(cond, lit(1)).otherwise(lit(0))]: a null condition takes the
    [otherwise] branch. *)
Definition when_1_else_0 (cond : option bool) : Z :=
  match cond with Some true => 1 | _ => 0 end.

(** *** Filter expressions

    [df.filter('<string>')] hands the string to the engine's SQL parser.
    The grammar below covers what the registry uses: comparisons [a = b]
    and [a != b] between column names and integer literals, joined by
    [AND]. *)

Inductive sqlexpr : Type :=
| ECol (c : string)
| ELit (z : Z).

Inductive sqlpred : Type :=
| PEq (a b : sqlexpr)
| PNe (a b : sqlexpr)
| PAnd (p q : sqlpred).

Definition is_digit (c : ascii) : bool :=
  let n := N_of_ascii c in andb (48 <=? n)%N (n <=? 57)%N.

Fixpoint all_digits (s : string) : bool :=
  match s with
  | EmptyString => true
  | String c s' => andb (is_digit c) (all_digits s')
  end.

Fixpoint digits_value (acc : Z) (s : string) : Z :=
  match s with
  | EmptyString => acc
  | String c s' => digits_value (10 * acc + (Z.of_N (N_of_ascii c) - 48)) s'
  end.

Definition parse_atom (tok : string) : sqlexpr :=
  if andb (negb (String.eqb tok EmptyString)) (all_digits tok)
  then ELit (digits_value 0 tok) else ECol tok.

Definition parse_cmp (a op b : string) : option sqlpred :=
  if String.eqb op "=" then Some (PEq (parse_atom a) (parse_atom b))
  else if String.eqb op "!=" then Some (PNe (parse_atom a) (parse_atom b))
  else None.

Fixpoint parse_tokens (toks : list string) : option sqlpred :=
  match toks with
  | [a; op; b] => parse_cmp a op b
  | a :: op :: b :: kw :: rest =>
      if String.eqb kw "AND" then
        match parse_cmp a op b, parse_tokens rest with
        | Some p, Some q => Some (PAnd p q)
        | _, _ => None
        end
      else None
  | _ => None
  end.

Definition tokens (s : string) : list string :=
  List.filter (fun t => negb (String.eqb t EmptyString)) (Py.split " " s).

Definition parse_filter (s : string) : option sqlpred := parse_tokens (tokens s).

Definition eval_expr (e : sqlexpr) (r : Row) : value :=
  match e with
  | ECol c => r c
  | ELit z => VInt z
  end.

Fixpoint eval_pred (p : sqlpred) (r : Row) : option bool :=
  match p with
  | PEq a b => sql_eq (eval_expr a r) (eval_expr b r)
  | PNe a b => sql_ne (eval_expr a r) (eval_expr b r)
  | PAnd p q => sql_and (eval_pred p r) (eval_pred q r)
  end.

(** A row passes a filter when the predicate is true on it (not false, not
    null). *)
Definition holds (p : sqlpred) (r : Row) : bool :=
  match eval_pred p r with Some true => true | _ => false end.

Definition expr_columns (e : sqlexpr) : list string :=
  match e with ECol c => [c] | ELit _ => [] end.

Fixpoint pred_columns (p : sqlpred) : list string :=
  match p with
  | PEq a b | PNe a b => expr_columns a ++ expr_columns b
  | PAnd p q => pred_columns p ++ pred_columns q
  end.

Definition resolves (p : sqlpred) (d : DataFrame) : bool :=
  forallb (fun c => has_column c d) (pred_columns p).

(** [df.filter(p)]: a column the schema lacks is an analysis error. *)
Definition df_filter (p : sqlpred) (d : DataFrame) : result DataFrame :=
  if resolves p d then Ok (mkDF (columns d) (List.filter (holds p) (rows d)))
  else Raise (AnalysisException "cannot resolve column").

(** [df.filter('<string>')] *)
Definition filter_str (s : string) (d : DataFrame) : result DataFrame :=
  match parse_filter s with
  | Some p => df_filter p d
  | None => Raise (AnalysisException "cannot parse filter")
  end.

(** [df.withColumn(c, lit(v))]: replaces the column if the schema has it,
    appends it otherwise. *)
Definition set_cell (c : string) (v : value) (r : Row) : Row :=
  fun k => if String.eqb k c then v else r k.

Definition withColumn_lit (c : string) (v : value) (d : DataFrame) : DataFrame :=
  mkDF (if has_column c d then columns d else columns d ++ [c])
       (map (set_cell c v) (rows d)).

(** [df.agg({c: 'sum'}).collect()[0][0]]: nulls do not contribute, and the
    sum of no value is null ([None] in Python). *)
Fixpoint sum_cells (vs : list value) : option Z :=
  match vs with
  | [] => None
  | v :: rest =>
      match v, sum_cells rest with
      | VInt z, Some s => Some (z + s)
      | VInt z, None => Some z
      | _, s => s
      end
  end.

Definition agg_sum (c : string) (d : DataFrame) : result (option Z) :=
  if has_column c d then Ok (sum_cells (map (fun r => r c) (rows d)))
  else Raise (AnalysisException "cannot resolve column").

(** [df.select(cols).distinct().count()] *)
Definition project (cols : list string) (r : Row) : list value :=
  map r cols.

Fixpoint list_value_eqb (a b : list value) : bool :=
  match a, b with
  | [], [] => true
  | x :: a', y :: b' => andb (value_eqb x y) (list_value_eqb a' b')
  | _, _ => false
  end.

Fixpoint dedup (xs : list (list value)) : list (list value) :=
  match xs with
  | [] => []
  | x :: rest => if existsb (list_value_eqb x) rest then dedup rest else x :: dedup rest
  end.

Definition select_distinct_count (cols : list string) (d : DataFrame) : result Z :=
  if forallb (fun c => has_column c d) cols
  then Ok (Z.of_nat (List.length (dedup (map (project cols) (rows d)))))
  else Raise (AnalysisException "cannot resolve column").

(** [a.union(b)]: by position; the schema is the left one's. *)
Fixpoint list_string_eqb (a b : list string) : bool :=
  match a, b with
  | [], [] => true
  | x :: a', y :: b' => andb (String.eqb x y) (list_string_eqb a' b')
  | _, _ => false
  end.

Fixpoint rekey (from to : list string) (r : Row) : Row :=
  fun c =>
    match from, to with
    | f :: from', t :: to' => if String.eqb c t then r f else rekey from' to' r c
    | _, _ => VNull
    end.

Definition union (a b : DataFrame) : result DataFrame :=
  if list_string_eqb (columns a) (columns b) then
    Ok (mkDF (columns a) (rows a ++ rows b))
  else if Nat.eqb (List.length (columns a)) (List.length (columns b)) then
    Ok (mkDF (columns a) (rows a ++ map (rekey (columns b) (columns a)) (rows b)))
  else Raise (AnalysisException "union: number of columns differs").

(** [df.orderBy(col(c))]: ascending, nulls first; modelled as a stable
    insertion sort. *)
Definition value_leb (a b : value) : bool :=
  match a, b with
  | VNull, _ => true
  | _, VNull => false
  | VInt x, VInt y => x <=? y
  | VInt _, VStr _ => true
  | VStr _, VInt _ => false
  | VStr x, VStr y => String.leb x y
  end.

Fixpoint insert_by {A} (leb : A -> A -> bool) (x : A) (xs : list A) : list A :=
  match xs with
  | [] => [x]
  | y :: ys => if leb x y then x :: xs else y :: insert_by leb x ys
  end.

Fixpoint sort_by {A} (leb : A -> A -> bool) (xs : list A) : list A :=
  match xs with
  | [] => []
  | x :: rest => insert_by leb x (sort_by leb rest)
  end.

Definition orderBy (c : string) (d : DataFrame) : result DataFrame :=
  if has_column c d
  then Ok (mkDF (columns d) (sort_by (fun r1 r2 => value_leb (r1 c) (r2 c)) (rows d)))
  else Raise (AnalysisException "cannot resolve column").

(** ** JSON payloads and [json.dumps] *)

Inductive jkey : Type :=
| KInt (z : Z)
| KStr (s : string).

#[local] Set Warnings "-register-all".

Inductive json : Type :=
| JNull
| JBool (b : bool)
| JInt (z : Z)
| JStr (s : string)
| JObj (fields : list (jkey * json)).

Definition jkey_eqb (a b : jkey) : bool :=
  match a, b with
  | KInt x, KInt y => x =? y
  | KStr x, KStr y => String.eqb x y
  | _, _ => false
  end.

Definition jkey_leb (a b : jkey) : bool :=
  match a, b with
  | KInt x, KInt y => x <=? y
  | KStr x, KStr y => String.leb x y
  | KInt _, KStr _ => true
  | KStr _, KInt _ => false
  end.

(** [d.update({k: v})] on an insertion-ordered dict. *)
Fixpoint dict_update (k : jkey) (v : json) (d : list (jkey * json)) : list (jkey * json) :=
  match d with
  | [] => [(k, v)]
  | (k', v') :: rest =>
      if jkey_eqb k' k then (k', v) :: rest else (k', v') :: dict_update k v rest
  end.


Definition hex_digit (n : N) : ascii :=
  ascii_of_N (if (n <? 10)%N then 48 + n else 87 + n).

(** The escape of one character under [ensure_ascii=True]. *)
Definition escape_char (c : ascii) : string :=
  let n := N_of_ascii c in
  if (n =? 34)%N then String (ascii_of_N 92) (String (ascii_of_N 34) EmptyString)
  else if (n =? 92)%N then "\\"
  else if (n =? 10)%N then "\n"
  else if (n =? 13)%N then "\r"
  else if (n =? 9)%N then "\t"
  else if (n =? 8)%N then "\b"
  else if (n =? 12)%N then "\f"
  else if andb (32 <=? n)%N (n <=? 126)%N then String c EmptyString
  else "\u00" ++ String (hex_digit (n / 16)) (String (hex_digit (n mod 16)) EmptyString).

Fixpoint escape (s : string) : string :=
  match s with
  | EmptyString => EmptyString
  | String c s' => escape_char c ++ escape s'
  end.

Definition quote (s : string) : string :=
  String (ascii_of_N 34) (escape s ++ String (ascii_of_N 34) EmptyString).

Definition key_text (k : jkey) : string :=
  match k with
  | KInt z => Py.str_of_int z
  | KStr s => s
  end.

Fixpoint join_with (sep : string) (xs : list string) : string :=
  match xs with
  | [] => EmptyString
  | [x] => x
  | x :: rest => x ++ sep ++ join_with sep rest
  end.

(** [json.dumps(j)] *)
Fixpoint dumps (j : json) : string :=
  match j with
  | JNull => "null"
  | JBool true => "true"
  | JBool false => "false"
  | JInt z => Py.str_of_int z
  | JStr s => quote s
  | JObj fields =>
      "{" ++ join_with ", "
               (map (fun kv => quote (key_text (fst kv)) ++ ": " ++ dumps (snd kv)) fields)
          ++ "}"
  end.

(** [sort_keys=True] orders the keys of every object. *)
Fixpoint sort_keys (j : json) : json :=
  match j with
  | JObj fields =>
      JObj (sort_by (fun a b => jkey_leb (fst a) (fst b))
                    (map (fun kv => (fst kv, sort_keys (snd kv))) fields))
  | other => other
  end.

Definition dumps_sorted (j : json) : string := dumps (sort_keys j).

(** ** The world the engine runs in *)

Inductive Source : Type :=
| InMemory
| FromStorage (path : string).

Record View : Type := mkView {
  view_source : Source;
  view_data : DataFrame
}.

Record Stored : Type := mkStored {
  stored_format : string;
  stored_data : DataFrame
}.

Inductive level : Type := INFO | ERROR.

(** A call into the persistence collaborator, recorded when it is made. *)
Inductive call : Type :=
| SaveErrorRows (df_errors : DataFrame) (step_number metric_number : Z)
| SaveOutput (df : DataFrame) (output_type : Z).

Record World : Type := mkWorld {
  (** the module-level global of line 57 *)
  COMPLETED_QC_STEP_LIST : list DataFrame;
  (** what has been written, most recent first; [mode='overwrite'] *)
  storage : list (string * Stored);
  (** temp views of the session, most recent first *)
  views : list (string * View);
  (** the log, most recent first *)
  log : list (level * string);
  (** the calls of [save_error_rows] and [save_output], most recent first *)
  calls : list call
}.

Definition set_completed (l : list DataFrame) (w : World) : World :=
  mkWorld l (storage w) (views w) (log w) (calls w).
Definition set_storage (s : list (string * Stored)) (w : World) : World :=
  mkWorld (COMPLETED_QC_STEP_LIST w) s (views w) (log w) (calls w).
Definition set_views (v : list (string * View)) (w : World) : World :=
  mkWorld (COMPLETED_QC_STEP_LIST w) (storage w) v (log w) (calls w).
Definition set_log (l : list (level * string)) (w : World) : World :=
  mkWorld (COMPLETED_QC_STEP_LIST w) (storage w) (views w) l (calls w).
Definition set_calls (c : list call) (w : World) : World :=
  mkWorld (COMPLETED_QC_STEP_LIST w) (storage w) (views w) (log w) c.

Fixpoint assoc {A} (k : string) (l : list (string * A)) : option A :=
  match l with
  | [] => None
  | (k', v) :: rest => if String.eqb k' k then Some v else assoc k rest
  end.

(** ** The monad of effectful code: state and exceptions *)

Definition M (A : Type) : Type := World -> result A * World.

Definition ret {A} (a : A) : M A := fun w => (Ok a, w).

Definition raise {A} (e : exn) : M A := fun w => (Raise e, w).

Definition bind {A B} (m : M A) (k : A -> M B) : M B :=
  fun w =>
    match m w with
    | (Ok a, w') => k a w'
    | (Raise e, w') => (Raise e, w')
    end.

Definition lift {A} (r : result A) : M A := fun w => (r, w).

(** [try: m  except Exception as e: h(e)] *)
Definition try_except {A} (m : M A) (h : exn -> M A) : M A :=
  fun w =>
    match m w with
    | (Ok a, w') => (Ok a, w')
    | (Raise e, w') => h e w'
    end.

Declare Scope monad_scope.
Delimit Scope monad_scope with monad.
Notation "x <- m ;; k" := (bind m (fun x => k))
  (at level 61, m at next level, right associativity) : monad_scope.
Notation "m ;;; k" := (bind m (fun _ => k))
  (at level 61, right associativity) : monad_scope.
Open Scope monad_scope.

Definition log_msg (l : level) (msg : string) : M unit :=
  fun w => (Ok tt, set_log ((l, msg) :: log w) w).

Definition log_info := log_msg INFO.
Definition log_error := log_msg ERROR.

(** [df.createOrReplaceTempView(name)] *)
Definition createOrReplaceTempView (name : string) (v : View) : M unit :=
  fun w => (Ok tt, set_views ((name, v) :: views w) w).

(** [spark.table(name)] *)
Definition spark_table (name : string) : M DataFrame :=
  fun w =>
    match assoc name (views w) with
    | Some v => (Ok (view_data v), w)
    | None => (Raise (AnalysisException ("Table or view not found: " ++ name)), w)
    end.

(** [COMPLETED_QC_STEP_LIST.append(output)] *)
Definition append_completed (output : DataFrame) : M unit :=
  fun w => (Ok tt, set_completed (COMPLETED_QC_STEP_LIST w ++ [output]) w).

Definition read_completed : M (list DataFrame) :=
  fun w => (Ok (COMPLETED_QC_STEP_LIST w), w).

(** [spark.read.parquet(path)]: the data last written to the path; the
    format it was written in is not examined. *)
Definition read_parquet (path : option string) : M DataFrame :=
  fun w =>
    match path with
    | None => (Raise (TypeError "path is None"), w)
    | Some p =>
        match assoc p (storage w) with
        | Some st => (Ok (stored_data st), w)
        | None => (Raise (AnalysisException ("Path does not exist: " ++ p)), w)
        end
    end.

Definition record_call (c : call) : M unit :=
  fun w => (Ok tt, set_calls (c :: calls w) w).

(** ** The metric registry [QC_META] (lines 59-136) *)

Record MetricMeta : Type := mkMetric {
  metric_name : string;
  left_data_name : string;
  right_data_name : string;
  error_message : string;
  error_df_filter_string : string
}.

Record StepMeta : Type := mkStep {
  step_name : string;
  step_metrics : list (Z * MetricMeta)
}.

Definition QC_META : list (Z * StepMeta) :=
  [ (1, mkStep "Decrypt"
        [ (1, mkMetric "file count" "manifest file count" "audit file count"
                "audit file count does not match manifest"
                "file_mismatch = 1");
          (2, mkMetric "line count" "manifest line count" "audit line count"
                "audit line count does not match manifest"
                "linecount_mismatch = 1");
          (3, mkMetric "checksums" "manifest checksums" "audit checksums"
                "checksum of audit checksum list does not match manifest"
                "checksum_mismatch = 1") ]);
    (2, mkStep "Channel Ingest"
        [ (1, mkMetric "all raw ami channels processed"
                "raw ami channel count" "channel ingest channel count"
                "raw ami channels missing from channel ingest output"
                "no_output = 1");
          (2, mkMetric "no distinct raw ami channels mapped to multiple channel uuids"
                "multiple mapped channels expected" "multiple mapped channels count"
                "distinct raw ami channels mapped to multiple channel uuids"
                "external_channel_multiple_channel_uuid = 1");
          (3, mkMetric "channel uuids in success output are mapped correctly in zeus"
                "channel ingest cuccess count" "correctly mapped channels from zeus"
                "channel uuids in success output incorrectly mapped in zeus"
                "success = 1 AND channel_uuid_match = 0") ]);
    (3, mkStep "Extract Common AMI"
        [ (1, mkMetric "all raw ami reads processed"
                "raw ami read count" "extract common ami total read count"
                "raw ami read count != extract common ami total read count"
                "raw_read_cnt != eca_total_cnt") ]);
    (4, mkStep "Load Common AMI"
        [ (1, mkMetric "all ingestable reads loaded"
                "extract common ami success read count" "load common ami metadata count"
                "extract common ami success read count != load common ami metadata count"
                "eca_success_cnt != lca_success_cnt") ]) ].

Fixpoint zassoc {A} (k : Z) (l : list (Z * A)) : option A :=
  match l with
  | [] => None
  | (k', v) :: rest => if k' =? k then Some v else zassoc k rest
  end.

(** [d[k]] on a dict keyed by integers: a missing key raises. *)
Definition getitem {A} (k : Z) (d : list (Z * A)) : result A :=
  match zassoc k d with
  | Some v => Ok v
  | None => Raise (KeyError (Py.str_of_int k))
  end.

(** [QC_META[step_number]['metrics'][metric_number]] *)
Definition metric_meta (step_number metric_number : Z) : result MetricMeta :=
  rbind (getitem step_number QC_META)
        (fun s => getitem metric_number (step_metrics s)).

(** A scalar handed to the evaluator: a Python integer, or [None] when an
    aggregate over no value came back null. *)
Definition scalar : Type := option Z.

Definition json_of_scalar (s : scalar) : json :=
  match s with Some z => JInt z | None => JNull end.

(** [left_data - right_data] *)
Definition py_sub (a b : scalar) : result Z :=
  match a, b with
  | Some x, Some y => Ok (x - y)
  | _, _ => Raise (TypeError "unsupported operand type(s) for -")
  end.

(** [left_data == right_data] *)
Definition py_eq (a b : scalar) : bool :=
  match a, b with
  | Some x, Some y => x =? y
  | None, None => true
  | _, _ => false
  end.

(** ** The instance and its collaborators *)

(** The attributes of [self] that the engine reads. *)
Record Self : Type := mkSelf {
  tenant_id : string;
  execution_date_y_m_d : string;
  s3_path_save_errors_base : string;
  errors_save_format : string;
  s3_path_save_ami_summary : option string;
  s3_path_save_qc_output : option string;
  s3_path_audit : option string;
  s3_path_decrypt : option string;
  s3_path_encrypt : option string;
  s3_path_manifest : option string;
  s3_path_channel_ingest_error : option string;
  s3_path_extract_common_ami_error : option string;
  s3_path_common : option string;
  has_manifest : bool;
  manifest_counts_headers : bool;
  raw_ami_has_headers : bool
}.

Definition json_of_path (p : option string) : json :=
  match p with Some s => JStr s | None => JNull end.

(** Rows of the decrypt step's extractors, by the schemas of their
    docstrings. *)
Record ManifestRow : Type := mkManifest {
  manifest_filename : option string;
  manifest_checksum : option string;
  manifest_linecount : option Z
}.

Record AuditRow : Type := mkAudit {
  audit_filename : option string;
  audit_checksum : option string;
  audit_linecount : option Z
}.

Record EncryptedRow : Type := mkEncrypted {
  encrypted_filename : option string
}.

Record DecryptedRow : Type := mkDecrypted {
  decrypted_filename : option string;
  decrypted_linecount : option Z
}.

(** What lies outside the engine: the clock, the object store's verdict on
    a write, [hashlib.md5], and the dataframe queries of the extractors and
    of the joiners of steps 2 to 4, each a function of the tables it
    reads. *)
Record Externals : Type := mkExt {
  (** [datetime.utcnow().strftime('%Y-%m-%d %H:%M:%S')] *)
  utcnow : string;
  (** whether [write.save] to this path raises *)
  write_fault : string -> bool;
  (** [hashlib.md5(bytes).hexdigest()] *)
  md5_hexdigest : string -> string;
  (** [get_file_path_from_temp_view], the [collect()[0][0]] of its query *)
  file_path_query : DataFrame -> option string;
  raw_ami_to_common_qc : DataFrame -> DataFrame;
  (** the summary query of lines 519-609 *)
  ami_summary_query : DataFrame -> DataFrame;
  get_raw_to_rollup_ami : DataFrame -> DataFrame -> DataFrame;
  get_manifest : DataFrame -> list ManifestRow;
  get_encrypted : DataFrame -> list EncryptedRow;
  get_decrypted_audit : DataFrame -> list AuditRow;
  get_decrypted_summary : DataFrame -> list DecryptedRow;
  get_distinct_raw_channels : DataFrame -> DataFrame;
  get_zeus_channel_map : DataFrame -> DataFrame;
  get_channel_ingest_success : DataFrame -> DataFrame;
  get_distinct_channel_ingest_errors : DataFrame -> DataFrame;
  get_new_channels_ingested_count : DataFrame -> option Z;
  join_channel_ingest : DataFrame -> DataFrame -> DataFrame -> DataFrame -> DataFrame;
  get_distinct_raw_channels_read_count : DataFrame -> DataFrame;
  get_extract_common_ami_success : DataFrame -> DataFrame -> DataFrame;
  get_extract_common_ami_error : DataFrame -> DataFrame;
  join_extract_common_ami : DataFrame -> DataFrame -> DataFrame -> DataFrame;
  get_extract_common_ami_success_by_utc_date : DataFrame -> DataFrame;
  get_load_common_ami_success : DataFrame -> DataFrame;
  join_load_common_ami : DataFrame -> DataFrame -> DataFrame
}.

(** ** The metric evaluator *)

(** [update_error_dataframe] (lines 177-194) *)
Definition update_error_dataframe (step_number metric_number : Z) (df_error : DataFrame)
  : result DataFrame :=
  rbind (metric_meta step_number metric_number) (fun m =>
  rbind (filter_str (error_df_filter_string m) df_error) (fun filtered =>
  Ok (withColumn_lit "error_message" (VStr (error_message m)) filtered))).

Section Engine.

Variable ext : Externals.
Variable self : Self.

(** [df.repartition(1).write.save(path=..., mode='overwrite', format=...)] *)
Definition write_save (path format : string) (df : DataFrame) : M unit :=
  fun w =>
    if write_fault ext path then (Raise (PersistenceFailure path), w)
    else (Ok tt, set_storage ((path, mkStored format df) :: storage w) w).

(** The stage directory of the if/elif ladder of [save_error_rows]. *)
Definition error_stage (step_number : Z) : option string :=
  if step_number =? 1 then Some "decrypt"
  else if step_number =? 2 then Some "channel_ingest"
  else if step_number =? 3 then Some "extract_common_ami"
  else if step_number =? 4 then Some "load_common_ami"
  else if step_number =? 5 then Some "raw_to_mdis_hour"
  else if step_number =? 6 then Some "raw_to_mdis_day"
  else None.

Definition error_path (step_number metric_number : Z) : option string :=
  option_map
    (fun stage =>
       Py.path_join (s3_path_save_errors_base self)
         [stage; "metric_number=" ++ Py.str_of_int metric_number; "errors.parquet"])
    (error_stage step_number).

(** [save_error_rows] (lines 293-346) *)
Definition save_error_rows (df_errors : DataFrame) (step_number metric_number : Z)
  : M (option string) :=
  record_call (SaveErrorRows df_errors step_number metric_number) ;;;
  let save_to := error_path step_number metric_number in
  let cnt := count df_errors in
  match save_to with
  | None =>
      log_info ("Skipping save_error_rows for " ++ Py.str_of_int cnt
                ++ " rows, no errors_save_to configured") ;;;
      ret save_to
  | Some path =>
      write_save path (errors_save_format self) df_errors ;;;
      log_info ("Saved " ++ Py.str_of_int cnt ++ " rows to " ++ path ++ " ok") ;;;
      ret save_to
  end.

(** [save_output] (lines 348-372) *)
Definition save_output (df : DataFrame) (output_type : Z) : M unit :=
  record_call (SaveOutput df output_type) ;;;
  let save_to :=
    if output_type =? 1 then s3_path_save_ami_summary self
    else if output_type =? 2 then s3_path_save_qc_output self
    else None in
  match save_to with
  | None => log_info "Skipping save of output, no save path configured"
  | Some path =>
      write_save path (errors_save_format self) df ;;;
      log_info ("Saved output to " ++ path ++ " ok")
  end.

(** [qc_individual_metric] (lines 244-291); the result is the ordered
    dictionary it builds. *)
Definition qc_individual_metric (step_number metric_number : Z)
    (left_data right_data : scalar) (df_error : DataFrame) : M (list (jkey * json)) :=
  m <- lift (metric_meta step_number metric_number) ;;
  let metric_name := metric_name m in
  let qc_time_utc := utcnow ext in
  s <- lift (getitem step_number QC_META) ;;
  let step_name := step_name s in
  let left_data_name := left_data_name m in
  let right_data_name := right_data_name m in
  l_r_delta <- lift (py_sub left_data right_data) ;;
  log_info ("running qc for step " ++ Py.str_of_int step_number ++ ": "
            ++ step_name ++ ", " ++ metric_name) ;;;
  outcome <-
    (if py_eq left_data right_data then
       ret (1, EmptyString, None)
     else
       let error_message := error_message m in
       df_error' <- lift (update_error_dataframe step_number metric_number df_error) ;;
       log_info ("error on step " ++ Py.str_of_int step_number ++ ": "
                 ++ step_name ++ ", " ++ metric_name) ;;;
       error_save_to_path <- save_error_rows df_error' step_number metric_number ;;
       ret (0, error_message, error_save_to_path)) ;;
  let '(qc_status, error_message, error_save_to_path) := outcome in
  let output :=
    [ (KStr "metric_name", JStr metric_name);
      (KStr "left_data_name", JStr left_data_name);
      (KStr "left_data_value", json_of_scalar left_data);
      (KStr "right_data_name", JStr right_data_name);
      (KStr "right_data_value", json_of_scalar right_data);
      (KStr "left_right_delta", JInt l_r_delta);
      (KStr "qc_timestamp", JStr qc_time_utc);
      (KStr "qc_status", JInt qc_status) ] in
  if negb (String.eqb error_message EmptyString) then
    ret (List.app output
           [ (KStr "qc_error_message", JStr error_message);
             (KStr "qc_error_path", json_of_path error_save_to_path) ])
  else ret output.

(** The schema of a step's output and of the report (lines 46-53). *)
Definition SCHEMA : list string :=
  ["id"; "name"; "execution_date"; "metrics"; "qc_reference"; "misc"].

(** [spark.createDataFrame(rows, SCHEMA)]: a tuple becomes a row by
    position; a string column takes the text of any value. *)
Definition createDataFrame (tuples : list (list value)) (schema : list string) : DataFrame :=
  mkDF schema (map (fun t => row_of (combine schema t)) tuples).

(** What a step function passes to [qc_individual_step]. *)
Record QcValues : Type := mkQcValues {
  qv_metrics : list (Z * (scalar * scalar));
  qv_reference : json;
  qv_misc : json
}.

(** The loop of [qc_individual_step] over the registered metric keys. *)
Fixpoint run_metrics (step_number : Z) (keys : list Z) (qc_values : QcValues)
    (df_error : DataFrame) (metric_output : list (jkey * json)) : M (list (jkey * json)) :=
  match keys with
  | [] => ret metric_output
  | key :: rest =>
      let metric_number := key in
      lr <- lift (getitem key (qv_metrics qc_values)) ;;
      let left_data := fst lr in
      let right_data := snd lr in
      qc_data <- qc_individual_metric step_number metric_number left_data right_data df_error ;;
      run_metrics step_number rest qc_values df_error
        (dict_update (KInt metric_number) (JObj qc_data) metric_output)
  end.

(** [qc_individual_step] (lines 196-242) *)
Definition qc_individual_step (step_number : Z) (qc_values : QcValues) (df_error : DataFrame)
  : M DataFrame :=
  s <- lift (getitem step_number QC_META) ;;
  let step_name := step_name s in
  log_info ("starting qc for step " ++ Py.str_of_int step_number ++ ": " ++ step_name) ;;;
  let metric_keys := map fst (step_metrics s) in
  metric_output <- run_metrics step_number metric_keys qc_values df_error [] ;;
  let id := step_number in
  let name := step_name in
  let execution_date := execution_date_y_m_d self in
  let metrics_json := dumps (JObj metric_output) in
  let reference_json := dumps_sorted (qv_reference qc_values) in
  let misc := dumps_sorted (qv_misc qc_values) in
  let rows := [ [ VStr (Py.str_of_int id); VStr name; VStr execution_date;
                  VStr metrics_json; VStr reference_json; VStr misc ] ] in
  ret (createDataFrame rows SCHEMA).

End Engine.

(** ** The decrypt joiners *)

(** The join key test [left.name == right.name]: true only when both are
    present and equal. *)
Definition key_match (x y : option string) : bool :=
  match sql_eq (of_opt_str x) (of_opt_str y) with
  | Some true => true
  | _ => false
  end.

(** [left.join(right, cond, 'left_outer')]: every left row, paired with
    each right row it matches, or with nothing when it matches none. *)
Definition left_outer {A B} (cond : A -> B -> bool) (left : list A) (right : list B)
  : list (A * option B) :=
  flat_map
    (fun a =>
       match List.filter (cond a) right with
       | [] => [(a, None)]
       | matches => map (fun b => (a, Some b)) matches
       end)
    left.

(** [fillna(0, subset=[c])] on one cell.  With an integer fill value the
    engine fills integer columns only: a column of [subset] whose type
    does not match the value is ignored, so a string column keeps its
    nulls. *)
Definition fillna0_int (v : option Z) : option Z :=
  match v with Some z => Some z | None => Some 0 end.

Definition fillna0_str (v : option string) : option string := v.

(** A row of [join_decrypt_manifest]'s result, by the schema of its
    docstring. *)
Record ManifestJoinRow : Type := mkManifestJoin {
  mj_manifest_filename : option string;
  mj_manifest_checksum : option string;
  mj_manifest_linecount : option Z;
  mj_audit_filename : option string;
  mj_audit_checksum : option string;
  mj_audit_linecount : option Z;
  mj_file_mismatch : Z;
  mj_linecount_mismatch : Z;
  mj_checksum_mismatch : Z
}.

Definition opt_bind {A B} (o : option A) (f : A -> option B) : option B :=
  match o with Some a => f a | None => None end.

Definition is_null {A} (o : option A) : bool :=
  match o with None => true | Some _ => false end.

(** The three [withColumn] of [join_decrypt_manifest] on one joined row,
    after its [fillna]. *)
Definition manifest_join_row (p : ManifestRow * option AuditRow) : ManifestJoinRow :=
  let m := fst p in
  let a := snd p in
  let manifest_linecount := fillna0_int (manifest_linecount m) in
  let audit_linecount := fillna0_int (opt_bind a audit_linecount) in
  let manifest_checksum := fillna0_str (manifest_checksum m) in
  let audit_checksum := fillna0_str (opt_bind a audit_checksum) in
  let audit_filename := opt_bind a audit_filename in
  mkManifestJoin
    (manifest_filename m) manifest_checksum manifest_linecount
    audit_filename audit_checksum audit_linecount
    (when_1_else_0 (Some (is_null audit_filename)))
    (when_1_else_0 (sql_ne (of_opt_int manifest_linecount) (of_opt_int audit_linecount)))
    (when_1_else_0 (sql_ne (of_opt_str manifest_checksum) (of_opt_str audit_checksum))).

Definition opt_str_leb (x y : option string) : bool :=
  value_leb (of_opt_str x) (of_opt_str y).

(** [join_decrypt_manifest] (lines 837-873) *)
Definition join_decrypt_manifest (df_m : list ManifestRow) (df_a : list AuditRow)
  : list ManifestJoinRow :=
  sort_by (fun r1 r2 => opt_str_leb (mj_manifest_filename r1) (mj_manifest_filename r2))
    (map manifest_join_row
       (left_outer (fun m a => key_match (manifest_filename m) (audit_filename a)) df_m df_a)).

Definition manifest_join_columns : list string :=
  [ "manifest_filename"; "manifest_checksum"; "manifest_linecount";
    "audit_filename"; "audit_checksum"; "audit_linecount";
    "file_mismatch"; "linecount_mismatch"; "checksum_mismatch" ].

Definition manifest_join_cells (r : ManifestJoinRow) : list (string * value) :=
  [ ("manifest_filename", of_opt_str (mj_manifest_filename r));
    ("manifest_checksum", of_opt_str (mj_manifest_checksum r));
    ("manifest_linecount", of_opt_int (mj_manifest_linecount r));
    ("audit_filename", of_opt_str (mj_audit_filename r));
    ("audit_checksum", of_opt_str (mj_audit_checksum r));
    ("audit_linecount", of_opt_int (mj_audit_linecount r));
    ("file_mismatch", VInt (mj_file_mismatch r));
    ("linecount_mismatch", VInt (mj_linecount_mismatch r));
    ("checksum_mismatch", VInt (mj_checksum_mismatch r)) ].

(** The joined rows as the dataframe handed on as [df_error]. *)
Definition manifest_join_df (rs : list ManifestJoinRow) : DataFrame :=
  mkDF manifest_join_columns (map (fun r => row_of (manifest_join_cells r)) rs).

(** A row of [join_decrypt_no_manifest]'s result. *)
Record NoManifestJoinRow : Type := mkNoManifestJoin {
  nj_encrypted_filename : option string;
  nj_decrypted_filename : option string;
  nj_decrypted_linecount : option Z;
  nj_audit_filename : option string;
  nj_audit_linecount : option Z;
  nj_file_mismatch : Z;
  nj_linecount_mismatch : Z
}.

Definition no_manifest_join_row (p : EncryptedRow * option DecryptedRow * option AuditRow)
  : NoManifestJoinRow :=
  let e := fst (fst p) in
  let d := snd (fst p) in
  let a := snd p in
  let audit_linecount := fillna0_int (opt_bind a audit_linecount) in
  let decrypted_linecount := fillna0_int (opt_bind d decrypted_linecount) in
  let decrypted_filename := opt_bind d decrypted_filename in
  mkNoManifestJoin
    (encrypted_filename e) decrypted_filename decrypted_linecount
    (opt_bind a audit_filename) audit_linecount
    (when_1_else_0 (Some (is_null decrypted_filename)))
    (when_1_else_0 (sql_ne (of_opt_int audit_linecount) (of_opt_int decrypted_linecount))).

(** [join_decrypt_no_manifest] (lines 789-835) *)
Definition join_decrypt_no_manifest (df_e : list EncryptedRow) (df_a : list AuditRow)
    (df_d : list DecryptedRow) : list NoManifestJoinRow :=
  sort_by (fun r1 r2 => opt_str_leb (nj_encrypted_filename r1) (nj_encrypted_filename r2))
    (map no_manifest_join_row
       (left_outer (fun ed a => key_match (encrypted_filename (fst ed)) (audit_filename a))
          (left_outer (fun e d => key_match (encrypted_filename e) (decrypted_filename d))
             df_e df_d)
          df_a)).

Definition no_manifest_join_columns : list string :=
  [ "encrypted_filename"; "decrypted_filename"; "decrypted_linecount";
    "audit_filename"; "audit_linecount"; "file_mismatch"; "linecount_mismatch" ].

Definition no_manifest_join_cells (r : NoManifestJoinRow) : list (string * value) :=
  [ ("encrypted_filename", of_opt_str (nj_encrypted_filename r));
    ("decrypted_filename", of_opt_str (nj_decrypted_filename r));
    ("decrypted_linecount", of_opt_int (nj_decrypted_linecount r));
    ("audit_filename", of_opt_str (nj_audit_filename r));
    ("audit_linecount", of_opt_int (nj_audit_linecount r));
    ("file_mismatch", VInt (nj_file_mismatch r));
    ("linecount_mismatch", VInt (nj_linecount_mismatch r)) ].

Definition no_manifest_join_df (rs : list NoManifestJoinRow) : DataFrame :=
  mkDF no_manifest_join_columns (map (fun r => row_of (no_manifest_join_cells r)) rs).

(** ** The checksum of a checksum list (lines 1498-1510) *)

(** [xs.sort()] on strings: ascending by code point. *)
Definition sort_strings (xs : list string) : list string := sort_by String.leb xs.

Fixpoint all_some {A} (xs : list (option A)) : option (list A) :=
  match xs with
  | [] => Some []
  | Some x :: rest => option_map (cons x) (all_some rest)
  | None :: _ => None
  end.

(** [xs.sort(); ''.join(xs)] on a collected column: a null among the
    checksums is a [TypeError], from the sort or from the join. *)
Definition sorted_checksum_string (xs : list (option string)) : result string :=
  match all_some xs with
  | Some ss => Ok (Py.join (sort_strings ss))
  | None => Raise (TypeError "NoneType among the checksums")
  end.

(** [s.encode('utf-8')], characters being code points below 256. *)
Definition encode_char (c : ascii) : string :=
  let n := N_of_ascii c in
  if (n <? 128)%N then String c EmptyString
  else String (ascii_of_N (192 + n / 64)) (String (ascii_of_N (128 + n mod 64)) EmptyString).

Fixpoint encode_utf8 (s : string) : string :=
  match s with
  | EmptyString => EmptyString
  | String c s' => encode_char c ++ encode_utf8 s'
  end.

Definition hex_value (c : ascii) : option Z :=
  let n := N_of_ascii c in
  if andb (48 <=? n)%N (n <=? 57)%N then Some (Z.of_N n - 48)
  else if andb (97 <=? n)%N (n <=? 102)%N then Some (Z.of_N n - 87)
  else if andb (65 <=? n)%N (n <=? 70)%N then Some (Z.of_N n - 55)
  else None.

Fixpoint hex_digits_value (acc : Z) (s : string) : option Z :=
  match s with
  | EmptyString => Some acc
  | String c s' =>
      match hex_value c with
      | Some d => hex_digits_value (16 * acc + d) s'
      | None => None
      end
  end.

(** [int(s, 16)] on a string of hexadecimal digits, which a digest is. *)
Definition int16 (s : string) : result Z :=
  match s with
  | EmptyString => Raise (ValueError "invalid literal for int() with base 16")
  | _ =>
      match hex_digits_value 0 s with
      | Some z => Ok z
      | None => Raise (ValueError "invalid literal for int() with base 16")
      end
  end.

(** ** The step functions and the run controller *)

Definition exn_text (e : exn) : string :=
  match e with
  | KeyError k => "KeyError: " ++ k
  | TypeError s => "TypeError: " ++ s
  | ValueError s => "ValueError: " ++ s
  | IndexError => "IndexError: list index out of range"
  | AnalysisException s => "AnalysisException: " ++ s
  | PersistenceFailure p => "write failed: " ++ p
  end.

Definition len_scalar {A} (l : list A) : scalar := Some (Z.of_nat (List.length l)).

Definition sum_opt (xs : list (option Z)) : scalar := sum_cells (map of_opt_int xs).

(** A misc entry [{'name': ..., 'value': ...}]. *)
Definition misc_entry (name : string) (v : json) : json :=
  JObj [ (KStr "name", JStr name); (KStr "value", v) ].

Section Steps.

Variable ext : Externals.
Variable self : Self.

(** [int(hashlib.md5(s).hexdigest(), 16)] *)
Definition md5_int (s : string) : result Z := int16 (md5_hexdigest ext s).

(** The checksum scalar of one side of decrypt metric 3. *)
Definition checksum_scalar (checksums : list (option string)) : result Z :=
  rbind (sorted_checksum_string checksums) (fun s => md5_int (encode_utf8 s)).

(** [get_file_path_from_temp_view] (lines 159-175) *)
Definition get_file_path_from_temp_view (table_name : string) : M json :=
  t <- spark_table table_name ;;
  match file_path_query ext t with
  | Some p => ret (JStr p)
  | None => raise IndexError
  end.

(** [decrypt] (lines 1461-1560) *)
Definition decrypt : M DataFrame :=
  log_info "getting encrypted data" ;;;
  t_e <- spark_table "encrypted" ;;
  let df_e := get_encrypted ext t_e in
  log_info "getting audit data" ;;;
  t_a <- spark_table "audit" ;;
  let df_a := get_decrypted_audit ext t_a in
  log_info "getting decryped data from summary" ;;;
  t_d <- spark_table "ami_summary" ;;
  let df_d := get_decrypted_summary ext t_d in
  log_info "join decrypted without manifest to get error df" ;;;
  let df_error := no_manifest_join_df (join_decrypt_no_manifest df_e df_a df_d) in
  let left_data_file_cnt := len_scalar df_e in
  let right_data_file_cnt := len_scalar df_d in
  let left_data_row_cnt := sum_opt (map decrypted_linecount df_d) in
  let right_data_row_cnt := sum_opt (map audit_linecount df_a) in
  let left_data_checksum := Some 0 in
  let right_data_checksum := Some 0 in
  prepared <-
    (if has_manifest self then
       log_info "getting manifest" ;;;
       t_m <- spark_table "manifest" ;;
       let df_m := get_manifest ext t_m in
       log_info "join manifest with decrypted audit" ;;;
       let df_error := manifest_join_df (join_decrypt_manifest df_m df_a) in
       manifest_checksum_string <- lift (sorted_checksum_string (map manifest_checksum df_m)) ;;
       audit_checksum_string <- lift (sorted_checksum_string (map audit_checksum df_a)) ;;
       let left_data_file_cnt := len_scalar df_m in
       let right_data_file_cnt := len_scalar df_a in
       let left_data_row_cnt := sum_opt (map manifest_linecount df_m) in
       let right_data_row_cnt := sum_opt (map audit_linecount df_a) in
       left_data_checksum <- lift (md5_int (encode_utf8 manifest_checksum_string)) ;;
       right_data_checksum <- lift (md5_int (encode_utf8 audit_checksum_string)) ;;
       ret (df_error,
            [ (1, (left_data_file_cnt, right_data_file_cnt));
              (2, (left_data_row_cnt, right_data_row_cnt));
              (3, (Some left_data_checksum, Some right_data_checksum)) ])
     else
       ret (df_error,
            [ (1, (left_data_file_cnt, right_data_file_cnt));
              (2, (left_data_row_cnt, right_data_row_cnt));
              (3, (left_data_checksum, right_data_checksum)) ])) ;;
  let qc_values :=
    mkQcValues (snd prepared)
      (JObj [ (KStr "ami_summary", json_of_path (s3_path_save_ami_summary self));
              (KStr "audit", json_of_path (s3_path_audit self));
              (KStr "decrypted", json_of_path (s3_path_decrypt self));
              (KStr "encrypted", json_of_path (s3_path_encrypt self));
              (KStr "manifest", json_of_path (s3_path_manifest self)) ])
      (JObj [ (KInt 1, misc_entry "Has Manifest" (JBool (has_manifest self)));
              (KInt 2, misc_entry "Manifest Counts Headers" (JBool (manifest_counts_headers self)));
              (KInt 3, misc_entry "Raw AMI Has Headers" (JBool (raw_ami_has_headers self))) ]) in
  output <- qc_individual_step ext self 1 qc_values (fst prepared) ;;
  append_completed output ;;;
  ret output.

(** [channel_ingest] (lines 1562-1659) *)
Definition channel_ingest : M DataFrame :=
  log_info "getting zeus channel map" ;;;
  t_z <- spark_table "zeus_channel_map" ;;
  let df_zcid := get_zeus_channel_map ext t_z in
  log_info "getting distinct decrypted channels from ami summmary" ;;;
  t_s <- spark_table "ami_summary" ;;
  let df_cs := get_distinct_raw_channels ext t_s in
  log_info "getting channel ingest success" ;;;
  t_cis <- spark_table "channel_ingest_success" ;;
  let df_cis := get_channel_ingest_success ext t_cis in
  log_info "getting distinct channels from channel ingest error" ;;;
  t_cie <- spark_table "channel_ingest_error" ;;
  let df_cie := get_distinct_channel_ingest_errors ext t_cie in
  log_info "join channel ingest qc data to get error df" ;;;
  let df_error := join_channel_ingest ext df_zcid df_cs df_cis df_cie in
  let raw_channel_cnt := count df_cs in
  let channel_ingest_success_cnt := count df_cis in
  let channel_ingest_error_cnt := count df_cie in
  matched <- lift (df_filter (PEq (ECol "channel_uuid_match") (ELit 1)) df_error) ;;
  let correctly_mapped_channel_cnt := count matched in
  multiple <- lift (df_filter (PEq (ECol "external_channel_multiple_channel_uuid") (ELit 1))
                      df_error) ;;
  multiple_channels_mapped_cnt <-
    lift (select_distinct_count
            ["external_location_id"; "external_account_id"; "external_channel_id"; "direction"]
            multiple) ;;
  log_info "new channels ingested cnt" ;;;
  t_audit <- spark_table "audit" ;;
  let new_channels_ingested_cnt := get_new_channels_ingested_count ext t_audit in
  let left_data_channel_cnt := raw_channel_cnt in
  let right_data_channel_cnt :=
    (channel_ingest_success_cnt + channel_ingest_error_cnt) - multiple_channels_mapped_cnt in
  let left_data_multiple_channel_cnt := 0 in
  let right_data_multiple_channel_cnt := multiple_channels_mapped_cnt in
  let left_data_success_channel_map_cnt := channel_ingest_success_cnt in
  let right_data_success_channel_map_cnt := correctly_mapped_channel_cnt in
  channel_ingest_success_path <- get_file_path_from_temp_view "channel_ingest_success" ;;
  zeus_channel_map_path <- get_file_path_from_temp_view "zeus_channel_map" ;;
  let qc_values :=
    mkQcValues
      [ (1, (Some left_data_channel_cnt, Some right_data_channel_cnt));
        (2, (Some left_data_multiple_channel_cnt, Some right_data_multiple_channel_cnt));
        (3, (Some left_data_success_channel_map_cnt, Some right_data_success_channel_map_cnt)) ]
      (JObj [ (KStr "ami_summary", json_of_path (s3_path_save_ami_summary self));
              (KStr "channel_ingest_error", json_of_path (s3_path_channel_ingest_error self));
              (KStr "channel_ingest_success", channel_ingest_success_path);
              (KStr "zeus_channel_mapping", zeus_channel_map_path) ])
      (JObj [ (KInt 1, misc_entry "Raw Channel Count" (JInt raw_channel_cnt));
              (KInt 2, misc_entry "Channel Ingest Success Count" (JInt channel_ingest_success_cnt));
              (KInt 3, misc_entry "Channel Ingest Error Count" (JInt channel_ingest_error_cnt));
              (KInt 4, misc_entry "Newly Ingested Channels"
                         (json_of_scalar new_channels_ingested_cnt)) ]) in
  output <- qc_individual_step ext self 2 qc_values df_error ;;
  append_completed output ;;;
  ret output.

(** [x if x else 0] *)
Definition or_zero (x : option Z) : Z :=
  match x with Some z => z | None => 0 end.

(** [extract_common_ami] (lines 1661-1737) *)
Definition extract_common_ami : M DataFrame :=
  log_info "getting distinct decrypted channels with read count" ;;;
  t_s <- spark_table "ami_summary" ;;
  let df_d := get_distinct_raw_channels_read_count ext t_s in
  log_info "getting extract common ami success read count by channel" ;;;
  t_es <- spark_table "extract_common_ami_success" ;;
  t_cis <- spark_table "channel_ingest_success" ;;
  let df_es := get_extract_common_ami_success ext t_es t_cis in
  log_info "getting extract common ami error read count by channel" ;;;
  t_ee <- spark_table "extract_common_ami_error" ;;
  let df_ee := get_extract_common_ami_error ext t_ee in
  log_info "join extract common ami qc data to get error df" ;;;
  let df_error := join_extract_common_ami ext df_d df_es df_ee in
  log_info "extract_common_ami - raw_read_cnt" ;;;
  raw_read_cnt <- lift (agg_sum "raw_read_cnt" df_d) ;;
  extract_common_ami_success_cnt <- lift (agg_sum "eca_success_cnt" df_es) ;;
  extract_common_ami_error_cnt <- lift (agg_sum "eca_error_cnt" df_ee) ;;
  let left_data_read_cnt := or_zero raw_read_cnt in
  let extract_common_ami_success_cnt := or_zero extract_common_ami_success_cnt in
  let extract_common_ami_error_cnt := or_zero extract_common_ami_error_cnt in
  let right_data_read_cnt := extract_common_ami_success_cnt + extract_common_ami_error_cnt in
  channel_ingest_success_path <- get_file_path_from_temp_view "channel_ingest_success" ;;
  extract_common_ami_success_path <- get_file_path_from_temp_view "extract_common_ami_success" ;;
  let qc_values :=
    mkQcValues
      [ (1, (Some left_data_read_cnt, Some right_data_read_cnt)) ]
      (JObj [ (KStr "ami_summary", json_of_path (s3_path_save_ami_summary self));
              (KStr "channel_ingest_success", channel_ingest_success_path);
              (KStr "extract_common_ami_error",
                 json_of_path (s3_path_extract_common_ami_error self));
              (KStr "extract_common_ami_success", extract_common_ami_success_path) ])
      (JObj [ (KInt 1, misc_entry "Extract Common AMI Success Count"
                         (JInt extract_common_ami_success_cnt));
              (KInt 2, misc_entry "Extract Common AMI Error Count"
                         (JInt extract_common_ami_error_cnt)) ]) in
  output <- qc_individual_step ext self 3 qc_values df_error ;;
  append_completed output ;;;
  ret output.

(** [load_common_ami] (lines 1739-1787) *)
Definition load_common_ami : M DataFrame :=
  log_info "getting extract common ami success" ;;;
  t_es <- spark_table "extract_common_ami_success" ;;
  let df_e := get_extract_common_ami_success_by_utc_date ext t_es in
  log_info "getting load common ami success" ;;;
  t_l <- spark_table "load_common_ami_success" ;;
  let df_l := get_load_common_ami_success ext t_l in
  log_info "join load common ami qc data to get error df" ;;;
  let df_error := join_load_common_ami ext df_e df_l in
  extract_common_ami_success_cnt <- lift (agg_sum "eca_success_cnt" df_e) ;;
  load_common_ami_success_cnt <- lift (agg_sum "lca_success_cnt" df_l) ;;
  extract_common_ami_success_path <- get_file_path_from_temp_view "extract_common_ami_success" ;;
  load_common_ami_success_path <- get_file_path_from_temp_view "load_common_ami_success" ;;
  let qc_values :=
    mkQcValues
      [ (1, (extract_common_ami_success_cnt, load_common_ami_success_cnt)) ]
      (JObj [ (KStr "common", json_of_path (s3_path_common self));
              (KStr "extract_common_ami_success", extract_common_ami_success_path);
              (KStr "load_common_ami_success", load_common_ami_success_path) ])
      (JObj []) in
  output <- qc_individual_step ext self 4 qc_values df_error ;;
  append_completed output ;;;
  ret output.

(** [reduce(DataFrame.union, step_list)] on a non-empty list. *)
Definition reduce_union (first : DataFrame) (rest : list DataFrame) : result DataFrame :=
  fold_left (fun acc d => rbind acc (fun a => union a d)) rest (Ok first).

(** [union_qc_output] (lines 1789-1814) *)
Definition union_qc_output (step_list : list DataFrame) : M DataFrame :=
  match step_list with
  | [] =>
      log_info ("No QC output for " ++ tenant_id self ++ " on " ++ execution_date_y_m_d self
                ++ ". Returning empty dataframe") ;;;
      ret (createDataFrame [] SCHEMA)
  | first :: rest =>
      log_info ("We have QC output for " ++ tenant_id self ++ " on "
                ++ execution_date_y_m_d self ++ "! Returning QC results") ;;;
      u <- lift (reduce_union first rest) ;;
      lift (orderBy "id" u)
  end.

(** [get_and_save_ami_summary] (lines 489-622); [df] is the summary query
    of lines 519-609 on [df_common]. *)
Definition get_and_save_ami_summary (df_common : DataFrame) : M unit :=
  let df := ami_summary_query ext df_common in
  log_info "saving ami summary" ;;;
  error <-
    try_except
      (save_output ext self df 1 ;;; ret 0)
      (fun e =>
         log_error ("!! Error saving ami summary, get summary from ami summary dataframe. Error: "
                    ++ exn_text e) ;;;
         ret 1) ;;
  if error =? 0 then
    saved <- read_parquet (s3_path_save_ami_summary self) ;;
    createOrReplaceTempView "ami_summary"
      (mkView (match s3_path_save_ami_summary self with
               | Some p => FromStorage p
               | None => InMemory
               end) saved)
  else
    createOrReplaceTempView "ami_summary" (mkView InMemory df).

(** [setup_common_ami_summary_raw_to_rollup] (lines 624-654) *)
Definition setup_common_ami_summary_raw_to_rollup : M unit :=
  log_info "Getting common ami" ;;;
  t <- spark_table "decrypted" ;;
  let df_common := raw_ami_to_common_qc ext t in
  log_info "Getting and saving ami summary" ;;;
  get_and_save_ami_summary df_common ;;;
  log_info "Getting and setting raw to rollup ami temp view" ;;;
  t_cis <- spark_table "channel_ingest_success" ;;
  let df_channels := get_channel_ingest_success ext t_cis in
  let df_raw_to_rollup_ami := get_raw_to_rollup_ami ext df_common df_channels in
  createOrReplaceTempView "raw_to_rollup_ami" (mkView InMemory df_raw_to_rollup_ami).

(** [run] (lines 1816-1845) *)
Definition run : M unit :=
  log_info ("Start QC for " ++ tenant_id self) ;;;
  setup_common_ami_summary_raw_to_rollup ;;;
  decrypt ;;;
  channel_ingest ;;;
  extract_common_ami ;;;
  load_common_ami ;;;
  step_list <- read_completed ;;
  df_output <- union_qc_output step_list ;;
  save_output ext self df_output 2 ;;;
  createOrReplaceTempView "output" (mkView InMemory df_output).

End Steps.

(** ** Vocabulary of the properties *)


(** The substring after the last [/] of the input begins with [.]. *)
Definition dot_first (x : option string) : bool :=
  match x with
  | Some s => Py.starts_with "." (after_last "/" s)
  | None => false
  end.

Definition segment (x : option string) : string :=
  match x with
  | Some s => after_last "/" s
  | None => EmptyString
  end.

(** The rows a failed metric hands to persistence: the rows of [df_error]
    on which the predicate holds, each with [error_message] set. *)
Definition error_rows (p : sqlpred) (message : string) (df_error : DataFrame) : DataFrame :=
  withColumn_lit "error_message" (VStr message)
    (mkDF (columns df_error) (List.filter (holds p) (rows df_error))).

(** The evaluation of decrypt metric 3 from the two collected checksum
    columns, as [decrypt] and [qc_individual_step] perform it. *)
Definition decrypt_metric_3 (ext : Externals) (self : Self)
    (manifest_checksum_list audit_checksum_list : list (option string))
    (df_error : DataFrame) : M (list (jkey * json)) :=
  manifest_checksum_string <- lift (sorted_checksum_string manifest_checksum_list) ;;
  audit_checksum_string <- lift (sorted_checksum_string audit_checksum_list) ;;
  left_data_checksum <- lift (md5_int ext (encode_utf8 manifest_checksum_string)) ;;
  right_data_checksum <- lift (md5_int ext (encode_utf8 audit_checksum_string)) ;;
  qc_individual_metric ext self 1 3 (Some left_data_checksum) (Some right_data_checksum)
    df_error.

(** The join condition of [join_decrypt_manifest]. *)
Definition file_key_match (m : ManifestRow) (a : AuditRow) : bool :=
  key_match (manifest_filename m) (audit_filename a).

(** File names pair the two sides one to one: every audit row matches
    exactly one manifest row, and no manifest row matches two audit rows. *)
Definition one_to_one_files (df_m : list ManifestRow) (df_a : list AuditRow) : bool :=
  andb
    (forallb (fun a => Nat.eqb (List.length (List.filter (fun m => file_key_match m a) df_m)) 1)
       df_a)
    (forallb (fun m => Nat.leb (List.length (List.filter (file_key_match m) df_a)) 1) df_m).

(** [sum] of a function over a list. *)
Definition sumZ {A} (f : A -> Z) (l : list A) : Z :=
  fold_right (fun x acc => f x + acc) 0 l.


(** What a computation leaves alone when it neither completes a step nor
    produces the report: the global list, the view [output], and the calls
    of [save_output] for the report (output type 2). *)
Definition report_untouched (w w' : World) : Prop :=
  COMPLETED_QC_STEP_LIST w' = COMPLETED_QC_STEP_LIST w
  /\ assoc "output" (views w') = assoc "output" (views w)
  /\ (forall df, In (SaveOutput df 2) (calls w') -> In (SaveOutput df 2) (calls w)).

Definition quiet {A} (m : M A) : Prop :=
  forall w, report_untouched w (snd (m w)).

(** A step function: on success it has appended its one-row output to the
    global list and touched nothing else of the report; on an exception it
    has appended nothing. *)
Definition emits (m : M DataFrame) : Prop :=
  forall w,
    match m w with
    | (Ok d, w') =>
        COMPLETED_QC_STEP_LIST w' = List.app (COMPLETED_QC_STEP_LIST w) [d]
        /\ columns d = SCHEMA /\ count d = 1
        /\ assoc "output" (views w') = assoc "output" (views w)
        /\ (forall df, In (SaveOutput df 2) (calls w') -> In (SaveOutput df 2) (calls w))
    | (Raise _, w') => report_untouched w w'
    end.

(** All the rows of a list of dataframes, in order. *)
Definition all_rows (l : list DataFrame) : list Row := List.concat (map rows l).

(** The order of [orderBy(col('id'))]. *)
Definition by_id (r1 r2 : Row) : bool := value_leb (r1 "id") (r2 "id").

(** No report has been produced between two worlds: the view [output] is
    as it was and no report was handed to [save_output]. *)
Definition no_report (w w' : World) : Prop :=
  assoc "output" (views w') = assoc "output" (views w)
  /\ (forall df, In (SaveOutput df 2) (calls w') -> In (SaveOutput df 2) (calls w)).


(** ** A small tenant, for examples

    One execution date of a tenant that delivers a manifest: two files,
    four channels.  The extractors read tables that already have the
    extractor's output schema; the joiners of steps 2 to 4 return the joined
    rows of this data. *)

Module Example.

(** Stands in for [hashlib.md5(...).hexdigest()]: the input's bytes in
    hexadecimal after a leading zero.  Injective, and always a string of
    hexadecimal digits. *)
Fixpoint hex_bytes (s : string) : string :=
  match s with
  | EmptyString => EmptyString
  | String c s' =>
      let n := N_of_ascii c in
      String (hex_digit (n / 16)) (String (hex_digit (n mod 16)) (hex_bytes s'))
  end.

Definition toy_digest (s : string) : string := String "0" (hex_bytes s).

Definition opt_str (v : value) : option string :=
  match v with VStr s => Some s | _ => None end.

Definition opt_int (v : value) : option Z :=
  match v with VInt z => Some z | _ => None end.

Definition manifest_table : DataFrame :=
  mkDF ["manifest_filename"; "manifest_checksum"; "manifest_linecount"]
    [ row_of [("manifest_filename", VStr "f1"); ("manifest_checksum", VStr "aa");
              ("manifest_linecount", VInt 10)];
      row_of [("manifest_filename", VStr "f2"); ("manifest_checksum", VStr "bb");
              ("manifest_linecount", VInt 20)] ].

Definition audit_table : DataFrame :=
  mkDF ["audit_filename"; "audit_checksum"; "audit_linecount"]
    [ row_of [("audit_filename", VStr "f2"); ("audit_checksum", VStr "bb");
              ("audit_linecount", VInt 20)];
      row_of [("audit_filename", VStr "f1"); ("audit_checksum", VStr "aa");
              ("audit_linecount", VInt 10)] ].

(** An audit that read one line less of [f1]. *)
Definition audit_table_short : DataFrame :=
  mkDF ["audit_filename"; "audit_checksum"; "audit_linecount"]
    [ row_of [("audit_filename", VStr "f2"); ("audit_checksum", VStr "bb");
              ("audit_linecount", VInt 20)];
      row_of [("audit_filename", VStr "f1"); ("audit_checksum", VStr "aa");
              ("audit_linecount", VInt 9)] ].

Definition encrypted_table : DataFrame :=
  mkDF ["encrypted_filename"]
    [ row_of [("encrypted_filename", VStr "f1")];
      row_of [("encrypted_filename", VStr "f2")] ].

Definition summary_df : DataFrame :=
  mkDF ["file_name"; "num_reads_total"]
    [ row_of [("file_name", VStr "f1"); ("num_reads_total", VInt 10)];
      row_of [("file_name", VStr "f2"); ("num_reads_total", VInt 20)] ].

Definition channel_columns : list string :=
  ["external_location_id"; "external_account_id"; "external_channel_id"; "direction"].

Definition channel (n : string) : list (string * value) :=
  [ ("external_location_id", VStr ("L" ++ n)); ("external_account_id", VStr ("A" ++ n));
    ("external_channel_id", VStr ("C" ++ n)); ("direction", VStr "D") ].

Definition channels_df (names : list string) : DataFrame :=
  mkDF channel_columns (map (fun n => row_of (channel n)) names).

Definition channel_join_columns : list string :=
  List.app channel_columns
    ["ci_success_channel_uuid"; "channel_uuid_from_zeus"; "success"; "error"; "no_output";
     "channel_uuid_match"; "external_channel_multiple_channel_uuid"].

Definition channel_join_row (n uuid : string) (multiple : Z) : Row :=
  row_of (List.app (channel n)
    [ ("ci_success_channel_uuid", VStr uuid); ("channel_uuid_from_zeus", VStr uuid);
      ("success", VInt 1); ("error", VInt 0); ("no_output", VInt 0);
      ("channel_uuid_match", VInt 1);
      ("external_channel_multiple_channel_uuid", VInt multiple) ]).

(** Four channels, each mapped to one channel uuid. *)
Definition channel_join_df : DataFrame :=
  mkDF channel_join_columns
    [ channel_join_row "1" "u1" 0; channel_join_row "2" "u2" 0;
      channel_join_row "3" "u3" 0; channel_join_row "4" "u4" 0 ].


Definition counts_df (column : string) (counts : list Z) : DataFrame :=
  mkDF [column] (map (fun z => row_of [(column, VInt z)]) counts).

Definition extract_join_df : DataFrame :=
  mkDF ["raw_read_cnt"; "eca_success_cnt"; "eca_error_cnt"; "eca_total_cnt"]
    [ row_of [("raw_read_cnt", VInt 30); ("eca_success_cnt", VInt 28);
              ("eca_error_cnt", VInt 2); ("eca_total_cnt", VInt 30)] ].

Definition load_join_df : DataFrame :=
  mkDF ["tenant_id"; "date_utc"; "eca_success_cnt"; "lca_success_cnt"]
    [ row_of [("tenant_id", VInt 7); ("date_utc", VStr "2020-03-01");
              ("eca_success_cnt", VInt 28); ("lca_success_cnt", VInt 28)] ].

Definition ext (faulty : string -> bool) (success : DataFrame) (joined : DataFrame)
  : Externals :=
  mkExt
    "2020-03-02 06:00:00"
    faulty
    toy_digest
    (fun _ => Some "s3://airflow/output")
    (fun t => t)
    (fun _ => summary_df)
    (fun common _ => common)
    (fun t => map (fun r => mkManifest (opt_str (r "manifest_filename"))
                              (opt_str (r "manifest_checksum"))
                              (opt_int (r "manifest_linecount"))) (rows t))
    (fun t => map (fun r => mkEncrypted (opt_str (r "encrypted_filename"))) (rows t))
    (fun t => map (fun r => mkAudit (opt_str (r "audit_filename"))
                              (opt_str (r "audit_checksum"))
                              (opt_int (r "audit_linecount"))) (rows t))
    (fun t => map (fun r => mkDecrypted (opt_str (r "file_name"))
                              (opt_int (r "num_reads_total"))) (rows t))
    (fun _ => channels_df ["1"; "2"; "3"; "4"])
    (fun t => t)
    (fun _ => success)
    (fun _ => channels_df [])
    (fun _ => Some 0)
    (fun _ _ _ _ => joined)
    (fun _ => counts_df "raw_read_cnt" [30])
    (fun _ _ => counts_df "eca_success_cnt" [28])
    (fun _ => counts_df "eca_error_cnt" [2])
    (fun _ _ _ => extract_join_df)
    (fun _ => counts_df "eca_success_cnt" [28])
    (fun _ => counts_df "lca_success_cnt" [28])
    (fun _ _ => load_join_df).

Definition self : Self :=
  mkSelf "tenant-7" "2020-03-01" "s3://qc/errors" "parquet"
    (Some "s3://qc/ami_summary") (Some "s3://qc/output")
    (Some "s3://raw/audit") (Some "s3://raw/decrypted") (Some "s3://raw/encrypted")
    (Some "s3://raw/manifest") (Some "s3://ci/error") (Some "s3://eca/error")
    (Some "s3://common")
    true false false.

Definition table (d : DataFrame) : View := mkView (FromStorage "s3://airflow/output") d.

Definition empty_table : View := table (mkDF [] []).

(** The session before [run]: the views the DAG registers, nothing written,
    no step completed. *)
Definition world (audit : DataFrame) : World :=
  mkWorld []
    []
    [ ("decrypted", empty_table); ("encrypted", table encrypted_table);
      ("audit", table audit); ("manifest", table manifest_table);
      ("zeus_channel_map", empty_table); ("channel_ingest_success", empty_table);
      ("channel_ingest_error", empty_table); ("extract_common_ami_success", empty_table);
      ("extract_common_ami_error", empty_table); ("load_common_ami_success", empty_table) ]
    []
    [].

(** Everything reconciles and every write succeeds. *)
Definition ext_ok : Externals :=
  ext (fun _ => false) (channels_df ["1"; "2"; "3"; "4"]) channel_join_df.



End Example.

Module ExampleMetric.


Definition df_error : DataFrame :=
  manifest_join_df
    (join_decrypt_manifest
       (get_manifest Example.ext_ok Example.manifest_table)
       (get_decrypted_audit Example.ext_ok Example.audit_table_short)).

Definition w : World := Example.world Example.audit_table_short.

End ExampleMetric.

(** * Further definitions

    Vocabulary of the further properties, and parts of the source modelled
    for them. *)

From Stdlib Require DecimalPos DecimalZ.
From Stdlib Require Import Sorted.

Fixpoint all_chars (test : ascii -> bool) (s : string) : bool :=
  match s with
  | EmptyString => true
  | String c s' => andb (test c) (all_chars test s')
  end.

(** The text that [os.path.join] puts before the first component. *)
Definition base_prefix (base : string) : string :=
  if orb (String.eqb base EmptyString) (Py.ends_with "/" base) then base else base ++ "/".

(** The step and metric a call of [save_error_rows] was made for. *)
Definition call_metric (c : call) : option (Z * Z) :=
  match c with
  | SaveErrorRows _ step_number metric_number => Some (step_number, metric_number)
  | SaveOutput _ _ => None
  end.

(** Whether the scalars a step supplies for a metric differ. *)
Definition metric_fails (qc_values : QcValues) (key : Z) : bool :=
  match zassoc key (qv_metrics qc_values) with
  | Some (l, r) => negb (py_eq l r)
  | None => false
  end.

(** Ascending in the order of [orderBy(col('id'))]. *)
Definition ascending_by_id (rs : list Row) : Prop :=
  Sorted (fun r1 r2 => by_id r1 r2 = true) rs.

(** The registered filter of decrypt metric 1, parsed. *)
Definition file_filter : sqlpred := PEq (ECol "file_mismatch") (ELit 1).

(** A computation leaves the view of a name as it was. *)
Definition keeps_view {A} (name : string) (m : M A) : Prop :=
  forall w, assoc name (views (snd (m w))) = assoc name (views w).

(** A computation returns only if the view of a name exists when it
    starts. *)
Definition reads {A} (name : string) (m : M A) : Prop :=
  forall w a w', m w = (Ok a, w') -> assoc name (views w) <> None.

(** The tables [run] reads and does not itself register. *)
Definition source_tables (self : Self) : list string :=
  List.app
    [ "decrypted"; "channel_ingest_success"; "encrypted"; "audit"; "zeus_channel_map";
      "channel_ingest_error"; "extract_common_ami_success"; "extract_common_ami_error";
      "load_common_ami_success" ]
    (if has_manifest self then ["manifest"] else []).

(** A computation never raises a [TypeError]. *)
Definition no_type_error {A} (m : M A) : Prop :=
  forall w what w', m w <> (Raise (TypeError what), w').

(** Every scalar a step supplies is an integer. *)
Definition integer_scalars (qc_values : QcValues) : Prop :=
  forall k l r, zassoc k (qv_metrics qc_values) = Some (l, r) -> l <> None /\ r <> None.

(** The join conditions of [join_decrypt_no_manifest]. *)
Definition decrypted_matches (e : EncryptedRow) (d : DecryptedRow) : bool :=
  key_match (encrypted_filename e) (decrypted_filename d).

Definition audit_matches (e : EncryptedRow) (a : AuditRow) : bool :=
  key_match (encrypted_filename e) (audit_filename a).

(** ** Read categories

    The consumption code of a read ([raw_ami_to_common_qc], lines 399-412
    and 445-452) and the read-count columns of one group of the daily
    summary ([get_and_save_ami_summary], lines 531-594 and 608). *)

Definition codes_actual : list string := ["A"; "ACT"].
Definition codes_estimated : list string := ["E"; "EST"].
Definition codes_prorated : list string := ["PRO"].
Definition codes_missing : list string := ["MIS"].

(** [col.isin(values)]: null on a null cell. *)
Definition isin_str (v : option string) (values : list string) : option bool :=
  option_map (fun s => existsb (String.eqb s) values) v.

Definition isin_int (v : option Z) (values : list Z) : option bool :=
  option_map (fun z => existsb (Z.eqb z) values) v.

(** A [when] takes its branch when the condition is true, not when it is
    false or null. *)
Definition is_true (c : option bool) : bool :=
  match c with Some true => true | _ => false end.

(** The [when(...).when(...).otherwise(lit(None))] chain on the tenant's
    code. *)
Definition consumption_code (raw : option string) : option Z :=
  if is_true (isin_str raw codes_actual) then Some 1
  else if is_true (isin_str raw codes_estimated) then Some 2
  else if is_true (isin_str raw codes_prorated) then Some 3
  else if is_true (isin_str raw codes_missing) then Some 0
  else None.

Definition sql_not (c : option bool) : option bool := option_map negb c.

Definition sql_or (a b : option bool) : option bool :=
  match a, b with
  | Some true, _ => Some true
  | _, Some true => Some true
  | Some false, Some false => Some false
  | _, _ => None
  end.

(** [when(cond, lit(1))] without [otherwise]: null when the condition is
    not true. *)
Definition when_1 (cond : option bool) : option Z :=
  if is_true cond then Some 1 else None.

Record ReadFlags : Type := mkReadFlags {
  actual_read_flag : option Z;
  estimated_read_flag : option Z;
  prorated_read_flag : option Z;
  missed_read_flag : option Z;
  no_code_read_flag : option Z
}.

(** The five flag columns of one read. *)
Definition read_flags (code : option Z) : ReadFlags :=
  mkReadFlags
    (when_1 (sql_eq (of_opt_int code) (VInt 1)))
    (when_1 (sql_eq (of_opt_int code) (VInt 2)))
    (when_1 (sql_eq (of_opt_int code) (VInt 3)))
    (when_1 (sql_eq (of_opt_int code) (VInt 0)))
    (when_1 (sql_or (sql_not (isin_int code [0; 1; 2; 3])) (Some (is_null code)))).

(** [cast(IntegerType())] of a sum, and the sum of two integer columns:
    32-bit, wrapping. *)
Definition wrap32 (z : Z) : Z := (z + 2 ^ 31) mod 2 ^ 32 - 2 ^ 31.

Record ReadCounts : Type := mkReadCounts {
  num_reads_actual : Z;
  num_reads_estimated : Z;
  num_reads_prorated : Z;
  num_reads_missed : Z;
  num_reads_no_code : Z;
  num_reads_total : Z
}.

(** One flag column of a group: [f.sum], the cast to integer, and the
    [fillna(0)]. *)
Definition flag_count (column : ReadFlags -> option Z) (flags : list ReadFlags) : Z :=
  or_zero (fillna0_int (option_map wrap32 (sum_opt (map column flags)))).

(** The read-count columns of one group, from the codes of its reads. *)
Definition read_counts (codes : list (option Z)) : ReadCounts :=
  let flags := map read_flags codes in
  let actual := flag_count actual_read_flag flags in
  let estimated := flag_count estimated_read_flag flags in
  let prorated := flag_count prorated_read_flag flags in
  let missed := flag_count missed_read_flag flags in
  let no_code := flag_count no_code_read_flag flags in
  mkReadCounts actual estimated prorated missed no_code
    (wrap32 (wrap32 (wrap32 (wrap32 (actual + estimated) + prorated) + missed) + no_code)).

(** How many elements pass a test. *)
Definition count_if {A} (test : A -> bool) (l : list A) : Z :=
  Z.of_nat (List.length (List.filter test l)).

Definition code_is (n : Z) (code : option Z) : bool :=
  match code with Some z => z =? n | None => false end.

Definition code_unknown (code : option Z) : bool :=
  match code with
  | Some z => negb (existsb (Z.eqb z) [0; 1; 2; 3])
  | None => true
  end.

(** * Properties *)

(** ** File-name cleaning *)

Example clean_ex1 : clean (Some "s3://bucket/dir/file_01.csv.gz") = "file_01".
Proof. reflexivity. Qed.
Example clean_ex2 : clean (Some "a/.hidden.txt") = ".hidden.txt".
Proof. reflexivity. Qed.
Example clean_ex3 : clean (Some "dir/") = EmptyString.
Proof. reflexivity. Qed.
Example path_join_ex :
  Py.path_join "s3://b" ["decrypt"; "metric_number=" ++ Py.str_of_int 2; "errors.parquet"]
  = "s3://b/decrypt/metric_number=2/errors.parquet".
Proof. reflexivity. Qed.

Section StringFacts.

Variable c : ascii.

Lemma split_not_nil (s : string) : Py.split c s <> [].
Proof.
  destruct s as [|d s']; simpl; [discriminate|].
  destruct (Ascii.eqb d c); [discriminate|].
  destruct (Py.split c s'); discriminate.
Qed.

Lemma split_without (s : string) : mem_char c s = false -> Py.split c s = [s].
Proof.
  induction s as [|d s' IH]; simpl; intros H; [reflexivity|].
  apply orb_false_iff in H. destruct H as [Hd Hs].
  rewrite Hd, (IH Hs). reflexivity.
Qed.

Lemma split_with (s : string) :
  mem_char c s = true -> exists h x t, Py.split c s = h :: x :: t.
Proof.
  induction s as [|d s' IH]; simpl; intros H; [discriminate|].
  destruct (Ascii.eqb d c) eqn:Hd.
  - destruct (Py.split c s') as [|x t] eqn:Hsp.
    + exfalso. exact (split_not_nil s' Hsp).
    + now exists EmptyString, x, t.
  - simpl in H. destruct (IH H) as (h & x & t & E). rewrite E.
    now exists (String d h), x, t.
Qed.

Lemma after_last_without (s : string) : mem_char c s = false -> after_last c s = s.
Proof.
  destruct s as [|d s']; simpl; intros H; [reflexivity|].
  apply orb_false_iff in H. destruct H as [Hd Hs]. now rewrite Hs, Hd.
Qed.

(** [s.split(c)[-1]] is the substring after the last [c]. *)
Lemma last_split (s : string) : Py.last_item (Py.split c s) = after_last c s.
Proof.
  unfold Py.last_item.
  induction s as [|d s' IH]; [reflexivity|].
  cbn [Py.split after_last].
  destruct (mem_char c s') eqn:Hm.
  - destruct (split_with s' Hm) as (h & x & t & E).
    rewrite E in IH |- *.
    destruct (Ascii.eqb d c); exact IH.
  - rewrite (split_without s' Hm).
    destruct (Ascii.eqb d c); reflexivity.
Qed.

Lemma after_last_clean (s : string) : mem_char c (after_last c s) = false.
Proof.
  induction s as [|d s' IH]; [reflexivity|].
  cbn [after_last].
  destruct (mem_char c s') eqn:Hm; [exact IH|].
  destruct (Ascii.eqb d c) eqn:Hd; [exact Hm|].
  simpl. now rewrite Hd, Hm.
Qed.

Lemma find_lower (s : string) : -1 <= Py.find c s.
Proof.
  induction s as [|d s' IH]; simpl; [lia|].
  destruct (Ascii.eqb d c); [lia|].
  destruct (Py.find c s' <? 0) eqn:E; [lia|]. apply Z.ltb_ge in E. lia.
Qed.

Lemma find_without (s : string) : mem_char c s = false -> Py.find c s = -1.
Proof.
  induction s as [|d s' IH]; simpl; intros H; [reflexivity|].
  apply orb_false_iff in H. destruct H as [Hd Hs].
  rewrite Hd, (IH Hs). reflexivity.
Qed.

Lemma find_zero (s : string) : Py.find c s = 0 <-> Py.starts_with c s = true.
Proof.
  destruct s as [|d s']; simpl; [split; discriminate|].
  destruct (Ascii.eqb d c); [tauto|].
  pose proof (find_lower s').
  destruct (Py.find c s' <? 0) eqn:E; split; try discriminate.
  apply Z.ltb_ge in E. lia.
Qed.

(** Slicing up to a found index is truncation at the first [c]. *)
Lemma slice_find (s : string) :
  0 <= Py.find c s -> Py.slice_to (Py.find c s) s = before_first c s.
Proof.
  unfold Py.slice_to.
  induction s as [|d s' IH]; simpl; [reflexivity|].
  destruct (Ascii.eqb d c); [reflexivity|].
  pose proof (find_lower s').
  destruct (Py.find c s' <? 0) eqn:E; [lia|].
  apply Z.ltb_ge in E. intros _.
  rewrite Z2Nat.inj_add by lia. rewrite Nat.add_comm. simpl.
  now rewrite IH.
Qed.

Lemma before_first_without (s : string) : mem_char c s = false -> before_first c s = s.
Proof.
  induction s as [|d s' IH]; simpl; intros H; [reflexivity|].
  apply orb_false_iff in H. destruct H as [Hd Hs].
  now rewrite Hd, (IH Hs).
Qed.

Lemma before_first_clean (s : string) : mem_char c (before_first c s) = false.
Proof.
  induction s as [|d s' IH]; simpl; [reflexivity|].
  destruct (Ascii.eqb d c) eqn:Hd; [reflexivity|].
  simpl. now rewrite Hd, IH.
Qed.

Lemma before_first_mem (b : ascii) (s : string) :
  mem_char b s = false -> mem_char b (before_first c s) = false.
Proof.
  induction s as [|d s' IH]; simpl; intros H; [reflexivity|].
  apply orb_false_iff in H. destruct H as [Hd Hs].
  destruct (Ascii.eqb d c); [reflexivity|].
  simpl. now rewrite Hd, (IH Hs).
Qed.


End StringFacts.

(** What [clean_file_name] computes, in terms of the substring after the
    last [/] and its truncation at the first [.]. *)
Lemma clean_unfold (s : string) :
  clean (Some s) =
    match s with
    | EmptyString => UNKNOWN
    | _ =>
        let seg := after_last "/" s in
        if Py.starts_with "." seg then seg else before_first "." seg
    end.
Proof.
  destruct s as [|d s']; [reflexivity|].
  unfold clean, clean_file_name.
  replace (Py.len (String d s') <? 1) with false
    by (symmetry; apply Z.ltb_ge; unfold Py.len; simpl String.length; lia).
  rewrite last_split. cbv zeta.
  set (seg := after_last "/" (String d s')).
  pose proof (find_lower "." seg) as Hlow.
  destruct (Py.starts_with "." seg) eqn:Hst.
  - apply find_zero in Hst. rewrite Hst. reflexivity.
  - destruct (0 <? Py.find "." seg) eqn:Hpos.
    + apply Z.ltb_lt in Hpos. apply slice_find. lia.
    + apply Z.ltb_ge in Hpos.
      assert (Hf : Py.find "." seg = -1).
      { assert (Py.find "." seg <> 0).
        { intro E. apply find_zero in E. congruence. }
        lia. }
      symmetry. apply before_first_without.
      destruct (mem_char "." seg) eqn:Hm; [|reflexivity].
      exfalso. clear - Hf Hm.
      induction seg as [|a seg' IH]; simpl in *; [discriminate|].
      destruct (Ascii.eqb a "."); [discriminate|].
      destruct (Py.find "." seg' <? 0) eqn:E.
      * apply IH; [|exact Hm].
        pose proof (find_lower "." seg'). apply Z.ltb_lt in E. lia.
      * apply Z.ltb_ge in E. lia.
Qed.

Lemma clean_fixed (y : string) :
  y <> EmptyString -> mem_char "/" y = false ->
  (Py.starts_with "." y = true \/ mem_char "." y = false) ->
  clean (Some y) = y.
Proof.
  intros Hne Hs Hd. rewrite clean_unfold.
  destruct y as [|a y']; [congruence|].
  cbv zeta. rewrite (after_last_without _ _ Hs).
  destruct Hd as [Hd|Hd].
  - now rewrite Hd.
  - destruct (Py.starts_with "." (String a y')); [reflexivity|].
    now apply before_first_without.
Qed.



(** C7 (as the code has it): the result is the specification's rule except
    when the substring after the last [/] begins with [.]; then the guard
    [dotidx > 0] keeps that substring whole. *)
Theorem clean_file_name_rule (x : option string) :
  clean x = if dot_first x then segment x else clean_rule_spec x.
Proof.
  destruct x as [s|]; [|reflexivity].
  rewrite clean_unfold.
  destruct s as [|d s']; [reflexivity|].
  cbv zeta. cbn [dot_first segment clean_rule_spec].
  reflexivity.
Qed.

(** C7, the claim as stated fails: a name beginning with [.] is kept,
    where the rule truncates it to the empty prefix. *)
Lemma clean_file_name_keeps_leading_dot :
  clean (Some "in/.manifest.csv") = ".manifest.csv"
  /\ clean_rule_spec (Some "in/.manifest.csv") = EmptyString
  /\ clean (Some "in/.manifest.csv") <> clean_rule_spec (Some "in/.manifest.csv").
Proof. vm_compute. repeat split. discriminate. Qed.

(** ** The metric evaluator *)


Lemma registered_metric (step_number metric_number : Z) (m : MetricMeta) :
  metric_meta step_number metric_number = Ok m ->
  exists s, getitem step_number QC_META = Ok s
            /\ getitem metric_number (step_metrics s) = Ok m.
Proof.
  unfold metric_meta. destruct (getitem step_number QC_META) as [s|e]; simpl.
  - intros H. now exists s.
  - discriminate.
Qed.





Lemma error_rows_count p message df_error :
  count (error_rows p message df_error)
  = Z.of_nat (List.length (List.filter (holds p) (rows df_error))).
Proof.
  unfold count, error_rows, withColumn_lit. simpl. now rewrite length_map.
Qed.








(** ** Sorting, and the checksum of a checksum list *)

Section SortFacts.

Variable A : Type.
Variable leb : A -> A -> bool.
Hypothesis leb_total : forall x y, leb x y = true \/ leb y x = true.
Hypothesis leb_antisym : forall x y, leb x y = true -> leb y x = true -> x = y.
Hypothesis leb_trans : forall x y z, leb x y = true -> leb y z = true -> leb x z = true.

Lemma insert_by_comm (x y : A) (l : list A) :
  insert_by leb x (insert_by leb y l) = insert_by leb y (insert_by leb x l).
Proof.
  induction l as [|z l IH]; simpl.
  - destruct (leb x y) eqn:Hxy, (leb y x) eqn:Hyx; try reflexivity.
    + now rewrite (leb_antisym _ _ Hxy Hyx).
    + destruct (leb_total x y); congruence.
  - destruct (leb y z) eqn:Hyz, (leb x z) eqn:Hxz; simpl.
    + destruct (leb x y) eqn:Hxy, (leb y x) eqn:Hyx; rewrite ?Hxz, ?Hyz; try reflexivity.
      * now rewrite (leb_antisym _ _ Hxy Hyx).
      * destruct (leb_total x y); congruence.
    + assert (Hxy : leb x y = false).
      { destruct (leb x y) eqn:E; [|reflexivity].
        rewrite (leb_trans _ _ _ E Hyz) in Hxz. discriminate. }
      now rewrite Hxy, Hxz, Hyz.
    + assert (Hyx : leb y x = false).
      { destruct (leb y x) eqn:E; [|reflexivity].
        rewrite (leb_trans _ _ _ E Hxz) in Hyz. discriminate. }
      now rewrite Hyx, Hxz, Hyz.
    + now rewrite Hxz, Hyz, IH.
Qed.

(** Sorting forgets the order of its input. *)
Lemma sort_by_permutation (l l' : list A) :
  Permutation l l' -> sort_by leb l = sort_by leb l'.
Proof.
  induction 1 as [|x l l' _ IH|x y l|l l' l'' _ IH1 _ IH2]; simpl.
  - reflexivity.
  - now rewrite IH.
  - apply insert_by_comm.
  - now rewrite IH1.
Qed.

End SortFacts.

Lemma insert_by_perm {A} (leb : A -> A -> bool) (x : A) (l : list A) :
  Permutation (x :: l) (insert_by leb x l).
Proof.
  induction l as [|y l IH]; simpl; [reflexivity|].
  destruct (leb x y); [reflexivity|].
  rewrite perm_swap. now apply perm_skip.
Qed.

Lemma sort_by_perm {A} (leb : A -> A -> bool) (l : list A) :
  Permutation l (sort_by leb l).
Proof.
  induction l as [|x l IH]; simpl; [reflexivity|].
  rewrite <- insert_by_perm. now apply perm_skip.
Qed.

Lemma sort_by_In {A} (leb : A -> A -> bool) (l : list A) (x : A) :
  In x (sort_by leb l) <-> In x l.
Proof.
  split; apply Permutation_in; [symmetry|]; apply sort_by_perm.
Qed.

Lemma string_compare_refl (s : string) : String.compare s s = Eq.
Proof.
  induction s as [|a s IH]; simpl; [reflexivity|].
  unfold Ascii.compare. now rewrite N.compare_refl.
Qed.

Lemma string_leb_trans (x y z : string) :
  String.leb x y = true -> String.leb y z = true -> String.leb x z = true.
Proof.
  unfold String.leb. revert y z.
  induction x as [|a x IH]; intros [|b y] [|c z]; simpl; try congruence.
  unfold Ascii.compare.
  destruct (N.compare_spec (N_of_ascii a) (N_of_ascii b)) as [Eab|Lab|Gab]; try congruence;
  destruct (N.compare_spec (N_of_ascii b) (N_of_ascii c)) as [Ebc|Lbc|Gbc]; try congruence;
  destruct (N.compare_spec (N_of_ascii a) (N_of_ascii c)) as [Eac|Lac|Gac];
    try congruence; try lia.
  apply IH.
Qed.

(** A null among the checksums is the only way to fail, whatever the
    order. *)
Lemma all_some_permutation {A} (xs ys : list (option A)) :
  Permutation xs ys ->
  match all_some xs, all_some ys with
  | Some l, Some l' => Permutation l l'
  | None, None => True
  | _, _ => False
  end.
Proof.
  induction 1 as [|x l l' _ IH|x y l|l l' l'' _ IH1 _ IH2]; simpl.
  - constructor.
  - destruct x as [a|]; [|exact I].
    destruct (all_some l), (all_some l'); simpl; try exact IH. now constructor.
  - destruct x as [a|], y as [b|]; simpl; try exact I;
      destruct (all_some l); simpl; try exact I. apply perm_swap.
  - destruct (all_some l), (all_some l'), (all_some l''); try contradiction; try exact I.
    now transitivity l1.
Qed.

Lemma sorted_checksum_string_permutation (xs ys : list (option string)) :
  Permutation xs ys -> sorted_checksum_string xs = sorted_checksum_string ys.
Proof.
  intros H. apply all_some_permutation in H. unfold sorted_checksum_string.
  destruct (all_some xs), (all_some ys); try contradiction; [|reflexivity].
  unfold sort_strings.
  rewrite (sort_by_permutation _ String.leb String.leb_total String.leb_antisym
             string_leb_trans _ _ H).
  reflexivity.
Qed.

(** C3: the checksum scalar of decrypt metric 3 does not depend on the
    order of the collected checksums, and neither does the evaluation of
    the metric from the two lists. *)
Theorem checksum_comparison_order_independent
    ext self (manifest manifest' audit audit' : list (option string)) :
  Permutation manifest manifest' ->
  Permutation audit audit' ->
  checksum_scalar ext manifest = checksum_scalar ext manifest'
  /\ checksum_scalar ext audit = checksum_scalar ext audit'
  /\ forall df_error w,
       decrypt_metric_3 ext self manifest audit df_error w
       = decrypt_metric_3 ext self manifest' audit' df_error w.
Proof.
  intros Hm Ha.
  apply sorted_checksum_string_permutation in Hm, Ha.
  unfold checksum_scalar, decrypt_metric_3.
  rewrite Hm, Ha. repeat split.
Qed.

Lemma checksum_comparison_order_independent_witness :
  let manifest := [Some "aa"; Some "bb"; Some "cc"] in
  let audit := [Some "cc"; Some "aa"; Some "bb"] in
  checksum_scalar Example.ext_ok manifest = Ok 107070890337123
  /\ checksum_scalar Example.ext_ok audit = Ok 107070890337123
  /\ forall df_error w,
       decrypt_metric_3 Example.ext_ok Example.self manifest manifest df_error w
       = decrypt_metric_3 Example.ext_ok Example.self manifest audit df_error w.
Proof.
  intros manifest audit.
  assert (Hp : Permutation manifest audit).
  { unfold manifest, audit.
    apply Permutation_trans with (l' := [Some "aa"; Some "cc"; Some "bb"]).
    - apply perm_skip. apply perm_swap.
    - apply perm_swap. }
  split; [vm_compute; reflexivity|]. split; [vm_compute; reflexivity|].
  exact (proj2 (proj2 (checksum_comparison_order_independent
                         Example.ext_ok Example.self manifest manifest manifest audit
                         (Permutation_refl _) Hp))).
Defined.

(** ** The decrypt-manifest join *)

Lemma left_outer_In {A B} (cond : A -> B -> bool) (left : list A) (right : list B)
    (a : A) (ob : option B) :
  In (a, ob) (left_outer cond left right) <->
  In a left /\
  match ob with
  | Some b => In b right /\ cond a b = true
  | None => List.filter (cond a) right = []
  end.
Proof.
  unfold left_outer. rewrite in_flat_map. split.
  - intros (a' & Ha' & Hin).
    destruct (List.filter (cond a') right) as [|b0 bs] eqn:Hf.
    + destruct Hin as [E|[]]. injection E as <- <-. now split.
    + apply in_map_iff in Hin. destruct Hin as (b & E & Hb). injection E as <- <-.
      split; [exact Ha'|]. rewrite <- Hf in Hb. apply filter_In in Hb. exact Hb.
  - intros (Ha & Hob). exists a. split; [exact Ha|].
    destruct ob as [b|].
    + assert (Hb : In b (List.filter (cond a) right)) by now apply filter_In.
      destruct (List.filter (cond a) right) as [|b0 bs]; [destruct Hb|].
      apply in_map_iff. now exists b.
    + rewrite Hob. now left.
Qed.

Lemma join_decrypt_manifest_In (df_m : list ManifestRow) (df_a : list AuditRow)
    (j : ManifestJoinRow) :
  In j (join_decrypt_manifest df_m df_a) <->
  exists m oa, j = manifest_join_row (m, oa)
               /\ In (m, oa) (left_outer file_key_match df_m df_a).
Proof.
  unfold join_decrypt_manifest. rewrite sort_by_In, in_map_iff. split.
  - intros ([m oa] & E & H). now exists m, oa.
  - intros (m & oa & E & H). now exists (m, oa).
Qed.

Lemma key_match_some (x y : option string) :
  key_match x y = true -> exists s, x = Some s /\ y = Some s.
Proof.
  unfold key_match. destruct x as [s|], y as [t|]; simpl; try discriminate.
  destruct (String.eqb_spec s t); [|discriminate]. subst. intros _. now exists t.
Qed.

(** What the three flags of a joined row say, for every input: the file
    flag marks the manifest rows without an audit match; the line-count
    flag compares the counts with a missing one read as 0; the checksum
    flag is raised only when both checksums are present and differ. *)
Lemma join_decrypt_manifest_flags (df_m : list ManifestRow) (df_a : list AuditRow)
    (m : ManifestRow) (oa : option AuditRow) :
  In (m, oa) (left_outer file_key_match df_m df_a) ->
  let j := manifest_join_row (m, oa) in
  (mj_file_mismatch j = 1 <-> oa = None)
  /\ (mj_file_mismatch j = 0 <-> oa <> None)
  /\ (mj_linecount_mismatch j = 1
      <-> or_zero (manifest_linecount m) <> or_zero (opt_bind oa audit_linecount))
  /\ (mj_linecount_mismatch j = 0
      <-> or_zero (manifest_linecount m) = or_zero (opt_bind oa audit_linecount))
  /\ (mj_checksum_mismatch j = 1
      <-> exists x y, manifest_checksum m = Some x
                      /\ opt_bind oa audit_checksum = Some y /\ x <> y)
  /\ (mj_checksum_mismatch j = 0 \/ mj_checksum_mismatch j = 1).
Proof.
  intros Hin j. apply left_outer_In in Hin. destruct Hin as [_ Hoa].
  unfold j, manifest_join_row. cbn [fst snd mj_file_mismatch mj_linecount_mismatch
                                    mj_checksum_mismatch].
  split; [|split; [|split; [|split; [|split]]]].
  - destruct oa as [a|]; simpl.
    + destruct Hoa as [_ Hk]. apply key_match_some in Hk. destruct Hk as (s & _ & ->).
      simpl. split; discriminate.
    + split; reflexivity.
  - destruct oa as [a|]; simpl.
    + destruct Hoa as [_ Hk]. apply key_match_some in Hk. destruct Hk as (s & _ & ->).
      simpl. split; [discriminate|reflexivity].
    + split; [discriminate|congruence].
  - destruct (manifest_linecount m) as [x|], (opt_bind oa audit_linecount) as [y|];
      cbn [fillna0_int of_opt_int sql_ne sql_eq option_map when_1_else_0 or_zero];
      match goal with |- context [?u =? ?v] => destruct (Z.eqb_spec u v) end;
      cbn [negb]; split; intros; try congruence; try discriminate.
  - destruct (manifest_linecount m) as [x|], (opt_bind oa audit_linecount) as [y|];
      cbn [fillna0_int of_opt_int sql_ne sql_eq option_map when_1_else_0 or_zero];
      match goal with |- context [?u =? ?v] => destruct (Z.eqb_spec u v) end;
      cbn [negb]; split; intros; try congruence; try discriminate.
  - unfold fillna0_str.
    destruct (manifest_checksum m) as [x|], (opt_bind oa audit_checksum) as [y|]; simpl.
    + destruct (String.eqb_spec x y); simpl; split.
      * discriminate.
      * intros (x' & y' & Ex & Ey & Hne). congruence.
      * intros _. now exists x, y.
      * reflexivity.
    + split; [discriminate|]. intros (x' & y' & _ & Ey & _). discriminate.
    + split; [discriminate|]. intros (x' & y' & Ex & _). discriminate.
    + split; [discriminate|]. intros (x' & y' & Ex & _). discriminate.
  - unfold fillna0_str.
    destruct (manifest_checksum m) as [x|], (opt_bind oa audit_checksum) as [y|]; simpl; auto.
    destruct (String.eqb x y); simpl; auto.
Qed.

(** C5, at a manifest row that has no audit match: the row is flagged as a
    missing file and as a line-count mismatch (10 against the filled 0),
    and its checksum flag is 0: [fillna(0)] leaves the string column null,
    the comparison with null is null, and [when] takes its [otherwise]. *)
Theorem join_decrypt_manifest_unmatched_checksum :
  join_decrypt_manifest [mkManifest (Some "f1") (Some "abc") (Some 10)] []
  = [ mkManifestJoin (Some "f1") (Some "abc") (Some 10) None None (Some 0) 1 1 0 ].
Proof. reflexivity. Qed.

(** *** Line counts: the sums against the rows *)

Lemma sumZ_ext {A} (f g : A -> Z) (l : list A) :
  (forall x, In x l -> f x = g x) -> sumZ f l = sumZ g l.
Proof.
  induction l as [|x l IH]; intros H; [reflexivity|].
  change (f x + sumZ f l = g x + sumZ g l).
  rewrite (H x (or_introl eq_refl)), IH; [reflexivity|].
  intros y Hy. apply H. now right.
Qed.

Lemma sumZ_indicator {A} (test : A -> bool) (v : Z) (l : list A) :
  sumZ (fun x => if test x then v else 0) l
  = v * Z.of_nat (List.length (List.filter test l)).
Proof.
  induction l as [|x l IH]; [simpl; lia|].
  change (sumZ (fun x => if test x then v else 0) (x :: l))
    with ((if test x then v else 0) + sumZ (fun x => if test x then v else 0) l).
  rewrite IH. simpl List.filter. destruct (test x); simpl List.length; lia.
Qed.

(** Summing, over the left rows, the sum over the right rows each one
    matches counts every right row once, when every right row matches
    exactly one left row. *)
Lemma sumZ_matches {A B} (cond : A -> B -> bool) (f : B -> Z)
    (left : list A) (right : list B) :
  (forall b, In b right -> List.length (List.filter (fun a => cond a b) left) = 1%nat) ->
  sumZ (fun a => sumZ f (List.filter (cond a) right)) left = sumZ f right.
Proof.
  induction right as [|b right IH]; intros H.
  - induction left as [|a left IHl]; [reflexivity|].
    change (0 + sumZ (fun a => sumZ f (List.filter (cond a) [])) left = sumZ f []).
    now rewrite IHl.
  - transitivity
      (sumZ (fun a => (if cond a b then f b else 0)
                      + sumZ f (List.filter (cond a) right)) left).
    { apply sumZ_ext. intros a _. simpl. destruct (cond a b); reflexivity. }
    assert (Hsplit : forall (g h : A -> Z) l,
               sumZ (fun a => g a + h a) l = sumZ g l + sumZ h l).
    { intros g h l. induction l as [|a l IHl]; [reflexivity|].
      change (g a + h a + sumZ (fun a => g a + h a) l
              = g a + sumZ g l + (h a + sumZ h l)).
      rewrite IHl. lia. }
    rewrite Hsplit, sumZ_indicator, (H b (or_introl eq_refl)), IH.
    + change (sumZ f (b :: right)) with (f b + sumZ f right). lia.
    + intros b' Hb'. apply H. now right.
Qed.

Lemma sum_opt_total (xs : list (option Z)) (t : Z) :
  sum_opt xs = Some t -> t = sumZ or_zero xs.
Proof.
  unfold sum_opt. revert t.
  induction xs as [|x xs IH]; intros t H; [discriminate|].
  change (t = or_zero x + sumZ or_zero xs).
  destruct x as [z|]; cbn [map of_opt_int sum_cells or_zero] in H |- *.
  - destruct (sum_cells (map of_opt_int xs)) as [s|] eqn:Hs.
    + injection H as <-. now rewrite <- (IH s eq_refl).
    + injection H as <-.
      assert (Hz : sumZ or_zero xs = 0).
      { clear IH. induction xs as [|y ys IHy]; [reflexivity|].
        change (or_zero y + sumZ or_zero ys = 0).
        destruct y as [u|]; cbn [map of_opt_int sum_cells or_zero] in Hs |- *.
        - destruct (sum_cells (map of_opt_int ys)); discriminate.
        - now rewrite IHy. }
      rewrite Hz. lia.
  - rewrite <- (IH t H). lia.
Qed.

Lemma sumZ_map {A B} (f : B -> Z) (g : A -> B) (l : list A) :
  sumZ f (map g l) = sumZ (fun x => f (g x)) l.
Proof.
  induction l as [|x l IH]; [reflexivity|].
  change (f (g x) + sumZ f (map g l) = f (g x) + sumZ (fun x => f (g x)) l).
  now rewrite IH.
Qed.

Lemma manifest_join_linecount_cell (j : ManifestJoinRow) :
  holds (PEq (ECol "linecount_mismatch") (ELit 1)) (row_of (manifest_join_cells j))
  = (mj_linecount_mismatch j =? 1).
Proof.
  change (match Some (mj_linecount_mismatch j =? 1) with Some true => true | _ => false end
          = (mj_linecount_mismatch j =? 1)).
  now destruct (mj_linecount_mismatch j =? 1).
Qed.

Lemma decrypt_metric_2_rows (df_m : list ManifestRow) (df_a : list AuditRow) :
  update_error_dataframe 1 2 (manifest_join_df (join_decrypt_manifest df_m df_a))
  = Ok (error_rows (PEq (ECol "linecount_mismatch") (ELit 1))
          "audit line count does not match manifest"
          (manifest_join_df (join_decrypt_manifest df_m df_a))).
Proof. reflexivity. Qed.

(** When no joined row carries the line-count flag and file names pair the
    two sides one to one, the two line-count totals agree. *)
Lemma linecount_totals_agree (df_m : list ManifestRow) (df_a : list AuditRow) :
  one_to_one_files df_m df_a = true ->
  (forall j, In j (join_decrypt_manifest df_m df_a) -> mj_linecount_mismatch j <> 1) ->
  sumZ or_zero (map manifest_linecount df_m) = sumZ or_zero (map audit_linecount df_a).
Proof.
  intros H11 Hflags.
  apply andb_true_iff in H11. destruct H11 as [Hcover Hunique].
  rewrite forallb_forall in Hcover, Hunique.
  rewrite !sumZ_map.
  rewrite <- (sumZ_matches file_key_match (fun a => or_zero (audit_linecount a)) df_m df_a).
  2:{ intros a Ha. apply Nat.eqb_eq. now apply Hcover. }
  apply sumZ_ext. intros m Hm.
  specialize (Hunique m Hm). apply Nat.leb_le in Hunique.
  assert (Hrow : forall oa, In (m, oa) (left_outer file_key_match df_m df_a) ->
                   or_zero (manifest_linecount m) = or_zero (opt_bind oa audit_linecount)).
  { intros oa Hin.
    pose proof (join_decrypt_manifest_flags df_m df_a m oa Hin) as Hf. cbv zeta in Hf.
    destruct Hf as (_ & _ & H1 & _).
    destruct (Z.eq_dec (or_zero (manifest_linecount m))
                       (or_zero (opt_bind oa audit_linecount))) as [E|Hne]; [exact E|].
    exfalso. apply (Hflags (manifest_join_row (m, oa))).
    - apply join_decrypt_manifest_In. now exists m, oa.
    - now apply H1. }
  destruct (List.filter (file_key_match m) df_a) as [|a [|a' rest]] eqn:Hf.
  - rewrite (Hrow None); [reflexivity|]. apply left_outer_In. now split.
  - assert (Ha : In a (List.filter (file_key_match m) df_a)) by (rewrite Hf; now left).
    apply filter_In in Ha.
    rewrite (Hrow (Some a)); [simpl; lia|]. apply left_outer_In. now split.
  - simpl in Hunique. lia.
Qed.

(** C4 (as the code has it), for the example of the claim, decrypt metric
    2 with a manifest: when file names pair manifest and audit rows one to
    one and the two line-count sums differ, the registered filter selects
    at least one row of the join. *)
Theorem decrypt_linecount_mismatch_located
    (df_m : list ManifestRow) (df_a : list AuditRow) (l r : Z) :
  one_to_one_files df_m df_a = true ->
  sum_opt (map manifest_linecount df_m) = Some l ->
  sum_opt (map audit_linecount df_a) = Some r ->
  l <> r ->
  exists d,
    update_error_dataframe 1 2 (manifest_join_df (join_decrypt_manifest df_m df_a)) = Ok d
    /\ 0 < count d.
Proof.
  intros H11 Hl Hr Hne.
  rewrite decrypt_metric_2_rows. eexists. split; [reflexivity|].
  rewrite error_rows_count.
  destruct (List.filter _ _) as [|row rest] eqn:Hf; [|simpl List.length; lia].
  exfalso. apply Hne.
  rewrite (sum_opt_total _ _ Hl), (sum_opt_total _ _ Hr).
  apply linecount_totals_agree; [exact H11|].
  intros j Hj Hflag.
  assert (Hin : In (row_of (manifest_join_cells j))
                  (List.filter (holds (PEq (ECol "linecount_mismatch") (ELit 1)))
                     (rows (manifest_join_df (join_decrypt_manifest df_m df_a))))).
  { apply filter_In. split.
    - unfold manifest_join_df. simpl. apply in_map_iff. now exists j.
    - rewrite manifest_join_linecount_cell, Hflag. reflexivity. }
  rewrite Hf in Hin. destruct Hin.
Qed.

Lemma decrypt_linecount_mismatch_located_witness :
  let df_m := [ mkManifest (Some "f1") (Some "aa") (Some 10);
                mkManifest (Some "f2") (Some "bb") (Some 20) ] in
  let df_a := [ mkAudit (Some "f2") (Some "bb") (Some 20);
                mkAudit (Some "f1") (Some "aa") (Some 9) ] in
  exists d,
    update_error_dataframe 1 2 (manifest_join_df (join_decrypt_manifest df_m df_a)) = Ok d
    /\ 0 < count d.
Proof.
  intros df_m df_a.
  apply (decrypt_linecount_mismatch_located df_m df_a 30 29).
  - reflexivity.
  - reflexivity.
  - reflexivity.
  - lia.
Defined.

(** C4, the claim as stated fails in both directions on decrypt metric 2.
    Two files whose line counts are swapped in the audit: the sums agree
    (30 and 30) and the filter selects both rows.  An audit with a file the
    manifest lacks: the sums differ (10 and 15) and the filter selects no
    row, the left outer join having no row for that file. *)
Lemma decrypt_linecount_consistency_fails :
  (let df_m := [ mkManifest (Some "f1") (Some "aa") (Some 10);
                 mkManifest (Some "f2") (Some "bb") (Some 20) ] in
   let df_a := [ mkAudit (Some "f1") (Some "aa") (Some 20);
                 mkAudit (Some "f2") (Some "bb") (Some 10) ] in
   sum_opt (map manifest_linecount df_m) = Some 30
   /\ sum_opt (map audit_linecount df_a) = Some 30
   /\ exists d,
        update_error_dataframe 1 2 (manifest_join_df (join_decrypt_manifest df_m df_a)) = Ok d
        /\ count d = 2)
  /\
  (let df_m := [ mkManifest (Some "f1") (Some "aa") (Some 10) ] in
   let df_a := [ mkAudit (Some "f1") (Some "aa") (Some 10);
                 mkAudit (Some "f9") (Some "zz") (Some 5) ] in
   sum_opt (map manifest_linecount df_m) = Some 10
   /\ sum_opt (map audit_linecount df_a) = Some 15
   /\ exists d,
        update_error_dataframe 1 2 (manifest_join_df (join_decrypt_manifest df_m df_a)) = Ok d
        /\ count d = 0).
Proof.
  split; cbv zeta; (split; [reflexivity|]); (split; [reflexivity|]);
    eexists; (split; [reflexivity|]); reflexivity.
Qed.

(** ** The summary save and its fallback *)



(** ** What the steps leave alone *)

Lemma report_untouched_refl (w : World) : report_untouched w w.
Proof. repeat split; auto. Qed.

Lemma report_untouched_trans (w1 w2 w3 : World) :
  report_untouched w1 w2 -> report_untouched w2 w3 -> report_untouched w1 w3.
Proof.
  intros (A1 & B1 & C1) (A2 & B2 & C2). repeat split.
  - congruence.
  - congruence.
  - auto.
Qed.

Lemma quiet_ret {A} (a : A) : quiet (ret a).
Proof. intros w. apply report_untouched_refl. Qed.

Lemma quiet_raise {A} (e : exn) : quiet (@raise A e).
Proof. intros w. apply report_untouched_refl. Qed.

Lemma quiet_lift {A} (r : result A) : quiet (lift r).
Proof. intros w. apply report_untouched_refl. Qed.

Lemma quiet_log (l : level) (msg : string) : quiet (log_msg l msg).
Proof. intros w. unfold log_msg. repeat split; simpl; auto. Qed.

Lemma quiet_spark_table (name : string) : quiet (spark_table name).
Proof.
  intros w. unfold spark_table. destruct (assoc name (views w)); apply report_untouched_refl.
Qed.

Lemma quiet_read_parquet (path : option string) : quiet (read_parquet path).
Proof.
  intros w. unfold read_parquet. destruct path as [p|]; [|apply report_untouched_refl].
  destruct (assoc p (storage w)); apply report_untouched_refl.
Qed.

Lemma quiet_view (name : string) (v : View) :
  String.eqb name "output" = false -> quiet (createOrReplaceTempView name v).
Proof.
  intros H w. unfold createOrReplaceTempView. repeat split; simpl; auto. now rewrite H.
Qed.

Lemma quiet_bind {A B} (m : M A) (k : A -> M B) :
  quiet m -> (forall a, quiet (k a)) -> quiet (bind m k).
Proof.
  intros Hm Hk w. unfold bind. specialize (Hm w).
  destruct (m w) as [[a|e] w1]; [|exact Hm].
  eapply report_untouched_trans; [exact Hm|apply Hk].
Qed.

Lemma quiet_try {A} (m : M A) (h : exn -> M A) :
  quiet m -> (forall e, quiet (h e)) -> quiet (try_except m h).
Proof.
  intros Hm Hh w. unfold try_except. specialize (Hm w).
  destruct (m w) as [[a|e] w1]; [exact Hm|].
  eapply report_untouched_trans; [exact Hm|apply Hh].
Qed.

Lemma quiet_write_save ext (path format : string) (df : DataFrame) :
  quiet (write_save ext path format df).
Proof.
  intros w. unfold write_save. destruct (write_fault ext path);
    repeat split; simpl; auto.
Qed.

Lemma quiet_record_call (c : call) :
  (forall df, c <> SaveOutput df 2) -> quiet (record_call c).
Proof.
  intros H w. unfold record_call. repeat split; simpl; auto.
  intros df [E|Hin]; [|exact Hin]. exfalso. exact (H df E).
Qed.

Ltac quiet_step :=
  lazymatch goal with
  | |- quiet (bind _ _) => apply quiet_bind; [|intros ?]
  | |- quiet (ret _) => apply quiet_ret
  | |- quiet (raise _) => apply quiet_raise
  | |- quiet (lift _) => apply quiet_lift
  | |- quiet (log_info _) => apply quiet_log
  | |- quiet (log_error _) => apply quiet_log
  | |- quiet (log_msg _ _) => apply quiet_log
  | |- quiet (spark_table _) => apply quiet_spark_table
  | |- quiet (read_parquet _) => apply quiet_read_parquet
  | |- quiet (write_save _ _ _ _) => apply quiet_write_save
  | |- quiet (try_except _ _) => apply quiet_try; [|intros ?]
  | |- quiet (createOrReplaceTempView _ _) => apply quiet_view; reflexivity
  | |- quiet (record_call _) => apply quiet_record_call; intros ?; discriminate
  | |- quiet (if ?b then _ else _) => destruct b
  | |- quiet (match ?o with _ => _ end) => destruct o
  | |- quiet (let _ := _ in _) => cbv zeta
  end.

Ltac quiet_auto := repeat quiet_step.

Lemma quiet_save_error_rows ext self df step_number metric_number :
  quiet (save_error_rows ext self df step_number metric_number).
Proof. unfold save_error_rows. quiet_auto. Qed.

Lemma quiet_save_summary ext self df : quiet (save_output ext self df 1).
Proof. unfold save_output. quiet_auto. Qed.

Lemma quiet_qc_individual_metric ext self step_number metric_number l r df :
  quiet (qc_individual_metric ext self step_number metric_number l r df).
Proof.
  unfold qc_individual_metric. quiet_auto.
  all: try apply quiet_save_error_rows.
  all: quiet_auto.
Qed.

Lemma quiet_run_metrics ext self step_number keys qc_values df acc :
  quiet (run_metrics ext self step_number keys qc_values df acc).
Proof.
  revert acc. induction keys as [|k keys IH]; intros acc; simpl.
  - apply quiet_ret.
  - quiet_auto; [apply quiet_qc_individual_metric|apply IH].
Qed.

Lemma quiet_qc_individual_step ext self step_number qc_values df :
  quiet (qc_individual_step ext self step_number qc_values df).
Proof.
  unfold qc_individual_step. quiet_auto.
  all: try apply quiet_run_metrics.
  all: quiet_auto.
Qed.

Lemma quiet_get_file_path ext name : quiet (get_file_path_from_temp_view ext name).
Proof. unfold get_file_path_from_temp_view. quiet_auto. Qed.

Lemma quiet_get_and_save_ami_summary ext self df_common :
  quiet (get_and_save_ami_summary ext self df_common).
Proof.
  unfold get_and_save_ami_summary. quiet_auto.
  all: try apply quiet_save_summary.
  all: quiet_auto.
Qed.

Lemma quiet_setup ext self : quiet (setup_common_ami_summary_raw_to_rollup ext self).
Proof.
  unfold setup_common_ami_summary_raw_to_rollup. quiet_auto.
  all: try apply quiet_get_and_save_ami_summary.
  all: quiet_auto.
Qed.

Lemma emits_bind {A} (m : M A) (k : A -> M DataFrame) :
  quiet m -> (forall a, emits (k a)) -> emits (bind m k).
Proof.
  intros Hm Hk w. unfold bind. specialize (Hm w).
  destruct (m w) as [[a|e] w1]; [|exact Hm].
  specialize (Hk a w1). cbn [snd] in Hm. destruct Hm as (A1 & B1 & C1).
  destruct (k a w1) as [[d|e] w2].
  - destruct Hk as (A2 & S2 & N2 & B2 & C2). repeat split; try congruence. auto.
  - eapply report_untouched_trans; [|exact Hk]. now repeat split.
Qed.

(** The last three statements of every step function. *)
Lemma emits_tail (m : M DataFrame) :
  quiet m ->
  (forall w d w', m w = (Ok d, w') -> columns d = SCHEMA /\ count d = 1) ->
  emits (bind m (fun output => bind (append_completed output) (fun _ => ret output))).
Proof.
  intros Hm Hshape w. unfold bind, append_completed, ret.
  specialize (Hm w). specialize (Hshape w).
  destruct (m w) as [[d|e] w1]; [|exact Hm].
  destruct (Hshape d w1 eq_refl) as [Hc Hn].
  cbn [snd] in Hm. destruct Hm as (A1 & B1 & C1).
  simpl. repeat split; auto. now rewrite A1.
Qed.

Lemma qc_individual_step_shape ext self step_number qc_values df w d w' :
  qc_individual_step ext self step_number qc_values df w = (Ok d, w') ->
  columns d = SCHEMA /\ count d = 1.
Proof.
  unfold qc_individual_step, bind, lift, ret, log_info, log_msg.
  destruct (getitem step_number QC_META) as [s|e]; [|discriminate].
  destruct (run_metrics _ _ _ _ _ _ _ _) as [[out|e] w1]; [|discriminate].
  intros E. injection E as <- _. split; reflexivity.
Qed.

Ltac emits_step :=
  lazymatch goal with
  | |- emits (bind (qc_individual_step _ _ _ _ _) _) =>
      apply emits_tail;
      [apply quiet_qc_individual_step | apply qc_individual_step_shape]
  | |- emits (bind _ _) =>
      apply emits_bind;
      [repeat first [quiet_step | apply quiet_get_file_path] | intros ?]
  | |- emits (let _ := _ in _) => cbv zeta
  end.

Lemma decrypt_emits ext self : emits (decrypt ext self).
Proof. unfold decrypt. repeat emits_step. Qed.

Lemma channel_ingest_emits ext self : emits (channel_ingest ext self).
Proof. unfold channel_ingest. repeat emits_step. Qed.

Lemma extract_common_ami_emits ext self : emits (extract_common_ami ext self).
Proof. unfold extract_common_ami. repeat emits_step. Qed.

Lemma load_common_ami_emits ext self : emits (load_common_ami ext self).
Proof. unfold load_common_ami. repeat emits_step. Qed.

(** ** The report *)

Lemma bind_ok_inv {A B} (m : M A) (k : A -> M B) (w w' : World) (b : B) :
  bind m k w = (Ok b, w') ->
  exists a w1, m w = (Ok a, w1) /\ k a w1 = (Ok b, w').
Proof.
  unfold bind. destruct (m w) as [[a|e] w1]; [|discriminate].
  intros H. now exists a, w1.
Qed.

Lemma bind_raise_inv {A B} (m : M A) (k : A -> M B) (w w' : World) (e : exn) :
  bind m k w = (Raise e, w') ->
  m w = (Raise e, w') \/ exists a w1, m w = (Ok a, w1) /\ k a w1 = (Raise e, w').
Proof.
  unfold bind. destruct (m w) as [[a|e'] w1].
  - intros H. right. now exists a, w1.
  - intros H. left. injection H as <- <-. reflexivity.
Qed.

Lemma reduce_union_schema (rest : list DataFrame) (first : DataFrame) :
  columns first = SCHEMA ->
  Forall (fun d => columns d = SCHEMA) rest ->
  reduce_union first rest = Ok (mkDF SCHEMA (List.app (rows first) (all_rows rest))).
Proof.
  unfold reduce_union. revert first.
  induction rest as [|d rest IH]; intros first Hf Hr; simpl.
  - unfold all_rows. simpl. rewrite app_nil_r. destruct first as [c r]. simpl in *. now subst.
  - inversion Hr as [|d' rest' Hd Hrest]; subst.
    unfold union at 2. rewrite Hf, Hd. cbn [list_string_eqb SCHEMA String.eqb Ascii.eqb Bool.eqb andb].
    cbn [rbind]. rewrite IH; [|reflexivity|exact Hrest].
    cbn [rows]. unfold all_rows. simpl. now rewrite <- app_assoc.
Qed.

Lemma union_qc_output_schema self (l : list DataFrame) (w : World) :
  l <> [] ->
  Forall (fun d => columns d = SCHEMA) l ->
  exists msg,
    union_qc_output self l w
    = (Ok (mkDF SCHEMA (sort_by by_id (all_rows l))), set_log ((INFO, msg) :: log w) w).
Proof.
  intros Hne Hall. destruct l as [|first rest]; [congruence|].
  inversion Hall as [|d' rest' Hf Hrest]; subst.
  eexists. unfold union_qc_output, bind, lift, log_info, log_msg.
  rewrite (reduce_union_schema rest first Hf Hrest).
  unfold orderBy. cbn [has_column columns SCHEMA existsb String.eqb Ascii.eqb Bool.eqb orb].
  reflexivity.
Qed.

Lemma count_all_rows (l : list DataFrame) :
  Z.of_nat (List.length (all_rows l)) = sumZ count l.
Proof.
  unfold all_rows. induction l as [|d l IH]; [reflexivity|].
  simpl map. simpl List.concat. rewrite length_app, Nat2Z.inj_add, IH. reflexivity.
Qed.

Lemma sumZ_app {A} (f : A -> Z) (l l' : list A) :
  sumZ f (List.app l l') = sumZ f l + sumZ f l'.
Proof.
  induction l as [|x l IH]; [reflexivity|].
  change (f x + sumZ f (List.app l l') = f x + sumZ f l + sumZ f l').
  rewrite IH. lia.
Qed.

(** C10: a run that completes has appended one one-row record per step to
    the global list, and its report is the union of the whole list: the
    records the list held before the run are in the report, whose row count
    is theirs plus four. *)
Theorem run_reports_global_list ext self (w : World) :
  Forall (fun d => columns d = SCHEMA) (COMPLETED_QC_STEP_LIST w) ->
  fst (run ext self w) = Ok tt ->
  let w' := snd (run ext self w) in
  exists d1 d2 d3 d4 report,
    COMPLETED_QC_STEP_LIST w' = List.app (COMPLETED_QC_STEP_LIST w) [d1; d2; d3; d4]
    /\ count d1 = 1 /\ count d2 = 1 /\ count d3 = 1 /\ count d4 = 1
    /\ assoc "output" (views w') = Some (mkView InMemory report)
    /\ In (SaveOutput report 2) (calls w')
    /\ Permutation (rows report) (all_rows (COMPLETED_QC_STEP_LIST w'))
    /\ count report = sumZ count (COMPLETED_QC_STEP_LIST w) + 4.
Proof.
  intros Hall Hok w'.
  destruct (run ext self w) as [res wf] eqn:Hrun. cbn [fst] in Hok. subst res.
  cbn [snd] in w'. subst w'.
  unfold run in Hrun.
  apply bind_ok_inv in Hrun. destruct Hrun as ([] & w0 & Hlog & Hrun).
  apply bind_ok_inv in Hrun. destruct Hrun as ([] & w1 & Hsetup & Hrun).
  apply bind_ok_inv in Hrun. destruct Hrun as (d1 & w2 & H1 & Hrun).
  apply bind_ok_inv in Hrun. destruct Hrun as (d2 & w3 & H2 & Hrun).
  apply bind_ok_inv in Hrun. destruct Hrun as (d3 & w4 & H3 & Hrun).
  apply bind_ok_inv in Hrun. destruct Hrun as (d4 & w5 & H4 & Hrun).
  apply bind_ok_inv in Hrun. destruct Hrun as (step_list & w5' & Hread & Hrun).
  apply bind_ok_inv in Hrun. destruct Hrun as (report & w6 & Hunion & Hrun).
  apply bind_ok_inv in Hrun. destruct Hrun as ([] & w7 & Hsave & Hview).
  (* the list before the steps *)
  assert (E0 : COMPLETED_QC_STEP_LIST w0 = COMPLETED_QC_STEP_LIST w).
  { pose proof (quiet_log INFO ("Start QC for " ++ tenant_id self) w) as Q.
    unfold log_info in Hlog. rewrite Hlog in Q. exact (proj1 Q). }
  assert (E1 : COMPLETED_QC_STEP_LIST w1 = COMPLETED_QC_STEP_LIST w0).
  { pose proof (quiet_setup ext self w0) as Q. rewrite Hsetup in Q. exact (proj1 Q). }
  pose proof (decrypt_emits ext self w1) as S1. rewrite H1 in S1.
  pose proof (channel_ingest_emits ext self w2) as S2. rewrite H2 in S2.
  pose proof (extract_common_ami_emits ext self w3) as S3. rewrite H3 in S3.
  pose proof (load_common_ami_emits ext self w4) as S4. rewrite H4 in S4.
  destruct S1 as (A1 & C1 & N1 & _). destruct S2 as (A2 & C2 & N2 & _).
  destruct S3 as (A3 & C3 & N3 & _). destruct S4 as (A4 & C4 & N4 & _).
  assert (E5 : COMPLETED_QC_STEP_LIST w5
               = List.app (COMPLETED_QC_STEP_LIST w) [d1; d2; d3; d4]).
  { rewrite A4, A3, A2, A1, E1, E0. rewrite <- !app_assoc. reflexivity. }
  unfold read_completed in Hread. injection Hread as <- <-.
  assert (Hall5 : Forall (fun d => columns d = SCHEMA) (COMPLETED_QC_STEP_LIST w5)).
  { rewrite E5. apply Forall_app. split; [exact Hall|]. repeat constructor; assumption. }
  assert (Hne5 : COMPLETED_QC_STEP_LIST w5 <> []).
  { rewrite E5. intros E. apply (f_equal (@List.length _)) in E.
    rewrite length_app in E. simpl in E. lia. }
  destruct (union_qc_output_schema self _ w5 Hne5 Hall5) as (msg & Hu).
  rewrite Hu in Hunion. injection Hunion as <- <-.
  set (report := mkDF SCHEMA (sort_by by_id (all_rows (COMPLETED_QC_STEP_LIST w5)))) in *.
  (* the save and the view *)
  unfold save_output, bind, record_call in Hsave. cbn [Z.eqb Pos.eqb] in Hsave.
  assert (Hc7 : COMPLETED_QC_STEP_LIST w7 = COMPLETED_QC_STEP_LIST w5
                /\ In (SaveOutput report 2) (calls w7)).
  { destruct (s3_path_save_qc_output self) as [p|].
    - unfold write_save, log_info, log_msg, ret in Hsave. cbn in Hsave.
      destruct (write_fault ext p); [discriminate|]. injection Hsave as <-.
      split; [reflexivity|]. simpl. now left.
    - unfold log_info, log_msg in Hsave. cbn in Hsave. injection Hsave as <-.
      split; [reflexivity|]. simpl. now left. }
  destruct Hc7 as [E7 Hcall].
  unfold createOrReplaceTempView in Hview. injection Hview as <-.
  exists d1, d2, d3, d4, report.
  cbn [COMPLETED_QC_STEP_LIST set_views views calls assoc String.eqb Ascii.eqb Bool.eqb].
  rewrite E7, E5.
  repeat split; auto.
  - rewrite <- E5. unfold report. cbn [rows]. symmetry. apply sort_by_perm.
  - unfold count at 1. unfold report. cbn [rows].
    rewrite <- (Permutation_length (sort_by_perm by_id _)).
    rewrite count_all_rows, E5, sumZ_app.
    unfold sumZ at 2. simpl. rewrite N1, N2, N3, N4. lia.
Qed.

Lemma run_reports_global_list_witness :
  let w1 := snd (run Example.ext_ok Example.self (Example.world Example.audit_table)) in
  let w2 := snd (run Example.ext_ok Example.self w1) in
  List.length (COMPLETED_QC_STEP_LIST w1) = 4%nat
  /\ exists report,
       assoc "output" (views w2) = Some (mkView InMemory report)
       /\ count report = 8.
Proof.
  intros w1 w2. split; [vm_compute; reflexivity|].
  assert (Hall : Forall (fun d => columns d = SCHEMA) (COMPLETED_QC_STEP_LIST w1)).
  { vm_compute. repeat constructor. }
  assert (Hok : fst (run Example.ext_ok Example.self w1) = Ok tt).
  { vm_compute. reflexivity. }
  destruct (run_reports_global_list Example.ext_ok Example.self w1 Hall Hok)
    as (d1 & d2 & d3 & d4 & report & _ & _ & _ & _ & _ & Hview & _ & _ & Hcount).
  exists report. split; [exact Hview|].
  rewrite Hcount. vm_compute. reflexivity.
Defined.

(** ** A fault while persisting error rows *)

Lemma no_report_refl (w : World) : no_report w w.
Proof. split; auto. Qed.










(** ** Two runs of the example tenant *)

(** Manifest and audit list the same files, in a different order: every
    metric passes, and the only thing persisted besides the summary is the
    report, with one row per step. *)
Example run_all_pass :
  let out := run Example.ext_ok Example.self (Example.world Example.audit_table) in
  fst out = Ok tt
  /\ map fst (storage (snd out)) = ["s3://qc/output"; "s3://qc/ami_summary"]
  /\ forallb (fun c => match c with SaveErrorRows _ _ _ => false | _ => true end)
       (calls (snd out)) = true
  /\ option_map (fun v => map (fun r => r "id") (rows (view_data v)))
       (assoc "output" (views (snd out)))
     = Some [VStr "1"; VStr "2"; VStr "3"; VStr "4"].
Proof. vm_compute. repeat split. Qed.

(** The audit read 9 lines of [f1] where the manifest says 10: decrypt
    metric 2 fails, and exactly the row of [f1] is persisted, with the
    registered message. *)
Example run_line_count_mismatch :
  let out := run Example.ext_ok Example.self (Example.world Example.audit_table_short) in
  fst out = Ok tt
  /\ option_map
       (fun st => map (fun r => (r "manifest_filename", r "manifest_linecount",
                                 r "audit_linecount", r "error_message"))
                    (rows (stored_data st)))
       (assoc "s3://qc/errors/decrypt/metric_number=2/errors.parquet" (storage (snd out)))
     = Some [ (VStr "f1", VInt 10, VInt 9,
               VStr "audit line count does not match manifest") ].
Proof. vm_compute. repeat split. Qed.

(** * Further properties of the engine *)

(** ** File keys *)

Lemma mem_char_app (c : ascii) (a b : string) :
  mem_char c (a ++ b) = orb (mem_char c a) (mem_char c b).
Proof.
  induction a as [|d a IH]; simpl; [reflexivity|].
  now rewrite IH, orb_assoc.
Qed.

Lemma after_last_app (c : ascii) (a b : string) :
  mem_char c b = false -> after_last c (a ++ String c b) = b.
Proof.
  intros Hb. induction a as [|d a IH]; simpl.
  - now rewrite Hb, Ascii.eqb_refl.
  - rewrite mem_char_app. simpl. rewrite Ascii.eqb_refl, orb_true_r. exact IH.
Qed.

Lemma before_first_app (c : ascii) (a b : string) :
  mem_char c a = false -> before_first c (a ++ String c b) = a.
Proof.
  induction a as [|d a IH]; simpl; intros H.
  - now rewrite Ascii.eqb_refl.
  - apply orb_false_iff in H. destruct H as [Hd Ha]. now rewrite Hd, IH.
Qed.

Lemma clean_nonempty (s : string) :
  s <> EmptyString ->
  clean (Some s)
  = if Py.starts_with "." (after_last "/" s) then after_last "/" s
    else before_first "." (after_last "/" s).
Proof.
  intros H. rewrite clean_unfold. destruct s; [congruence|reflexivity].
Qed.

Lemma app_nonempty_r (a b : string) : b <> EmptyString -> a ++ b <> EmptyString.
Proof. destruct a, b; simpl; congruence. Qed.

(** Directory and extension do not matter to the file key: a manifest entry
    and an audit entry of one file get the same key whatever path and
    extensions each carries. *)
Theorem clean_file_name_key (dir name ext : string) :
  name <> EmptyString ->
  mem_char "/" name = false ->
  mem_char "." name = false ->
  mem_char "/" ext = false ->
  clean (Some (dir ++ "/" ++ name ++ "." ++ ext)) = name
  /\ clean (Some (dir ++ "/" ++ name)) = name
  /\ clean (Some (name ++ "." ++ ext)) = name
  /\ clean (Some name) = name.
Proof.
  intros Hne Hslash Hdot Hext.
  assert (Hst : Py.starts_with "." name = false).
  { destruct name as [|a n]; [congruence|]. simpl in Hdot |- *.
    apply orb_false_iff in Hdot. tauto. }
  assert (Hseg : mem_char "/" (name ++ String "." ext) = false).
  { rewrite mem_char_app. simpl. now rewrite Hslash, Hext. }
  assert (Hst' : Py.starts_with "." (name ++ String "." ext) = false).
  { destruct name as [|a n]; [congruence|]. exact Hst. }
  assert (Hfixed : clean (Some name) = name).
  { apply clean_fixed; auto. }
  assert (Hext' : clean (Some (name ++ String "." ext)) = name).
  { rewrite clean_nonempty by (apply app_nonempty_r; discriminate).
    rewrite (after_last_without _ _ Hseg), Hst'. now apply before_first_app. }
  repeat split; auto.
  - change (dir ++ "/" ++ name ++ "." ++ ext)
      with (dir ++ String "/" (name ++ String "." ext)).
    rewrite clean_nonempty by (apply app_nonempty_r; discriminate).
    rewrite (after_last_app _ _ _ Hseg), Hst'. now apply before_first_app.
  - change (dir ++ "/" ++ name) with (dir ++ String "/" name).
    rewrite clean_nonempty by (apply app_nonempty_r; discriminate).
    rewrite (after_last_app _ _ _ Hslash), Hst. now apply before_first_without.
Qed.

Lemma clean_file_name_key_witness :
  clean (Some ("s3://bucket/in" ++ "/" ++ "ami_20200301" ++ "." ++ "csv.gz")) = "ami_20200301"
  /\ clean (Some ("ami_20200301" ++ "." ++ "csv")) = "ami_20200301".
Proof.
  destruct (clean_file_name_key "s3://bucket/in" "ami_20200301" "csv.gz"
              ltac:(discriminate) eq_refl eq_refl eq_refl) as (H1 & _ & _ & _).
  destruct (clean_file_name_key "" "ami_20200301" "csv"
              ltac:(discriminate) eq_refl eq_refl eq_refl) as (_ & _ & H3 & _).
  split; [exact H1|exact H3].
Defined.

(** A cleaned name of a non-empty input holds no [/]; and no [.] either,
    unless it begins with one. *)
Theorem clean_file_name_no_separator (s : string) :
  s <> EmptyString ->
  mem_char "/" (clean (Some s)) = false
  /\ (Py.starts_with "." (clean (Some s)) = false -> mem_char "." (clean (Some s)) = false).
Proof.
  intros Hne. rewrite (clean_nonempty s Hne).
  set (seg := after_last "/" s).
  pose proof (after_last_clean "/" s) as Hseg. fold seg in Hseg.
  destruct (Py.starts_with "." seg) eqn:Hst.
  - split; [exact Hseg|]. congruence.
  - split; [now apply before_first_mem|]. intros _. apply before_first_clean.
Qed.

Lemma clean_file_name_no_separator_witness :
  mem_char "/" (clean (Some "a/b.c/d.e.f")) = false.
Proof.
  exact (proj1 (clean_file_name_no_separator "a/b.c/d.e.f" ltac:(discriminate))).
Defined.

(** ** Where error rows go *)

Lemma append_cancel_l (p a b : string) : p ++ a = p ++ b -> a = b.
Proof.
  induction p as [|c p IH]; simpl; intros H; [exact H|].
  injection H as H. now apply IH.
Qed.

Lemma string_length_app (a b : string) :
  String.length (a ++ b) = (String.length a + String.length b)%nat.
Proof. induction a as [|c a IH]; simpl; [reflexivity|]. now rewrite IH. Qed.

Lemma string_app_assoc (a b c : string) : (a ++ b) ++ c = a ++ (b ++ c).
Proof. induction a as [|d a IH]; simpl; [reflexivity|]. now rewrite IH. Qed.

Lemma append_cancel_r (t a b : string) : a ++ t = b ++ t -> a = b.
Proof.
  revert b. induction a as [|c a IH]; intros [|d b] H; simpl in H.
  - reflexivity.
  - apply (f_equal String.length) in H. simpl in H. rewrite string_length_app in H. lia.
  - apply (f_equal String.length) in H. simpl in H. rewrite string_length_app in H. lia.
  - injection H as -> H. f_equal. now apply IH.
Qed.

(** ['{}'.format(n)] tells integers apart. *)
Lemma str_of_int_inj (n n' : Z) : Py.str_of_int n = Py.str_of_int n' -> n = n'.
Proof.
  unfold Py.str_of_int. intros H.
  assert (Hd : forall z, Z.to_int z <> Decimal.Pos Decimal.Nil
                         /\ Z.to_int z <> Decimal.Neg Decimal.Nil).
  { intros [|p|p]; simpl; split; try discriminate;
      intros E; injection E as E; exact (Stdlib.Numbers.DecimalPos.Unsigned.to_uint_nonnil p E). }
  apply Stdlib.Numbers.DecimalZ.to_int_inj.
  assert (E : Some (Z.to_int n) = Some (Z.to_int n')).
  { rewrite <- (NilZero.isi (Z.to_int n)) by apply Hd.
    rewrite <- (NilZero.isi (Z.to_int n')) by apply Hd.
    now rewrite H. }
  now injection E.
Qed.

Lemma str_of_int_chars (n : Z) :
  Py.str_of_int n <> EmptyString
  /\ all_chars (fun c => negb (Ascii.eqb c "/")) (Py.str_of_int n) = true.
Proof.
  assert (Hu : forall d, all_chars (fun c => negb (Ascii.eqb c "/"))
                           (NilEmpty.string_of_uint d) = true).
  { induction d; simpl; auto. }
  assert (Hz : forall d, all_chars (fun c => negb (Ascii.eqb c "/"))
                           (NilZero.string_of_uint d) = true).
  { intros d. destruct d; try apply Hu. reflexivity. }
  assert (Hn : forall d, NilZero.string_of_uint d <> EmptyString).
  { intros d. destruct d; discriminate. }
  unfold Py.str_of_int. destruct (Z.to_int n) as [d|d]; simpl.
  - split; [apply Hn|apply Hz].
  - split; [discriminate|apply Hz].
Qed.

Lemma ends_with_app (c : ascii) (a b : string) :
  b <> EmptyString -> Py.ends_with c (a ++ b) = Py.ends_with c b.
Proof.
  intros Hb. induction a as [|d a IH]; [reflexivity|].
  simpl. destruct (a ++ b) eqn:E.
  - destruct a, b; simpl in E; congruence.
  - exact IH.
Qed.

Lemma ends_with_all_chars (c : ascii) (s : string) :
  all_chars (fun d => negb (Ascii.eqb d c)) s = true -> Py.ends_with c s = false.
Proof.
  induction s as [|d s IH]; [reflexivity|].
  simpl. intros H. apply andb_true_iff in H. destruct H as [Hd Hs].
  destruct s; [now apply negb_true_iff in Hd|]. now apply IH.
Qed.

(** [os.path.join(a, b)] when [b] is a relative, non-empty component and
    [a] does not end in a separator. *)
Lemma path_join2_plain (a b : string) :
  a <> EmptyString -> Py.ends_with "/" a = false -> Py.starts_with "/" b = false ->
  Py.path_join2 a b = a ++ "/" ++ b.
Proof.
  intros Ha He Hb. unfold Py.path_join2. rewrite Hb, He.
  destruct a; [congruence|reflexivity].
Qed.

Lemma error_path_text (self : Self) (step_number metric_number : Z) (stage : string) :
  error_stage step_number = Some stage ->
  error_path self step_number metric_number
  = Some (base_prefix (s3_path_save_errors_base self) ++ stage
          ++ "/metric_number=" ++ Py.str_of_int metric_number ++ "/errors.parquet")
  /\ In stage ["decrypt"; "channel_ingest"; "extract_common_ami"; "load_common_ami";
               "raw_to_mdis_hour"; "raw_to_mdis_day"].
Proof.
  intros Hstage. unfold error_path. rewrite Hstage. cbn [option_map].
  set (base := s3_path_save_errors_base self).
  set (num := Py.str_of_int metric_number).
  destruct (str_of_int_chars metric_number) as [Hnum Hchars]. fold num in Hnum, Hchars.
  assert (Hin : In stage ["decrypt"; "channel_ingest"; "extract_common_ami";
                          "load_common_ami"; "raw_to_mdis_hour"; "raw_to_mdis_day"]).
  { unfold error_stage in Hstage.
    repeat match type of Hstage with
           | (if ?b then _ else _) = _ => destruct b
           end; try discriminate; injection Hstage as <-; simpl; tauto. }
  split; [|exact Hin]. f_equal.
  unfold Py.path_join. cbn [fold_left].
  assert (H1 : Py.path_join2 base stage = base_prefix base ++ stage).
  { unfold Py.path_join2, base_prefix.
    replace (Py.starts_with "/" stage) with false.
    - destruct (orb (String.eqb base EmptyString) (Py.ends_with "/" base));
        [reflexivity|]. now rewrite string_app_assoc.
    - simpl in Hin. repeat destruct Hin as [<-|Hin]; try reflexivity. destruct Hin. }
  rewrite H1.
  assert (Hstage_ne : stage <> EmptyString /\ Py.ends_with "/" stage = false).
  { simpl in Hin. repeat destruct Hin as [<-|Hin]; try (split; [discriminate|reflexivity]).
    destruct Hin. }
  assert (H2 : Py.path_join2 (base_prefix base ++ stage) ("metric_number=" ++ num)
               = (base_prefix base ++ stage) ++ "/metric_number=" ++ num).
  { apply path_join2_plain.
    - apply app_nonempty_r. tauto.
    - rewrite ends_with_app; tauto.
    - reflexivity. }
  rewrite H2.
  rewrite path_join2_plain.
  - rewrite !string_app_assoc. reflexivity.
  - apply app_nonempty_r. simpl. discriminate.
  - rewrite ends_with_app by (simpl; discriminate).
    change ("/metric_number=" ++ num) with ("/metric_number=" ++ num).
    rewrite (ends_with_app "/" "/metric_number=" num Hnum).
    now apply ends_with_all_chars.
  - reflexivity.
Qed.

(** One location per stage and metric: two calls of [save_error_rows]
    write to the same path only for the same step and the same metric, so
    the error rows of one failed metric never overwrite another's.  Step
    numbers outside 1..6 have no location. *)
Theorem error_path_one_per_metric (self : Self) (s1 m1 s2 m2 : Z) (path : string) :
  error_path self s1 m1 = Some path ->
  error_path self s2 m2 = Some path ->
  s1 = s2 /\ m1 = m2 /\ 1 <= s1 <= 6.
Proof.
  intros H1 H2.
  destruct (error_stage s1) as [st1|] eqn:E1;
    [|unfold error_path in H1; rewrite E1 in H1; discriminate].
  destruct (error_stage s2) as [st2|] eqn:E2;
    [|unfold error_path in H2; rewrite E2 in H2; discriminate].
  destruct (error_path_text self s1 m1 st1 E1) as [T1 I1].
  destruct (error_path_text self s2 m2 st2 E2) as [T2 I2].
  rewrite T1 in H1. rewrite T2 in H2. rewrite <- H2 in H1. injection H1 as H.
  apply append_cancel_l in H.
  assert (Hst : st1 = st2 /\ Py.str_of_int m1 = Py.str_of_int m2).
  { simpl in I1, I2.
    repeat destruct I1 as [<-|I1]; try destruct I1;
      repeat destruct I2 as [<-|I2]; try destruct I2;
      simpl in H; try discriminate H;
      (split; [reflexivity|]);
      repeat (injection H as H);
      now apply (append_cancel_r "/errors.parquet"). }
  destruct Hst as [Est Em]. subst st2.
  assert (Hs : forall s st, error_stage s = Some st -> 1 <= s <= 6).
  { intros s st. unfold error_stage.
    destruct (Z.eqb_spec s 1); [lia|]. destruct (Z.eqb_spec s 2); [lia|].
    destruct (Z.eqb_spec s 3); [lia|]. destruct (Z.eqb_spec s 4); [lia|].
    destruct (Z.eqb_spec s 5); [lia|]. destruct (Z.eqb_spec s 6); [lia|].
    discriminate. }
  split; [|split; [now apply str_of_int_inj|now apply (Hs s1 st1)]].
  unfold error_stage in E1, E2.
  destruct (Z.eqb_spec s1 1), (Z.eqb_spec s2 1); subst; try reflexivity;
  repeat match goal with
         | H : (if ?a =? ?b then _ else _) = _ |- _ =>
             destruct (Z.eqb_spec a b); subst
         end; try reflexivity; try discriminate; congruence.
Qed.

Lemma error_path_one_per_metric_witness :
  error_path Example.self 2 3
  = Some "s3://qc/errors/channel_ingest/metric_number=3/errors.parquet"
  /\ (2 = 2 /\ 3 = 3 /\ 1 <= 2 <= 6).
Proof.
  split; [reflexivity|].
  exact (error_path_one_per_metric Example.self 2 3 2 3
           "s3://qc/errors/channel_ingest/metric_number=3/errors.parquet" eq_refl eq_refl).
Defined.

(** ** The evaluator on what it cannot evaluate *)

Lemma qc_individual_metric_null_scalar
    ext self step_number metric_number m (l r : scalar) df_error w :
  metric_meta step_number metric_number = Ok m ->
  l = None \/ r = None ->
  exists what,
    qc_individual_metric ext self step_number metric_number l r df_error w
    = (Raise (TypeError what), w).
Proof.
  intros Hm H. unfold qc_individual_metric, bind, lift. rewrite Hm.
  destruct (registered_metric _ _ _ Hm) as (s & Hs & _). rewrite Hs.
  assert (Hsub : exists what, py_sub l r = Raise (TypeError what)).
  { destruct H as [-> | ->]; [|destruct l]; simpl; eexists; reflexivity. }
  destruct Hsub as (what & ->). eexists. reflexivity.
Qed.

(** An unregistered step or metric is a [KeyError] and a [None] scalar a
    [TypeError], raised before anything is logged, filtered or handed to
    persistence: the world is as it was. *)
Theorem qc_individual_metric_rejected
    ext self step_number metric_number (l r : scalar) df_error w :
  (exists e, metric_meta step_number metric_number = Raise e) \/ l = None \/ r = None ->
  exists e,
    qc_individual_metric ext self step_number metric_number l r df_error w = (Raise e, w)
    /\ match e with
       | KeyError _ => metric_meta step_number metric_number = Raise e
       | TypeError _ => exists m, metric_meta step_number metric_number = Ok m
       | _ => False
       end.
Proof.
  intros H.
  destruct (metric_meta step_number metric_number) as [m|e] eqn:Hm.
  - destruct H as [(e & He)|H]; [discriminate|].
    destruct (qc_individual_metric_null_scalar ext self _ _ m l r df_error w Hm H)
      as (what & Hw).
    exists (TypeError what). split; [exact Hw|]. now exists m.
  - exists e. unfold qc_individual_metric, bind, lift. rewrite Hm. split; [reflexivity|].
    unfold metric_meta, getitem in Hm.
    destruct (zassoc step_number QC_META) as [s|]; simpl in Hm.
    + destruct (zassoc metric_number (step_metrics s)); [discriminate|].
      injection Hm as <-. reflexivity.
    + injection Hm as <-. reflexivity.
Qed.

Lemma qc_individual_metric_rejected_witness :
  exists e,
    qc_individual_metric Example.ext_ok Example.self 4 1 None (Some 28)
      Example.load_join_df (Example.world Example.audit_table)
    = (Raise e, Example.world Example.audit_table)
    /\ match e with
       | KeyError _ => metric_meta 4 1 = Raise e
       | TypeError _ => exists m, metric_meta 4 1 = Ok m
       | _ => False
       end.
Proof.
  exact (qc_individual_metric_rejected Example.ext_ok Example.self 4 1 None (Some 28)
           Example.load_join_df (Example.world Example.audit_table)
           (or_intror (or_introl eq_refl))).
Defined.

(** ** A step persists exactly its failed metrics *)

Lemma qc_individual_metric_ok_calls ext self step_number k l r df w out w1 :
  qc_individual_metric ext self step_number k l r df w = (Ok out, w1) ->
  exists new,
    calls w1 = List.app new (calls w)
    /\ map call_metric new = if py_eq l r then [] else [Some (step_number, k)].
Proof.
  unfold qc_individual_metric, bind, lift, ret, log_info, log_msg.
  destruct (metric_meta step_number k) as [m|e]; [|discriminate].
  destruct (getitem step_number QC_META) as [s|e]; [|discriminate].
  destruct (py_sub l r) as [delta|e]; [|discriminate].
  destruct (py_eq l r).
  - cbn. intros E; injection E as _ <-; exists []; split; reflexivity.
  - destruct (update_error_dataframe step_number k df) as [df'|e]; [|discriminate].
    unfold save_error_rows, bind, record_call, write_save, ret, log_info, log_msg.
    cbn [set_log set_calls calls log COMPLETED_QC_STEP_LIST storage views].
    destruct (error_path self step_number k) as [path|].
    + destruct (write_fault ext path); [discriminate|].
      cbn. destruct (String.eqb (error_message m) EmptyString); cbn;
        intros E; injection E as _ <-;
        exists [SaveErrorRows df' step_number k]; split; reflexivity.
    + cbn. destruct (String.eqb (error_message m) EmptyString); cbn;
        intros E; injection E as _ <-;
        exists [SaveErrorRows df' step_number k]; split; reflexivity.
Qed.

Lemma run_metrics_ok_calls ext self step_number keys qc_values df acc w out w1 :
  run_metrics ext self step_number keys qc_values df acc w = (Ok out, w1) ->
  exists new,
    calls w1 = List.app new (calls w)
    /\ map call_metric new
       = rev (map (fun k => Some (step_number, k)) (List.filter (metric_fails qc_values) keys)).
Proof.
  revert acc w. induction keys as [|k keys IH]; intros acc w H.
  - simpl in H. unfold ret in H. injection H as _ <-. exists []. split; reflexivity.
  - cbn [run_metrics] in H.
    apply bind_ok_inv in H. destruct H as ([l r] & w0 & Hl & H).
    unfold lift in Hl. injection Hl as Hl <-.
    apply bind_ok_inv in H. destruct H as (o & w2 & Hk & H). cbn [fst snd] in Hk.
    assert (Hf : metric_fails qc_values k = negb (py_eq l r)).
    { unfold metric_fails. unfold getitem in Hl.
      destruct (zassoc k (qv_metrics qc_values)) as [p|]; [|discriminate].
      injection Hl as ->. reflexivity. }
    destruct (qc_individual_metric_ok_calls _ _ _ _ _ _ _ _ _ _ Hk) as (new0 & C0 & M0).
    destruct (IH _ _ H) as (new & C & M).
    exists (List.app new new0). split.
    + rewrite C, C0. now rewrite app_assoc.
    + rewrite map_app, M, M0. cbn [List.filter]. rewrite Hf.
      destruct (py_eq l r); cbn [negb map rev].
      * now rewrite app_nil_r.
      * reflexivity.
Qed.

Lemma qc_individual_step_ok_calls
    ext self step_number (s : StepMeta) qc_values df_error w d w' :
  getitem step_number QC_META = Ok s ->
  qc_individual_step ext self step_number qc_values df_error w = (Ok d, w') ->
  exists new,
    calls w' = List.app new (calls w)
    /\ map call_metric new
       = rev (map (fun k => Some (step_number, k))
                (List.filter (metric_fails qc_values) (map fst (step_metrics s)))).
Proof.
  intros Hs H. unfold qc_individual_step, bind, lift, ret, log_info, log_msg in H.
  rewrite Hs in H.
  match type of H with
  | context [run_metrics ?a ?b ?c ?d ?e ?f ?g ?h] =>
      destruct (run_metrics a b c d e f g h) as [[out|e0] w1] eqn:Hrun; [|discriminate]
  end.
  injection H as _ <-.
  destruct (run_metrics_ok_calls _ _ _ _ _ _ _ _ _ _ Hrun) as (new & C & M).
  exists new. split; [exact C|exact M].
Qed.

(** A step that returns has called [save_error_rows] once for each metric
    whose scalars differ and for no other, in the order of the registry;
    its record is one row carrying the step's number as [id] and its
    registered name. *)
Theorem qc_individual_step_persists_failures
    ext self step_number (s : StepMeta) qc_values df_error w d w' :
  getitem step_number QC_META = Ok s ->
  qc_individual_step ext self step_number qc_values df_error w = (Ok d, w') ->
  (exists new,
     calls w' = List.app new (calls w)
     /\ map call_metric new
        = rev (map (fun k => Some (step_number, k))
                 (List.filter (metric_fails qc_values) (map fst (step_metrics s)))))
  /\ columns d = SCHEMA
  /\ map (fun row => (row "id", row "name", row "execution_date")) (rows d)
     = [ (VStr (Py.str_of_int step_number), VStr (step_name s),
          VStr (execution_date_y_m_d self)) ].
Proof.
  intros Hs H. unfold qc_individual_step, bind, lift, ret, log_info, log_msg in H.
  rewrite Hs in H.
  match type of H with
  | context [run_metrics ?a ?b ?c ?d ?e ?f ?g ?h] =>
      destruct (run_metrics a b c d e f g h) as [[out|e0] w1] eqn:Hrun; [|discriminate]
  end.
  injection H as <- <-.
  destruct (run_metrics_ok_calls _ _ _ _ _ _ _ _ _ _ Hrun) as (new & C & M).
  split; [|split; reflexivity].
  exists new. split; [exact C|exact M].
Qed.

Lemma qc_individual_step_persists_failures_witness :
  let df_error := ExampleMetric.df_error in
  let qc_values := mkQcValues [ (1, (Some 2, Some 2)); (2, (Some 30, Some 29));
                                (3, (Some 5, Some 7)) ] (JObj []) (JObj []) in
  let out := qc_individual_step Example.ext_ok Example.self 1 qc_values df_error
               ExampleMetric.w in
  map call_metric (calls (snd out)) = [Some (1, 3); Some (1, 2)].
Proof.
  intros df_error qc_values out.
  destruct out as [[d|e] w'] eqn:E; [|vm_compute in E; discriminate].
  destruct (qc_individual_step_persists_failures Example.ext_ok Example.self 1
              (mkStep "Decrypt"
                 [ (1, mkMetric "file count" "manifest file count" "audit file count"
                         "audit file count does not match manifest" "file_mismatch = 1");
                   (2, mkMetric "line count" "manifest line count" "audit line count"
                         "audit line count does not match manifest"
                         "linecount_mismatch = 1");
                   (3, mkMetric "checksums" "manifest checksums" "audit checksums"
                         "checksum of audit checksum list does not match manifest"
                         "checksum_mismatch = 1") ])
              qc_values df_error ExampleMetric.w d w' eq_refl E)
    as ((new & C & M) & _).
  cbn [snd]. rewrite C, map_app, M. reflexivity.
Defined.

(** ** The union of the step outputs *)

Section InsertionSort.

Variable A : Type.
Variable leb : A -> A -> bool.
Hypothesis leb_total : forall x y, leb x y = true \/ leb y x = true.

Lemma insert_by_hd (x y : A) (l : list A) :
  leb y x = true ->
  HdRel (fun a b => leb a b = true) y l ->
  HdRel (fun a b => leb a b = true) y (insert_by leb x l).
Proof.
  intros Hyx Hl. destruct l as [|z l]; simpl.
  - now constructor.
  - destruct (leb x z); constructor; auto. now inversion Hl.
Qed.

Lemma insert_by_sorted (x : A) (l : list A) :
  Sorted (fun a b => leb a b = true) l ->
  Sorted (fun a b => leb a b = true) (insert_by leb x l).
Proof.
  induction 1 as [|y l Hs IH Hhd]; simpl.
  - repeat constructor.
  - destruct (leb x y) eqn:E.
    + constructor; [now constructor|]. now constructor.
    + constructor; [exact IH|]. apply insert_by_hd; [|exact Hhd].
      destruct (leb_total x y) as [H|H]; [congruence|exact H].
Qed.

Lemma sort_by_sorted (l : list A) : Sorted (fun a b => leb a b = true) (sort_by leb l).
Proof.
  induction l as [|x l IH]; simpl; [constructor|]. now apply insert_by_sorted.
Qed.

End InsertionSort.

Lemma value_leb_total (a b : value) : value_leb a b = true \/ value_leb b a = true.
Proof.
  destruct a as [|x|x], b as [|y|y]; simpl; auto.
  - destruct (Z.leb_spec x y); [now left|right]. apply Z.leb_le. lia.
  - apply String.leb_total.
Qed.

(** The report of any list of step outputs, the empty list included, has
    the schema of a step output, holds the rows of all of them and no
    other, ascending by [id]; building it touches nothing but the log. *)
Theorem union_qc_output_report self (step_list : list DataFrame) (w : World) :
  Forall (fun d => columns d = SCHEMA) step_list ->
  exists report msg,
    union_qc_output self step_list w = (Ok report, set_log ((INFO, msg) :: log w) w)
    /\ columns report = SCHEMA
    /\ Permutation (rows report) (all_rows step_list)
    /\ ascending_by_id (rows report)
    /\ count report = sumZ count step_list.
Proof.
  intros Hall. destruct step_list as [|first rest].
  - do 2 eexists. split; [reflexivity|]. repeat split; constructor.
  - destruct (union_qc_output_schema self (first :: rest) w ltac:(discriminate) Hall)
      as (msg & Hu).
    do 2 eexists. split; [exact Hu|]. cbn [columns rows]. repeat split.
    + symmetry. apply sort_by_perm.
    + apply sort_by_sorted. intros x y. apply value_leb_total.
    + unfold count at 1. cbn [rows].
      rewrite <- (Permutation_length (sort_by_perm by_id _)). apply count_all_rows.
Qed.

Lemma union_qc_output_report_witness :
  exists report msg,
    union_qc_output Example.self [] (Example.world Example.audit_table)
    = (Ok report, set_log ((INFO, msg) :: []) (Example.world Example.audit_table))
    /\ columns report = SCHEMA
    /\ count report = 0.
Proof.
  destruct (union_qc_output_report Example.self [] (Example.world Example.audit_table)
              (Forall_nil _)) as (report & msg & H & Hc & _ & _ & Hn).
  exists report, msg. repeat split; assumption.
Defined.

(** ** File counts: the delta against the rows *)

Lemma filter_length_perm {A} (f : A -> bool) (l l' : list A) :
  Permutation l l' -> List.length (List.filter f l) = List.length (List.filter f l').
Proof.
  induction 1 as [|x l l' _ IH|x y l|l l' l'' _ IH1 _ IH2]; simpl.
  - reflexivity.
  - destruct (f x); simpl; now rewrite IH.
  - destruct (f x), (f y); reflexivity.
  - now rewrite IH1.
Qed.

Lemma filter_map_length {A B} (f : B -> bool) (g : A -> B) (l : list A) :
  List.length (List.filter f (map g l)) = List.length (List.filter (fun x => f (g x)) l).
Proof.
  induction l as [|x l IH]; simpl; [reflexivity|].
  destruct (f (g x)); simpl; now rewrite IH.
Qed.

Lemma sumZ_const_one {A} (l : list A) : sumZ (fun _ => 1) l = Z.of_nat (List.length l).
Proof.
  induction l as [|x l IH]; [reflexivity|].
  change (1 + sumZ (fun _ => 1) l = Z.of_nat (S (List.length l))). rewrite IH. lia.
Qed.

(** The rows of a left outer join that found no match, counted. *)
Lemma left_outer_unmatched {A B} (cond : A -> B -> bool) (left : list A) (right : list B) :
  Z.of_nat (List.length (List.filter (fun p => is_null (snd p)) (left_outer cond left right)))
  = sumZ (fun a => match List.filter (cond a) right with [] => 1 | _ => 0 end) left.
Proof.
  unfold left_outer. induction left as [|a left IH]; [reflexivity|].
  cbn [flat_map]. rewrite filter_app, length_app, Nat2Z.inj_add, IH.
  change (sumZ ?f (a :: left)) with (f a + sumZ f left). cbv beta.
  f_equal.
  destruct (List.filter (cond a) right) as [|b bs]; [reflexivity|].
  rewrite filter_map_length. cbn [snd is_null].
  induction (b :: bs) as [|x xs IHx]; [reflexivity|exact IHx].
Qed.

Lemma manifest_join_file_flag (df_m : list ManifestRow) (df_a : list AuditRow)
    (p : ManifestRow * option AuditRow) :
  In p (left_outer file_key_match df_m df_a) ->
  holds file_filter (row_of (manifest_join_cells (manifest_join_row p))) = is_null (snd p).
Proof.
  destruct p as [m oa]. intros Hin.
  destruct (join_decrypt_manifest_flags df_m df_a m oa Hin) as (H1 & H0 & _).
  cbv zeta in H1, H0.
  change (holds file_filter (row_of (manifest_join_cells (manifest_join_row (m, oa)))))
    with (match Some (mj_file_mismatch (manifest_join_row (m, oa)) =? 1) with
          | Some true => true
          | _ => false
          end).
  destruct oa as [a|]; cbn [snd is_null].
  - assert (E : mj_file_mismatch (manifest_join_row (m, Some a)) = 0)
      by (apply H0; discriminate).
    now rewrite E.
  - assert (E : mj_file_mismatch (manifest_join_row (m, None)) = 1) by now apply H1.
    now rewrite E.
Qed.

Lemma decrypt_metric_1_rows (df_m : list ManifestRow) (df_a : list AuditRow) :
  update_error_dataframe 1 1 (manifest_join_df (join_decrypt_manifest df_m df_a))
  = Ok (error_rows file_filter "audit file count does not match manifest"
          (manifest_join_df (join_decrypt_manifest df_m df_a))).
Proof. reflexivity. Qed.

(** When file names pair manifest and audit rows one to one, the rows that
    the filter of decrypt metric 1 selects are as many as the delta of the
    metric: manifest file count minus audit file count.  So the metric
    fails exactly when a row is selected. *)
Theorem decrypt_file_count_delta (df_m : list ManifestRow) (df_a : list AuditRow) :
  one_to_one_files df_m df_a = true ->
  exists d,
    update_error_dataframe 1 1 (manifest_join_df (join_decrypt_manifest df_m df_a)) = Ok d
    /\ count d = Z.of_nat (List.length df_m) - Z.of_nat (List.length df_a)
    /\ (len_scalar df_m <> len_scalar df_a <-> rows d <> []).
Proof.
  intros H11.
  apply andb_true_iff in H11. destruct H11 as [Hcover Hunique].
  rewrite forallb_forall in Hcover, Hunique.
  rewrite decrypt_metric_1_rows. eexists. split; [reflexivity|].
  match goal with |- count ?d = _ /\ _ => set (handed := d) end.
  assert (Hcount : count handed = Z.of_nat (List.length df_m) - Z.of_nat (List.length df_a)).
  { unfold handed. rewrite error_rows_count.
    unfold manifest_join_df, join_decrypt_manifest. cbn [rows].
    rewrite filter_map_length.
    rewrite <- (filter_length_perm _ _ _ (sort_by_perm _ _)).
    rewrite filter_map_length.
    rewrite (filter_ext_in _ (fun p => is_null (snd p))).
    2:{ intros p Hp. now apply (manifest_join_file_flag df_m df_a). }
    change (fun m a => key_match (manifest_filename m) (audit_filename a))
      with file_key_match.
    rewrite left_outer_unmatched.
    rewrite <- (sumZ_const_one df_m), <- (sumZ_const_one df_a).
    rewrite <- (sumZ_matches file_key_match (fun _ => 1) df_m df_a).
    2:{ intros a Ha. apply Nat.eqb_eq. now apply Hcover. }
    assert (Hsub : forall (f g : ManifestRow -> Z) l,
               sumZ f l - sumZ g l = sumZ (fun x => f x - g x) l).
    { intros f g l. induction l as [|x l IHl]; [reflexivity|].
      change (f x + sumZ f l - (g x + sumZ g l) = f x - g x + sumZ (fun x => f x - g x) l).
      rewrite <- IHl. lia. }
    rewrite Hsub. apply sumZ_ext. intros m Hm.
    specialize (Hunique m Hm). apply Nat.leb_le in Hunique.
    destruct (List.filter (file_key_match m) df_a) as [|a [|a' rest]].
    - reflexivity.
    - reflexivity.
    - simpl in Hunique. lia. }
  split; [exact Hcount|].
  unfold len_scalar. split.
  - intros Hne E. apply Hne. f_equal.
    unfold count in Hcount. rewrite E in Hcount. simpl in Hcount. lia.
  - intros Hrows E. injection E as E. apply Hrows.
    unfold count in Hcount. rewrite E in Hcount.
    destruct (rows handed); [reflexivity|simpl in Hcount; lia].
Qed.

Lemma decrypt_file_count_delta_witness :
  let df_m := [ mkManifest (Some "f1") (Some "aa") (Some 10);
                mkManifest (Some "f2") (Some "bb") (Some 20);
                mkManifest (Some "f3") (Some "cc") (Some 30) ] in
  let df_a := [ mkAudit (Some "f2") (Some "bb") (Some 20) ] in
  exists d,
    update_error_dataframe 1 1 (manifest_join_df (join_decrypt_manifest df_m df_a)) = Ok d
    /\ count d = 2.
Proof.
  intros df_m df_a.
  destruct (decrypt_file_count_delta df_m df_a eq_refl) as (d & Hd & Hc & _).
  exists d. split; [exact Hd|exact Hc].
Defined.

(** ** The tables a run needs *)

Lemma keeps_view_ret {A} n (a : A) : keeps_view n (ret a).
Proof. intros w. reflexivity. Qed.

Lemma keeps_view_raise {A} n (e : exn) : keeps_view n (@raise A e).
Proof. intros w. reflexivity. Qed.

Lemma keeps_view_lift {A} n (r : result A) : keeps_view n (lift r).
Proof. intros w. reflexivity. Qed.

Lemma keeps_view_log n (l : level) (msg : string) : keeps_view n (log_msg l msg).
Proof. intros w. reflexivity. Qed.

Lemma keeps_view_table n (name : string) : keeps_view n (spark_table name).
Proof. intros w. unfold spark_table. now destruct (assoc name (views w)). Qed.

Lemma keeps_view_read_parquet n (path : option string) : keeps_view n (read_parquet path).
Proof.
  intros w. unfold read_parquet. destruct path as [p|]; [|reflexivity].
  now destruct (assoc p (storage w)).
Qed.

Lemma keeps_view_read_completed n : keeps_view n read_completed.
Proof. intros w. reflexivity. Qed.

Lemma keeps_view_append n (d : DataFrame) : keeps_view n (append_completed d).
Proof. intros w. reflexivity. Qed.

Lemma keeps_view_record n (c : call) : keeps_view n (record_call c).
Proof. intros w. reflexivity. Qed.

Lemma keeps_view_write ext n (path format : string) (df : DataFrame) :
  keeps_view n (write_save ext path format df).
Proof. intros w. unfold write_save. now destruct (write_fault ext path). Qed.

Lemma keeps_view_register n (name : string) (v : View) :
  String.eqb name n = false -> keeps_view n (createOrReplaceTempView name v).
Proof. intros H w. unfold createOrReplaceTempView. simpl. now rewrite H. Qed.

Lemma keeps_view_bind {A B} n (m : M A) (k : A -> M B) :
  keeps_view n m -> (forall a, keeps_view n (k a)) -> keeps_view n (bind m k).
Proof.
  intros Hm Hk w. unfold bind. specialize (Hm w).
  destruct (m w) as [[a|e] w1]; [|exact Hm].
  rewrite <- Hm. apply Hk.
Qed.

Lemma keeps_view_try {A} n (m : M A) (h : exn -> M A) :
  keeps_view n m -> (forall e, keeps_view n (h e)) -> keeps_view n (try_except m h).
Proof.
  intros Hm Hh w. unfold try_except. specialize (Hm w).
  destruct (m w) as [[a|e] w1]; [exact Hm|].
  rewrite <- Hm. apply Hh.
Qed.

Ltac keeps_step :=
  lazymatch goal with
  | |- keeps_view _ (bind _ _) => apply keeps_view_bind; [|intros ?]
  | |- keeps_view _ (ret _) => apply keeps_view_ret
  | |- keeps_view _ (raise _) => apply keeps_view_raise
  | |- keeps_view _ (lift _) => apply keeps_view_lift
  | |- keeps_view _ (log_info _) => apply keeps_view_log
  | |- keeps_view _ (log_error _) => apply keeps_view_log
  | |- keeps_view _ (log_msg _ _) => apply keeps_view_log
  | |- keeps_view _ (spark_table _) => apply keeps_view_table
  | |- keeps_view _ (read_parquet _) => apply keeps_view_read_parquet
  | |- keeps_view _ read_completed => apply keeps_view_read_completed
  | |- keeps_view _ (append_completed _) => apply keeps_view_append
  | |- keeps_view _ (record_call _) => apply keeps_view_record
  | |- keeps_view _ (write_save _ _ _ _) => apply keeps_view_write
  | |- keeps_view _ (try_except _ _) => apply keeps_view_try; [|intros ?]
  | |- keeps_view _ (createOrReplaceTempView _ _) => apply keeps_view_register; reflexivity
  | |- keeps_view _ (if ?b then _ else _) => destruct b
  | |- keeps_view _ (match ?o with _ => _ end) => destruct o
  | |- keeps_view _ (let _ := _ in _) => cbv zeta
  end.

Lemma keeps_view_run_metrics ext self n step_number keys qc_values df acc :
  keeps_view n (run_metrics ext self step_number keys qc_values df acc).
Proof.
  revert acc. induction keys as [|k keys IH]; intros acc; simpl.
  - apply keeps_view_ret.
  - repeat keeps_step.
    + unfold qc_individual_metric, save_error_rows. repeat keeps_step.
    + apply IH.
Qed.

Lemma keeps_view_qc_individual_step ext self n step_number qc_values df :
  keeps_view n (qc_individual_step ext self step_number qc_values df).
Proof.
  unfold qc_individual_step. repeat keeps_step.
  all: try apply keeps_view_run_metrics.
  all: repeat keeps_step.
Qed.

Lemma keeps_view_get_file_path ext n name :
  keeps_view n (get_file_path_from_temp_view ext name).
Proof. unfold get_file_path_from_temp_view. repeat keeps_step. Qed.

Ltac keeps_auto :=
  repeat first [ keeps_step
               | apply keeps_view_qc_individual_step
               | apply keeps_view_get_file_path ].

Lemma keeps_view_decrypt ext self n : keeps_view n (decrypt ext self).
Proof. unfold decrypt. keeps_auto. Qed.

Lemma keeps_view_channel_ingest ext self n : keeps_view n (channel_ingest ext self).
Proof. unfold channel_ingest. keeps_auto. Qed.

Lemma keeps_view_extract_common_ami ext self n : keeps_view n (extract_common_ami ext self).
Proof. unfold extract_common_ami. keeps_auto. Qed.

Lemma keeps_view_load_common_ami ext self n : keeps_view n (load_common_ami ext self).
Proof. unfold load_common_ami. keeps_auto. Qed.

Lemma reads_table {n : string} : reads n (spark_table n).
Proof.
  intros w a w'. unfold spark_table. destruct (assoc n (views w)); [discriminate|].
  discriminate.
Qed.

Lemma reads_get_file_path ext (n : string) : reads n (get_file_path_from_temp_view ext n).
Proof.
  intros w a w' H. unfold get_file_path_from_temp_view in H.
  apply bind_ok_inv in H. destruct H as (t & w1 & Ht & _). exact (reads_table _ _ _ Ht).
Qed.

Lemma reads_bind_l {A B} n (m : M A) (k : A -> M B) : reads n m -> reads n (bind m k).
Proof.
  intros Hm w b w' H. apply bind_ok_inv in H. destruct H as (a & w1 & Ha & _).
  exact (Hm _ _ _ Ha).
Qed.

Lemma reads_bind_r {A B} n (m : M A) (k : A -> M B) :
  keeps_view n m -> (forall a, reads n (k a)) -> reads n (bind m k).
Proof.
  intros Hm Hk w b w' H. apply bind_ok_inv in H. destruct H as (a & w1 & Ha & Hb).
  specialize (Hm w). rewrite Ha in Hm. cbn [snd] in Hm. rewrite <- Hm.
  exact (Hk _ _ _ _ Hb).
Qed.

Ltac reads_step :=
  lazymatch goal with
  | |- reads ?n (bind (spark_table ?n) _) => apply reads_bind_l; apply reads_table
  | |- reads ?n (bind (get_file_path_from_temp_view _ ?n) _) =>
      apply reads_bind_l; apply reads_get_file_path
  | |- reads _ (bind _ _) => apply reads_bind_r; [solve [keeps_auto]|intros ?]
  | |- reads _ (let _ := _ in _) => cbv zeta
  end.

Lemma keeps_view_save_output ext self n df output_type :
  keeps_view n (save_output ext self df output_type).
Proof. unfold save_output. repeat keeps_step. Qed.

Ltac keeps_all :=
  repeat first [ keeps_step
               | apply keeps_view_qc_individual_step
               | apply keeps_view_get_file_path
               | apply keeps_view_save_output ].

Ltac reads_tac :=
  cbv zeta;
  first [ apply reads_table
        | apply reads_get_file_path
        | apply reads_bind_l; solve [reads_tac]
        | apply reads_bind_r; [solve [keeps_all]|intros ?; reads_tac] ].

Ltac unfold_run :=
  unfold run, setup_common_ami_summary_raw_to_rollup, get_and_save_ami_summary,
    decrypt, channel_ingest, extract_common_ami, load_common_ami.

(** A run completes only if every source table is registered when it
    starts: a missing table is an exception, never an empty result.  The
    manifest is needed exactly when the tenant has one. *)
Theorem run_needs_source_tables ext self (w : World) :
  fst (run ext self w) = Ok tt ->
  Forall (fun name => assoc name (views w) <> None) (source_tables self).
Proof.
  intros H. destruct (run ext self w) as [r w'] eqn:E. cbn [fst] in H. subst r.
  assert (R : forall n, reads n (run ext self) -> assoc n (views w) <> None).
  { intros n Hn. exact (Hn _ _ _ E). }
  unfold source_tables. apply Forall_app. split.
  - repeat constructor; apply R; unfold_run; reads_tac.
  - destruct (has_manifest self) eqn:Hm; [|constructor].
    repeat constructor. apply R. unfold_run. rewrite Hm.
    destruct (has_manifest self); [|discriminate]. cbv beta iota zeta. reads_tac.
Qed.

Lemma run_needs_source_tables_witness :
  Forall (fun name => assoc name (views (Example.world Example.audit_table)) <> None)
    (source_tables Example.self).
Proof.
  apply (run_needs_source_tables Example.ext_ok Example.self).
  vm_compute. reflexivity.
Defined.

(** ** Null aggregates *)

Lemma nte_ret {A} (a : A) : no_type_error (ret a).
Proof. intros w what w'. discriminate. Qed.

Lemma nte_log (l : level) (msg : string) : no_type_error (log_msg l msg).
Proof. intros w what w'. discriminate. Qed.

Lemma nte_table (name : string) : no_type_error (spark_table name).
Proof.
  intros w what w'. unfold spark_table. destruct (assoc name (views w)); discriminate.
Qed.

Lemma nte_append (d : DataFrame) : no_type_error (append_completed d).
Proof. intros w what w'. discriminate. Qed.

Lemma nte_record (c : call) : no_type_error (record_call c).
Proof. intros w what w'. discriminate. Qed.

Lemma nte_write ext (path format : string) (df : DataFrame) :
  no_type_error (write_save ext path format df).
Proof.
  intros w what w'. unfold write_save. destruct (write_fault ext path); discriminate.
Qed.

Lemma nte_raise_index {A} : no_type_error (@raise A IndexError).
Proof. intros w what w'. discriminate. Qed.

Lemma nte_bind {A B} (m : M A) (k : A -> M B) :
  no_type_error m -> (forall a, no_type_error (k a)) -> no_type_error (bind m k).
Proof.
  intros Hm Hk w what w' H. unfold bind in H.
  destruct (m w) as [[a|e] w1] eqn:E.
  - exact (Hk a w1 what w' H).
  - injection H as -> ->. exact (Hm w what w' E).
Qed.

Lemma nte_lift {A} (r : result A) :
  (forall what, r <> Raise (TypeError what)) -> no_type_error (lift r).
Proof. intros H w what w' E. unfold lift in E. injection E as E _. exact (H what E). Qed.

Lemma getitem_no_type_error {A} (k : Z) (d : list (Z * A)) what :
  getitem k d <> Raise (TypeError what).
Proof. unfold getitem. destruct (zassoc k d); discriminate. Qed.

Lemma metric_meta_no_type_error step_number metric_number what :
  metric_meta step_number metric_number <> Raise (TypeError what).
Proof.
  unfold metric_meta. destruct (getitem step_number QC_META) eqn:E; simpl.
  - apply getitem_no_type_error.
  - intros H. injection H as ->. exact (getitem_no_type_error _ _ _ E).
Qed.

Lemma df_filter_no_type_error p d what : df_filter p d <> Raise (TypeError what).
Proof. unfold df_filter. destruct (resolves p d); discriminate. Qed.

Lemma update_error_dataframe_no_type_error step_number metric_number d what :
  update_error_dataframe step_number metric_number d <> Raise (TypeError what).
Proof.
  unfold update_error_dataframe.
  destruct (metric_meta step_number metric_number) eqn:E; simpl.
  - unfold filter_str. destruct (parse_filter _); [|discriminate].
    destruct (df_filter s d) eqn:F; simpl; [discriminate|].
    intros H. injection H as ->. exact (df_filter_no_type_error _ _ _ F).
  - intros H. injection H as ->. exact (metric_meta_no_type_error _ _ _ E).
Qed.

Lemma agg_sum_no_type_error c d what : agg_sum c d <> Raise (TypeError what).
Proof. unfold agg_sum. destruct (has_column c d); discriminate. Qed.

Lemma select_distinct_count_no_type_error cols d what :
  select_distinct_count cols d <> Raise (TypeError what).
Proof. unfold select_distinct_count. destruct (forallb _ cols); discriminate. Qed.

Ltac nte_step :=
  lazymatch goal with
  | |- no_type_error (bind _ _) => apply nte_bind; [|intros ?]
  | |- no_type_error (ret _) => apply nte_ret
  | |- no_type_error (raise IndexError) => apply nte_raise_index
  | |- no_type_error (log_info _) => apply nte_log
  | |- no_type_error (log_msg _ _) => apply nte_log
  | |- no_type_error (spark_table _) => apply nte_table
  | |- no_type_error (append_completed _) => apply nte_append
  | |- no_type_error (record_call _) => apply nte_record
  | |- no_type_error (write_save _ _ _ _) => apply nte_write
  | |- no_type_error (lift _) =>
      apply nte_lift; intros ?;
      first [ apply getitem_no_type_error | apply metric_meta_no_type_error
            | apply df_filter_no_type_error | apply update_error_dataframe_no_type_error
            | apply agg_sum_no_type_error | apply select_distinct_count_no_type_error
            | discriminate ]
  | |- no_type_error (if ?b then _ else _) => destruct b
  | |- no_type_error (match ?o with _ => _ end) => destruct o
  | |- no_type_error (let _ := _ in _) => cbv zeta
  end.

(** With integer scalars the evaluator raises no [TypeError]. *)
Lemma nte_qc_individual_metric ext self step_number metric_number l r df :
  no_type_error
    (qc_individual_metric ext self step_number metric_number (Some l) (Some r) df).
Proof.
  unfold qc_individual_metric, save_error_rows. cbn [py_sub]. repeat nte_step.
Qed.

Lemma nte_run_metrics ext self step_number keys qc_values df acc :
  integer_scalars qc_values ->
  no_type_error (run_metrics ext self step_number keys qc_values df acc).
Proof.
  intros Hq. revert acc. induction keys as [|k keys IH]; intros acc; simpl.
  - apply nte_ret.
  - intros w what w' H.
    apply bind_raise_inv in H. destruct H as [Hr|([l r] & w1 & Hl & H)].
    + unfold lift in Hr. injection Hr as Hr _. exact (getitem_no_type_error _ _ _ Hr).
    + unfold lift, getitem in Hl.
      destruct (zassoc k (qv_metrics qc_values)) as [p|] eqn:E; [|discriminate].
      injection Hl as -> <-.
      destruct (Hq k l r E) as [Hl Hr].
      destruct l as [l|]; [|congruence]. destruct r as [r|]; [|congruence].
      cbn [fst snd] in H.
      exact (nte_bind _ _ (nte_qc_individual_metric ext self step_number k l r df)
               (fun qc_data => IH _) w what w' H).
Qed.

Lemma nte_qc_individual_step ext self step_number qc_values df :
  integer_scalars qc_values ->
  no_type_error (qc_individual_step ext self step_number qc_values df).
Proof.
  intros Hq. unfold qc_individual_step. repeat nte_step.
  all: try (apply nte_run_metrics; exact Hq).
  all: repeat nte_step.
Qed.

Lemma nte_get_file_path ext name : no_type_error (get_file_path_from_temp_view ext name).
Proof. unfold get_file_path_from_temp_view. repeat nte_step. Qed.

Ltac nte_auto :=
  repeat first [ nte_step | apply nte_get_file_path ].

Ltac integer_scalars_tac :=
  let k := fresh "k" in
  let l := fresh "l" in
  let r := fresh "r" in
  let H := fresh "H" in
  intros k l r H; cbn [qv_metrics zassoc] in H;
  repeat match type of H with
         | (if ?b then _ else _) = _ => destruct b
         end;
  first [ discriminate H | injection H as <- <-; split; discriminate ].

(** [channel_ingest] and [extract_common_ami] never raise a [TypeError]:
    the scalars they hand to the evaluator are counts, and the sums of
    [extract_common_ami] pass through [x if x else 0]. *)
Theorem counted_steps_no_type_error ext self :
  no_type_error (channel_ingest ext self)
  /\ no_type_error (extract_common_ami ext self).
Proof.
  split.
  - unfold channel_ingest. nte_auto.
    apply nte_qc_individual_step. integer_scalars_tac.
  - unfold extract_common_ami. nte_auto.
    apply nte_qc_individual_step. integer_scalars_tac.
Qed.



(** ** Read categories *)

Ltac code_case :=
  repeat split; intros; try discriminate; try reflexivity; try congruence;
  try (left; reflexivity); try (right; reflexivity);
  try (exfalso; intuition (try discriminate; try congruence)).

(** The tenant's codes map to the four categories, and every other code,
    the null code included, to null. *)
Theorem consumption_code_categories (raw : option string) :
  (consumption_code raw = Some 1 <-> raw = Some "A" \/ raw = Some "ACT")
  /\ (consumption_code raw = Some 2 <-> raw = Some "E" \/ raw = Some "EST")
  /\ (consumption_code raw = Some 3 <-> raw = Some "PRO")
  /\ (consumption_code raw = Some 0 <-> raw = Some "MIS")
  /\ (consumption_code raw = None
      <-> ~ In raw [Some "A"; Some "ACT"; Some "E"; Some "EST"; Some "PRO"; Some "MIS"])
  /\ code_unknown (consumption_code raw) = is_null (consumption_code raw).
Proof.
  unfold consumption_code, isin_str, codes_actual, codes_estimated, codes_prorated,
    codes_missing.
  destruct raw as [s|]; cbn [option_map is_true existsb].
  2:{ repeat split; intros; try discriminate; try reflexivity;
        try (intros H'; simpl in H'; intuition discriminate);
        try (match goal with H' : _ \/ _ |- _ => destruct H' end; discriminate). }
  destruct (String.eqb_spec s "A") as [->|NA]; [vm_compute; code_case|].
  destruct (String.eqb_spec s "ACT") as [->|NACT]; [vm_compute; code_case|].
  destruct (String.eqb_spec s "E") as [->|NE]; [vm_compute; code_case|].
  destruct (String.eqb_spec s "EST") as [->|NEST]; [vm_compute; code_case|].
  destruct (String.eqb_spec s "PRO") as [->|NPRO]; [vm_compute; code_case|].
  destruct (String.eqb_spec s "MIS") as [->|NMIS]; [vm_compute; code_case|].
  cbn [orb is_true]. repeat split; intros; try discriminate; try reflexivity;
    try congruence;
    try (intros H'; simpl in H'; intuition congruence);
    try (match goal with H' : _ \/ _ |- _ => destruct H' end; congruence).
Qed.

Lemma or_zero_sum_opt (xs : list (option Z)) :
  or_zero (sum_opt xs) = sumZ or_zero xs.
Proof.
  unfold sum_opt. induction xs as [|x xs IH]; [reflexivity|].
  change (sumZ or_zero (x :: xs)) with (or_zero x + sumZ or_zero xs).
  rewrite <- IH. cbn [map sum_cells].
  destruct x as [z|]; cbn [of_opt_int or_zero];
    destruct (sum_cells (map of_opt_int xs)); cbn [or_zero]; lia.
Qed.

Lemma wrap32_small (z : Z) : - 2 ^ 31 <= z < 2 ^ 31 -> wrap32 z = z.
Proof. intros H. unfold wrap32. rewrite Z.mod_small; lia. Qed.

Lemma sumZ_count_if {A} (f : A -> Z) (test : A -> bool) (l : list A) :
  (forall x, f x = if test x then 1 else 0) -> sumZ f l = count_if test l.
Proof.
  intros H. unfold count_if.
  rewrite (sumZ_ext f (fun x => if test x then 1 else 0)) by (intros; apply H).
  rewrite sumZ_indicator. lia.
Qed.

Lemma count_if_bounds {A} (test : A -> bool) (l : list A) :
  0 <= count_if test l <= Z.of_nat (List.length l).
Proof.
  unfold count_if. pose proof (filter_length_le test l). lia.
Qed.

Lemma flag_count_is_count (column : ReadFlags -> option Z) (test : option Z -> bool)
    (codes : list (option Z)) :
  (forall code, or_zero (column (read_flags code)) = if test code then 1 else 0) ->
  Z.of_nat (List.length codes) < 2 ^ 31 ->
  flag_count column (map read_flags codes) = count_if test codes.
Proof.
  intros Hcol Hlen. unfold flag_count.
  assert (E : or_zero (sum_opt (map column (map read_flags codes))) = count_if test codes).
  { rewrite or_zero_sum_opt, map_map, sumZ_map. now apply sumZ_count_if. }
  pose proof (count_if_bounds test codes) as Hb.
  destruct (sum_opt (map column (map read_flags codes))) as [t|];
    cbn [option_map fillna0_int or_zero] in *.
  - rewrite wrap32_small; lia.
  - exact E.
Qed.

Lemma read_flags_one (code : option Z) :
  (if code_is 1 code then 1 else 0) + (if code_is 2 code then 1 else 0)
  + (if code_is 3 code then 1 else 0) + (if code_is 0 code then 1 else 0)
  + (if code_unknown code then 1 else 0) = 1.
Proof.
  destruct code as [z|]; [|reflexivity]. unfold code_is, code_unknown. cbn [existsb].
  destruct (Z.eqb_spec z 0); [subst; reflexivity|].
  destruct (Z.eqb_spec z 1); [subst; reflexivity|].
  destruct (Z.eqb_spec z 2); [subst; reflexivity|].
  destruct (Z.eqb_spec z 3); [subst; reflexivity|].
  reflexivity.
Qed.

(** In a group of fewer than 2^31 reads every read is counted in exactly
    one category: the five read counts are the numbers of reads with code
    1, 2, 3, 0 and with any other or no code, and [num_reads_total] is the
    number of reads of the group. *)
Theorem read_counts_partition (codes : list (option Z)) :
  Z.of_nat (List.length codes) < 2 ^ 31 ->
  let c := read_counts codes in
  num_reads_actual c = count_if (code_is 1) codes
  /\ num_reads_estimated c = count_if (code_is 2) codes
  /\ num_reads_prorated c = count_if (code_is 3) codes
  /\ num_reads_missed c = count_if (code_is 0) codes
  /\ num_reads_no_code c = count_if code_unknown codes
  /\ num_reads_total c = Z.of_nat (List.length codes).
Proof.
  intros Hlen c.
  assert (Ha : num_reads_actual c = count_if (code_is 1) codes).
  { apply flag_count_is_count; [|exact Hlen].
    intros [z|]; [|reflexivity]. simpl. now destruct (z =? 1). }
  assert (He : num_reads_estimated c = count_if (code_is 2) codes).
  { apply flag_count_is_count; [|exact Hlen].
    intros [z|]; [|reflexivity]. simpl. now destruct (z =? 2). }
  assert (Hp : num_reads_prorated c = count_if (code_is 3) codes).
  { apply flag_count_is_count; [|exact Hlen].
    intros [z|]; [|reflexivity]. simpl. now destruct (z =? 3). }
  assert (Hm : num_reads_missed c = count_if (code_is 0) codes).
  { apply flag_count_is_count; [|exact Hlen].
    intros [z|]; [|reflexivity]. simpl. now destruct (z =? 0). }
  assert (Hn : num_reads_no_code c = count_if code_unknown codes).
  { apply flag_count_is_count; [|exact Hlen].
    intros [z|]; [|reflexivity]. unfold read_flags, code_unknown, isin_int.
    cbn [no_code_read_flag option_map sql_not is_null sql_or when_1].
    now destruct (existsb (Z.eqb z) [0; 1; 2; 3]). }
  repeat split; try assumption.
  assert (Hsum : count_if (code_is 1) codes + count_if (code_is 2) codes
                 + count_if (code_is 3) codes + count_if (code_is 0) codes
                 + count_if code_unknown codes = Z.of_nat (List.length codes)).
  { unfold count_if. clear. induction codes as [|code codes IH]; [reflexivity|].
    pose proof (read_flags_one code) as H1. cbn [List.filter List.length].
    destruct (code_is 1 code), (code_is 2 code), (code_is 3 code), (code_is 0 code),
      (code_unknown code); cbn [List.length]; lia. }
  pose proof (count_if_bounds (code_is 1) codes).
  pose proof (count_if_bounds (code_is 2) codes).
  pose proof (count_if_bounds (code_is 3) codes).
  pose proof (count_if_bounds (code_is 0) codes).
  pose proof (count_if_bounds code_unknown codes).
  change (num_reads_total c)
    with (wrap32 (wrap32 (wrap32 (wrap32 (num_reads_actual c + num_reads_estimated c)
                                    + num_reads_prorated c) + num_reads_missed c)
                    + num_reads_no_code c)).
  rewrite Ha, He, Hp, Hm, Hn.
  rewrite (wrap32_small (count_if (code_is 1) codes + count_if (code_is 2) codes)) by lia.
  rewrite (wrap32_small (count_if (code_is 1) codes + count_if (code_is 2) codes
                         + count_if (code_is 3) codes)) by lia.
  rewrite (wrap32_small (count_if (code_is 1) codes + count_if (code_is 2) codes
                         + count_if (code_is 3) codes + count_if (code_is 0) codes)) by lia.
  rewrite wrap32_small by lia. exact Hsum.
Qed.

Lemma read_counts_partition_witness :
  let codes := map consumption_code
                 [Some "A"; Some "EST"; None; Some "ACT"; Some "X"; Some "MIS"] in
  num_reads_actual (read_counts codes) = 2
  /\ num_reads_no_code (read_counts codes) = 2
  /\ num_reads_total (read_counts codes) = 6.
Proof.
  intros codes.
  destruct (read_counts_partition codes ltac:(vm_compute; reflexivity))
    as (Ha & _ & _ & _ & Hn & Ht).
  rewrite Ha, Hn, Ht. repeat split.
Defined.


(** ** The decrypt step without a manifest *)

Lemma left_outer_covers {A B} (cond : A -> B -> bool) (left : list A) (right : list B)
    (a : A) :
  In a left -> exists ob, In (a, ob) (left_outer cond left right).
Proof.
  intros Ha. destruct (List.filter (cond a) right) as [|b bs] eqn:Hf.
  - exists None. apply left_outer_In. now split.
  - exists (Some b). apply left_outer_In. split; [exact Ha|].
    apply filter_In. rewrite Hf. now left.
Qed.

Lemma filter_nil_iff {A} (f : A -> bool) (l : list A) :
  List.filter f l = [] <-> forall x, In x l -> f x = false.
Proof.
  split.
  - intros H x Hx. destruct (f x) eqn:E; [|reflexivity].
    assert (Hin : In x (List.filter f l)) by now apply filter_In.
    rewrite H in Hin. destruct Hin.
  - intros H. induction l as [|x l IH]; [reflexivity|]. simpl.
    rewrite (H x) by now left. apply IH. intros y Hy. apply H. now right.
Qed.

Lemma join_decrypt_no_manifest_In (df_e : list EncryptedRow) (df_a : list AuditRow)
    (df_d : list DecryptedRow) (r : NoManifestJoinRow) :
  In r (join_decrypt_no_manifest df_e df_a df_d) <->
  exists e od oa,
    r = no_manifest_join_row (e, od, oa)
    /\ In e df_e
    /\ match od with
       | Some d => In d df_d /\ decrypted_matches e d = true
       | None => forall d, In d df_d -> decrypted_matches e d = false
       end
    /\ match oa with
       | Some a => In a df_a /\ audit_matches e a = true
       | None => forall a, In a df_a -> audit_matches e a = false
       end.
Proof.
  unfold join_decrypt_no_manifest. rewrite sort_by_In, in_map_iff. split.
  - intros ([[e od] oa] & E & H). exists e, od, oa. split; [now symmetry|].
    apply left_outer_In in H. destruct H as [H Ha]. cbn [fst] in Ha.
    apply left_outer_In in H. destruct H as [He Hd].
    split; [exact He|]. split.
    + destruct od as [d|]; [exact Hd|]. now apply filter_nil_iff.
    + destruct oa as [a|]; [exact Ha|]. now apply filter_nil_iff.
  - intros (e & od & oa & E & He & Hd & Ha). exists (e, od, oa). split; [now symmetry|].
    apply left_outer_In. cbn [fst]. split.
    + apply left_outer_In. split; [exact He|].
      destruct od as [d|]; [exact Hd|]. now apply filter_nil_iff.
    + destruct oa as [a|]; [exact Ha|]. now apply filter_nil_iff.
Qed.

(** Every row of the join without a manifest is the row of an encrypted
    file.  Its file flag is 0 when some decrypted file has the name of the
    encrypted one and 1 when none has; and a file that was neither
    decrypted nor audited has both line counts filled with 0, so that its
    line-count flag is 0. *)
Theorem join_decrypt_no_manifest_flags (df_e : list EncryptedRow) (df_a : list AuditRow)
    (df_d : list DecryptedRow) (r : NoManifestJoinRow) :
  In r (join_decrypt_no_manifest df_e df_a df_d) ->
  exists e,
    In e df_e /\ nj_encrypted_filename r = encrypted_filename e
    /\ (nj_file_mismatch r = 0 <-> exists d, In d df_d /\ decrypted_matches e d = true)
    /\ (nj_file_mismatch r = 1 <-> forall d, In d df_d -> decrypted_matches e d = false)
    /\ ((forall d, In d df_d -> decrypted_matches e d = false) ->
        (forall a, In a df_a -> audit_matches e a = false) ->
        nj_decrypted_linecount r = Some 0 /\ nj_audit_linecount r = Some 0
        /\ nj_linecount_mismatch r = 0).
Proof.
  intros Hin. apply join_decrypt_no_manifest_In in Hin.
  destruct Hin as (e & od & oa & -> & He & Hd & Ha).
  exists e. split; [exact He|]. split; [reflexivity|].
  unfold no_manifest_join_row.
  cbn [fst snd nj_file_mismatch nj_linecount_mismatch nj_decrypted_linecount
       nj_audit_linecount].
  destruct od as [d|].
  - destruct Hd as [Hd Hk].
    assert (Hname : exists n, decrypted_filename d = Some n).
    { unfold decrypted_matches in Hk. apply key_match_some in Hk.
      destruct Hk as (n & _ & Hn). now exists n. }
    destruct Hname as (n & Hn). cbn [opt_bind]. rewrite Hn. cbn [is_null when_1_else_0].
    split; [|split].
    + split; [intros _; now exists d|reflexivity].
    + split; [discriminate|]. intros H. rewrite (H d Hd) in Hk. discriminate.
    + intros H. rewrite (H d Hd) in Hk. discriminate.
  - cbn [opt_bind is_null when_1_else_0]. split; [|split].
    + split; [discriminate|]. intros (d & Hin & Hk). rewrite (Hd d Hin) in Hk. discriminate.
    + split; [intros _; exact Hd|reflexivity].
    + intros _ Hna. destruct oa as [a|].
      * destruct Ha as [Hina Hk]. rewrite (Hna a Hina) in Hk. discriminate.
      * repeat split.
Qed.

Lemma join_decrypt_no_manifest_flags_witness :
  let df_e := [mkEncrypted (Some "f1"); mkEncrypted (Some "f2")] in
  let df_a := [mkAudit (Some "f1") (Some "aa") (Some 10)] in
  let df_d := [mkDecrypted (Some "f1") (Some 10)] in
  let r := mkNoManifestJoin (Some "f2") None (Some 0) None (Some 0) 1 0 in
  In r (join_decrypt_no_manifest df_e df_a df_d)
  /\ exists e, In e df_e /\ nj_encrypted_filename r = encrypted_filename e.
Proof.
  intros df_e df_a df_d r.
  assert (Hin : In r (join_decrypt_no_manifest df_e df_a df_d)) by (right; left; reflexivity).
  split; [exact Hin|].
  destruct (join_decrypt_no_manifest_flags df_e df_a df_d r Hin) as (e & He & Hn & _).
  now exists e.
Defined.

(** The join drops no encrypted file: each has a row. *)
Theorem join_decrypt_no_manifest_keeps_files (df_e : list EncryptedRow)
    (df_a : list AuditRow) (df_d : list DecryptedRow) (e : EncryptedRow) :
  In e df_e ->
  exists r,
    In r (join_decrypt_no_manifest df_e df_a df_d)
    /\ nj_encrypted_filename r = encrypted_filename e.
Proof.
  intros He.
  destruct (left_outer_covers decrypted_matches df_e df_d e He) as (od & Hd).
  destruct (left_outer_covers (fun ed a => audit_matches (fst ed) a)
              (left_outer decrypted_matches df_e df_d) df_a (e, od) Hd) as (oa & Ha).
  exists (no_manifest_join_row (e, od, oa)). split; [|reflexivity].
  unfold join_decrypt_no_manifest. rewrite sort_by_In. apply in_map_iff.
  exists (e, od, oa). split; [reflexivity|exact Ha].
Qed.

Lemma join_decrypt_no_manifest_keeps_files_witness :
  exists r,
    In r (join_decrypt_no_manifest [mkEncrypted (Some "f1"); mkEncrypted None] [] [])
    /\ nj_encrypted_filename r = None.
Proof.
  apply (join_decrypt_no_manifest_keeps_files
           [mkEncrypted (Some "f1"); mkEncrypted None] [] [] (mkEncrypted None)).
  right. left. reflexivity.
Defined.

(** Without a manifest the checksum metric compares 0 with 0: a decrypt
    step that returns has persisted error rows for the file count or the
    line count only, never for the checksums. *)
Theorem decrypt_no_manifest_checksum_passes ext self (w : World) (d : DataFrame)
    (w' : World) :
  has_manifest self = false ->
  decrypt ext self w = (Ok d, w') ->
  exists new,
    calls w' = List.app new (calls w)
    /\ forall c, In c new -> call_metric c = Some (1, 1) \/ call_metric c = Some (1, 2).
Proof.
  intros Hm H. unfold decrypt in H. rewrite Hm in H.
  unfold bind, log_info, log_msg, spark_table, ret, append_completed in H.
  cbn [views set_log fst snd] in H.
  destruct (assoc "encrypted" (views w)) as [v_e|]; [|discriminate].
  cbn [views set_log fst snd] in H.
  destruct (assoc "audit" (views w)) as [v_a|]; [|discriminate].
  cbn [views set_log fst snd] in H.
  destruct (assoc "ami_summary" (views w)) as [v_d|]; [|discriminate].
  cbn [views set_log fst snd] in H.
  match type of H with
  | context [qc_individual_step ?a ?b ?c ?q ?df ?w0] =>
      destruct (qc_individual_step a b c q df w0) as [[out|e0] w1] eqn:Hstep;
        [|discriminate];
      destruct (qc_individual_step_ok_calls a b c _ q df w0 out w1 eq_refl Hstep)
        as (new & C & M)
  end.
  injection H as _ <-. exists new. split; [exact C|].
  intros c Hc. apply (in_map call_metric) in Hc. rewrite M in Hc.
  apply in_rev, in_map_iff in Hc. destruct Hc as (k & <- & Hk).
  apply filter_In in Hk. destruct Hk as [Hk Hf].
  cbn in Hk. destruct Hk as [<-|[<-|[<-|[]]]]; [now left|now right|].
  vm_compute in Hf. discriminate.
Qed.

Lemma decrypt_no_manifest_checksum_passes_witness :
  let self :=
    mkSelf "tenant-7" "2020-03-01" "s3://qc/errors" "parquet"
      (Some "s3://qc/ami_summary") (Some "s3://qc/output")
      (Some "s3://raw/audit") (Some "s3://raw/decrypted") (Some "s3://raw/encrypted")
      None (Some "s3://ci/error") (Some "s3://eca/error") (Some "s3://common")
      false false false in
  let w0 := Example.world Example.audit_table_short in
  let w := set_views (("ami_summary", Example.table Example.summary_df) :: views w0) w0 in
  exists d w',
    decrypt Example.ext_ok self w = (Ok d, w')
    /\ exists new,
         calls w' = List.app new (calls w)
         /\ forall c, In c new -> call_metric c = Some (1, 1) \/ call_metric c = Some (1, 2).
Proof.
  intros self w0 w.
  destruct (decrypt Example.ext_ok self w) as [[d|e] w'] eqn:E;
    [|vm_compute in E; discriminate].
  exists d, w'. split; [reflexivity|].
  exact (decrypt_no_manifest_checksum_passes Example.ext_ok self w d w' eq_refl E).
Defined.
